(** * Access control, audit anonymisation and rate limiting of the judges system

    A shallow embedding of
    - [src/lib/abac/evaluator.ts]   (the ABAC evaluator),
    - [src/lib/abac/types.ts]       (classification levels),
    - [src/lib/vault/middleware.ts] (the fixed-window rate limiter),
    - [src/scripts/migrations/016_admin_audit_complete.sql]
      (the grant trigger and the anonymised audit view),
    together with the properties the specification states about them. *)

From Stdlib Require Import ZArith Ascii String List Bool Lia.
From stdpp Require Import base option list strings gmap.

Import ListNotations.
Local Open Scope string_scope.
Local Open Scope Z_scope.

(** ** JavaScript values used by the evaluator *)

Module JS.

(** [s.startsWith(p)] *)
Definition startsWith (s p : string) : bool := String.prefix p s.

(** [s.includes(sub)] *)
Fixpoint includes (s sub : string) : bool :=
  String.prefix sub s
  || match s with
     | EmptyString => false
     | String _ rest => includes rest sub
     end.

(** The double-quote character, as a string. *)
Definition quote : string := String (ascii_of_nat 34) EmptyString.

(** A string in a boolean position: only the empty string is falsy. *)
Definition truthy (s : string) : bool :=
  match s with EmptyString => false | _ => true end.

(** The properties every object literal inherits from [Object.prototype],
    with the text a template literal renders them as. *)
Definition native (f : string) : string :=
  "function " +:+ f +:+ "() { [native code] }".

Definition object_prototype : list (string * string) :=
  [ ("constructor", native "Object");
    ("__defineGetter__", native "__defineGetter__");
    ("__defineSetter__", native "__defineSetter__");
    ("hasOwnProperty", native "hasOwnProperty");
    ("__lookupGetter__", native "__lookupGetter__");
    ("__lookupSetter__", native "__lookupSetter__");
    ("isPrototypeOf", native "isPrototypeOf");
    ("propertyIsEnumerable", native "propertyIsEnumerable");
    ("toString", native "toString");
    ("valueOf", native "valueOf");
    ("__proto__", "[object Object]");
    ("toLocaleString", native "toLocaleString") ].

Fixpoint assoc {A : Type} (l : list (string * A)) (key : string) : option A :=
  match l with
  | [] => None
  | (k, v) :: rest => if String.eqb k key then Some v else assoc rest key
  end.

(** The result of [obj[key]] on an object literal [obj]: one of its own
    entries, a member of [Object.prototype] (a function or an object, never
    a string or a number), or [undefined]. *)
Inductive Property (A : Type) : Type :=
| Own (v : A)
| Inherited (shown : string)
| Undefined.
Arguments Own {A} v.
Arguments Inherited {A} shown.
Arguments Undefined {A}.

Definition get {A : Type} (obj : list (string * A)) (key : string) : Property A :=
  match assoc obj key with
  | Some v => Own v
  | None =>
      match assoc object_prototype key with
      | Some shown => Inherited shown
      | None => Undefined
      end
  end.

Definition hasOwn {A : Type} (obj : list (string * A)) (key : string) : bool :=
  match assoc obj key with Some _ => true | None => false end.

Definition inherited (key : string) : bool :=
  match assoc object_prototype key with Some _ => true | None => false end.

End JS.

(** ** Promises, exceptions and the audit sink *)

(** What an awaited store call gives back: the promise rejects, or it
    resolves to the [{data, error}] pair of the client library. *)
Inductive Reply (A : Type) : Type :=
| Rejected (e : string)
| Resolved (data : option A) (error : option string).
Arguments Rejected {A} e.
Arguments Resolved {A} data error.

Inductive Outcome (A : Type) : Type :=
| Returns (a : A)
| Throws (e : string).
Arguments Returns {A} a.
Arguments Throws {A} e.

Module UserAttribute.
Record t : Type := mk
  { id : string;
    name : string;
    category : string;
    level : Z;
    description : option string }.
End UserAttribute.

Module EvaluationContext.
Record t : Type := mk
  { userId : string;
    action : string;
    resourceType : string;
    resourceId : option string;
    metadata : option (gmap string string) }.

(** [context.metadata?.classification]; the values of [metadata] are taken
    to be strings. *)
Definition classification (c : t) : option string :=
  match metadata c with
  | None => None
  | Some m => m !! "classification"
  end.
End EvaluationContext.

Module EvaluationResult.
Record t : Type := mk
  { allowed : bool;
    reason : string;
    policy : option string;
    attributesChecked : option (list string) }.
End EvaluationResult.

(** A row of [policy_enforcement_log] as [logDecision] inserts it. *)
Module LogEntry.
Record t : Type := mk
  { user_id : string;
    policy_id : option string;
    action : string;
    resource_type : string;
    resource_id : option string;
    result : string;
    reason : string;
    metadata : option (gmap string string) }.
End LogEntry.

Inductive InsertReply : Type :=
| Inserted
| InsertError (error : string)
| InsertRejected (e : string).

(** The three store calls the evaluator makes. *)
Record SupabaseClient : Type :=
  { select_user_attributes : string -> Reply (list (option UserAttribute.t));
    select_clearances : string -> Reply (list (option string));
    insert_policy_enforcement_log : LogEntry.t -> InsertReply }.

(** The store that answers the two queries with [grants] and [clearances]
    and takes inserts as [sink] says. *)
Definition storeOf (grants : string -> Reply (list (option UserAttribute.t)))
    (clearances : string -> Reply (list (option string)))
    (sink : LogEntry.t -> InsertReply) : SupabaseClient :=
  {| select_user_attributes := grants;
     select_clearances := clearances;
     insert_policy_enforcement_log := sink |}.

(** The audit sink: every insert the evaluator issued, and the rows the
    store kept. *)
Record AuditSink : Type :=
  { requests : list LogEntry.t;
    rows : list LogEntry.t }.

Definition empty_sink : AuditSink := {| requests := []; rows := [] |}.

(** Computations that may throw and that write to the audit sink. *)
Definition M (A : Type) : Type := AuditSink -> Outcome A * AuditSink.

Definition ret {A : Type} (a : A) : M A := fun s => (Returns a, s).
Definition throw {A : Type} (e : string) : M A := fun s => (Throws e, s).
Definition bind {A B : Type} (m : M A) (k : A -> M B) : M B :=
  fun s =>
    match m s with
    | (Returns a, s') => k a s'
    | (Throws e, s') => (Throws e, s')
    end.
Definition try_catch {A : Type} (m : M A) (handler : string -> M A) : M A :=
  fun s =>
    match m s with
    | (Returns a, s') => (Returns a, s')
    | (Throws e, s') => handler e s'
    end.

#[global] Instance M_ret : MRet M := @ret.
#[global] Instance M_bind : MBind M := fun A B k m => bind m k.


(** ** The ABAC evaluator ([src/lib/abac/evaluator.ts]) *)

Module ABACEvaluator.

Import UserAttribute.

(** Awaiting a store call: a rejected promise is a thrown exception. *)
Definition await {A : Type} (r : Reply A) : M (option A * option string) :=
  match r with
  | Rejected e => throw e
  | Resolved data error => mret (data, error)
  end.

(** [getUserAttributes]: throws the store's error; otherwise flattens the
    nested rows and drops the ones without an attribute. A null [data]
    counts as no rows. *)
Definition getUserAttributes (userId : string) (supabase : SupabaseClient)
  : M (list UserAttribute.t) :=
  '(data, error) ← await (select_user_attributes supabase userId);
  match error with
  | Some e => throw e
  | None =>
      match data with
      | Some rows => mret (omap (fun ua => ua) rows)
      | None => mret []
      end
  end.

Definition mapping : list (string * string) :=
  [ ("case.create", "case.create");
    ("case.view", "case.list.view");
    ("case.view_details", "case.details.view");
    ("case.edit", "case.edit.metadata");
    ("case.update_status", "case.edit.status");
    ("case.assign", "case.assign.judge");
    ("case.close", "case.close");
    ("case.delete", "case.delete");
    ("doc.view", "doc.view");
    ("doc.upload", "doc.upload");
    ("doc.download", "doc.download");
    ("doc.sign", "doc.sign.digital");
    ("doc.delete", "doc.delete");
    ("user.list", "user.list.view");
    ("user.view", "user.profile.view");
    ("user.create", "user.create");
    ("user.edit", "user.edit");
    ("user.deactivate", "user.deactivate");
    ("admin.reveal_identity", "admin.vault.reveal_identity");
    ("admin.abac", "admin.abac.manage");
    ("admin.audit", "admin.audit.view") ].

(** [mapping[action] || null]. The source declares the result as
    [string | null]; a key inherited from [Object.prototype] makes it a
    function or an object instead, which is truthy. *)
Definition mapActionToAttribute (action : string) : JS.Property string :=
  match JS.get mapping action with
  | JS.Own v => if JS.truthy v then JS.Own v else JS.Undefined
  | JS.Inherited shown => JS.Inherited shown
  | JS.Undefined => JS.Undefined
  end.

Definition rules : list (string * list string) :=
  [ ("restrict.no_export", ["doc.download"; "doc.export"]);
    ("restrict.no_delete", ["case.delete"; "doc.delete"; "user.deactivate"]);
    ("restrict.read_only", ["case.edit"; "case.create"; "doc.upload"; "doc.delete"]) ].

(** [(rules[restriction] || []).some(blocked => action.startsWith(blocked))];
    an inherited member has no [some] method, so the call throws. *)
Definition restrictionAppliesToAction (restriction action : string) : M bool :=
  match JS.get rules restriction with
  | JS.Own blockedActions => mret (existsb (JS.startsWith action) blockedActions)
  | JS.Inherited _ => throw "TypeError: blockedActions.some is not a function"
  | JS.Undefined => mret false
  end.

Definition requiredLevels : list (string * Z) :=
  [ ("public", 1); ("confidential", 2); ("secret", 3); ("top_secret", 4) ].

(** The level a clearance attribute's name stands for; [L1] is tested
    first. *)
Definition levelOfName (name : string) : Z :=
  if JS.includes name "L1" then 1
  else if JS.includes name "L2" then 2
  else if JS.includes name "L3" then 3
  else if JS.includes name "L4" then 4
  else 0.

(** [Math.max(...levels)] on a list that is not empty. *)
Definition maxLevelOf (levels : list Z) : Z :=
  match levels with
  | [] => 0
  | l :: rest => fold_left Z.max rest l
  end.

(** The names of the rows; reading [abac_attributes.name] of a row whose
    [abac_attributes] is null throws. *)
Fixpoint levelsOfRows (rows : list (option string)) : M (list Z) :=
  match rows with
  | [] => mret []
  | None :: _ => throw "TypeError: Cannot read properties of null (reading 'name')"
  | Some name :: rest =>
      levels ← levelsOfRows rest;
      mret (levelOfName name :: levels)
  end.

(** [checkClearanceLevel]. Only [data] is read from the reply: an error
    the store returns goes unnoticed and leaves [data] null. *)
Definition checkClearanceLevel (userId classification : string)
    (supabase : SupabaseClient) : M bool :=
  let requiredLevel := JS.get requiredLevels classification in
  '(data, _) ← await (select_clearances supabase userId);
  match data with
  | None | Some [] => mret (String.eqb classification "public")
  | Some rows =>
      levels ← levelsOfRows rows;
      let maxLevel := maxLevelOf levels in
      match requiredLevel with
      | JS.Own required =>
          (* every level of the table is truthy, so [|| 1] leaves it *)
          mret (if Z.eqb required 0 then 1 <=? maxLevel else required <=? maxLevel)
      | JS.Inherited _ => mret false   (* a comparison with NaN *)
      | JS.Undefined => mret (1 <=? maxLevel)
      end
  end.

Definition entry (context : EvaluationContext.t) (allowed : bool)
    (reason : string) (policyId : option string) : LogEntry.t :=
  {| LogEntry.user_id := EvaluationContext.userId context;
     LogEntry.policy_id := policyId;
     LogEntry.action := EvaluationContext.action context;
     LogEntry.resource_type := EvaluationContext.resourceType context;
     LogEntry.resource_id := EvaluationContext.resourceId context;
     LogEntry.result := if allowed then "allow" else "deny";
     LogEntry.reason := reason;
     LogEntry.metadata := EvaluationContext.metadata context |}.

(** The awaited insert: the request reaches the sink, which keeps the row,
    answers with an error, or rejects. *)
Definition insert (supabase : SupabaseClient) (e : LogEntry.t) : M unit :=
  fun sink =>
    match insert_policy_enforcement_log supabase e with
    | Inserted =>
        (Returns (), {| requests := requests sink ++ [e]; rows := rows sink ++ [e] |})
    | InsertError _ =>
        (Returns (), {| requests := requests sink ++ [e]; rows := rows sink |})
    | InsertRejected err =>
        (Throws err, {| requests := requests sink ++ [e]; rows := rows sink |})
    end.

(** [logDecision]: a failed insert is swallowed. *)
Definition logDecision (context : EvaluationContext.t) (allowed : bool)
    (reason : string) (supabase : SupabaseClient) : M unit :=
  try_catch (insert supabase (entry context allowed reason None))
            (fun _ => mret ()).

Definition showDescription (d : option string) : string :=
  match d with Some s => s | None => "null" end.

Definition restrictionDenial (restriction : UserAttribute.t) : EvaluationResult.t :=
  {| EvaluationResult.allowed := false;
     EvaluationResult.reason :=
       "Acción bloqueada por restricción: "
       +:+ showDescription (description restriction);
     EvaluationResult.policy := Some "Restriction Policy";
     EvaluationResult.attributesChecked := None |}.

(** The loop over the restrictions; [Some r] is an early [return r]. *)
Fixpoint checkRestrictions (context : EvaluationContext.t)
    (supabase : SupabaseClient) (restrictions : list UserAttribute.t)
  : M (option EvaluationResult.t) :=
  match restrictions with
  | [] => mret None
  | restriction :: rest =>
      applies ← restrictionAppliesToAction (name restriction)
                  (EvaluationContext.action context);
      if (applies : bool) then
        logDecision context false
          ("Blocked by restriction: " +:+ name restriction) supabase;;
        mret (Some (restrictionDenial restriction))
      else checkRestrictions context supabase rest
  end.

(** The attribute the action requires and the subject lacks, as the
    denial shows it. *)
Definition missingAttribute (action : string)
    (userAttributes : list UserAttribute.t) : option string :=
  match mapActionToAttribute action with
  | JS.Own requiredAttribute =>
      if existsb (fun attr => String.eqb (name attr) requiredAttribute) userAttributes
      then None else Some requiredAttribute
  | JS.Inherited shown => Some shown   (* [===] with a string is false *)
  | JS.Undefined => None
  end.

Definition systemError : EvaluationResult.t :=
  {| EvaluationResult.allowed := false;
     EvaluationResult.reason := "Error del sistema - acceso denegado por seguridad";
     EvaluationResult.policy := None;
     EvaluationResult.attributesChecked := None |}.

Definition missingDenial (requiredAttribute : string) : EvaluationResult.t :=
  {| EvaluationResult.allowed := false;
     EvaluationResult.reason :=
       "Permiso denegado: requiere atributo " +:+ JS.quote +:+ requiredAttribute
       +:+ JS.quote;
     EvaluationResult.policy := None;
     EvaluationResult.attributesChecked := Some [requiredAttribute] |}.

Definition clearanceDenial : EvaluationResult.t :=
  {| EvaluationResult.allowed := false;
     EvaluationResult.reason := "Nivel de seguridad insuficiente para este caso";
     EvaluationResult.policy := Some "Classification Control";
     EvaluationResult.attributesChecked := None |}.

Definition permitted (userAttributes : list UserAttribute.t) : EvaluationResult.t :=
  {| EvaluationResult.allowed := true;
     EvaluationResult.reason := "Acceso permitido";
     EvaluationResult.policy := None;
     EvaluationResult.attributesChecked := Some (map name userAttributes) |}.

(** Step 4, the clearance check on a classified case. *)
Definition checkClassification (context : EvaluationContext.t)
    (supabase : SupabaseClient) : M (option EvaluationResult.t) :=
  match EvaluationContext.classification context with
  | Some classification =>
      if String.eqb (EvaluationContext.resourceType context) "case"
         && JS.truthy classification
      then
        hasProperClearance ←
          checkClearanceLevel (EvaluationContext.userId context) classification supabase;
        if (hasProperClearance : bool) then mret None
        else
          logDecision context false
            ("Insufficient clearance for classification: " +:+ classification)
            supabase;;
          mret (Some clearanceDenial)
      else mret None
  | None => mret None
  end.

(** The body of the [try] block of [checkPermission]. *)
Definition evaluate (createClient : Outcome SupabaseClient)
    (context : EvaluationContext.t) : M EvaluationResult.t :=
  supabase ← match createClient with
             | Returns client => mret client
             | Throws e => throw e
             end;
  (* 1 *)
  userAttributes ← getUserAttributes (EvaluationContext.userId context) supabase;
  (* 2 *)
  match missingAttribute (EvaluationContext.action context) userAttributes with
  | Some requiredAttribute =>
      logDecision context false
        ("Missing required attribute: " +:+ requiredAttribute) supabase;;
      mret (missingDenial requiredAttribute)
  | None =>
      (* 3 *)
      let restrictions :=
        List.filter (fun attr => String.eqb (category attr) "restriction")
                    userAttributes in
      blocked ← checkRestrictions context supabase restrictions;
      match blocked with
      | Some denial => mret denial
      | None =>
          (* 4 *)
          unclear ← checkClassification context supabase;
          match unclear with
          | Some denial => mret denial
          | None =>
              (* 5 *)
              logDecision context true "All checks passed" supabase;;
              mret (permitted userAttributes)
          end
      end
  end.

(** [checkPermission]: whatever the body throws is answered with a
    denial. *)
Definition checkPermission (createClient : Outcome SupabaseClient)
    (context : EvaluationContext.t) : M EvaluationResult.t :=
  try_catch (evaluate createClient context) (fun _ => mret systemError).

(** [enforcePermission] throws the reason of a denial. *)
Definition enforcePermission (createClient : Outcome SupabaseClient)
    (userId action resourceType : string) (resourceId : option string)
    (metadata : option (gmap string string)) : M unit :=
  result ← checkPermission createClient
             (EvaluationContext.mk userId action resourceType resourceId metadata);
  if EvaluationResult.allowed result then mret ()
  else throw (EvaluationResult.reason result).

End ABACEvaluator.

(** ** The tables behind the store *)

Module UserAttributeAssignment.
Record t : Type := mk
  { id : string;
    user_id : string;
    attribute_id : string;
    granted_by : string;
    granted_at : Z;
    expires_at : option Z;
    reason : option string }.
End UserAttributeAssignment.

(** [users_profile] maps a user id to its role, [abac_attributes] an
    attribute id to the catalogue entry, [user_attributes] holds the
    grants. *)
Record Database : Type :=
  { users_profile : gmap string string;
    abac_attributes : gmap string UserAttribute.t;
    user_attributes : list UserAttributeAssignment.t }.

Module Store.

Import UserAttributeAssignment.

(** [expires_at.is.null,expires_at.gt.now()] *)
Definition active (now : Z) (ua : UserAttributeAssignment.t) : bool :=
  match expires_at ua with
  | None => true
  | Some t => now <? t
  end.

(** [.eq('user_id', userId).or('expires_at.is.null,expires_at.gt.now()')] *)
Definition activeGrants (db : Database) (now : Z) (userId : string)
  : list UserAttributeAssignment.t :=
  List.filter (fun ua => String.eqb (user_id ua) userId && active now ua)
              (user_attributes db).

(** The query of [getUserAttributes]: each grant with its embedded
    catalogue entry. *)
Definition userAttributesQuery (db : Database) (now : Z) (userId : string)
  : list (option UserAttribute.t) :=
  map (fun ua => abac_attributes db !! attribute_id ua) (activeGrants db now userId).

(** The attributes the subject actively holds. *)
Definition activeAttributes (db : Database) (now : Z) (userId : string)
  : list UserAttribute.t :=
  omap (fun ua => abac_attributes db !! attribute_id ua) (activeGrants db now userId).

(** The query of [checkClearanceLevel]: an inner join, restricted to names
    [LIKE 'clearance.%']. *)
Definition clearanceNames (db : Database) (now : Z) (userId : string)
  : list string :=
  List.filter (fun n => JS.startsWith n "clearance.")
              (map UserAttribute.name (activeAttributes db now userId)).

(** The answers of a store that serves both queries from the tables. *)
Definition grants (db : Database) (now : Z) (userId : string)
  : Reply (list (option UserAttribute.t)) :=
  Resolved (Some (userAttributesQuery db now userId)) None.

Definition clearances (db : Database) (now : Z) (userId : string)
  : Reply (list (option string)) :=
  Resolved (Some (map Some (clearanceNames db now userId))) None.

(** Such a store; [sink] says how it takes each insert into
    [policy_enforcement_log]. *)
Definition client (db : Database) (now : Z) (sink : LogEntry.t -> InsertReply)
  : SupabaseClient :=
  storeOf (grants db now) (clearances db now) sink.

End Store.

(** ** The grant trigger ([016_admin_audit_complete.sql], section 8) *)

Module Trigger.

Import UserAttributeAssignment.

Definition userManagement : list string :=
  [ "user.profile.view"; "user.create"; "user.edit"; "user.deactivate" ].

Definition vaultViolation (attr_name : string) : string :=
  "SECURITY VIOLATION: Admin role cannot have vault access attributes. Attempted: "
  +:+ attr_name.
Definition userViolation (attr_name : string) : string :=
  "SECURITY VIOLATION: Admin role cannot have user management attributes. Attempted: "
  +:+ attr_name.
Definition caseViolation (attr_name : string) : string :=
  "SECURITY VIOLATION: Admin role cannot have case access attributes. Attempted: "
  +:+ attr_name.

(** [check_admin_no_vault_access]: a role or a name that is NULL makes
    every condition unknown, and the row passes. *)
Definition check_admin_no_vault_access (db : Database)
    (NEW : UserAttributeAssignment.t) : Outcome UserAttributeAssignment.t :=
  let user_role := users_profile db !! user_id NEW in
  let attr_name := UserAttribute.name <$> abac_attributes db !! attribute_id NEW in
  match user_role, attr_name with
  | Some user_role, Some attr_name =>
      if String.eqb user_role "admin" && JS.startsWith attr_name "admin.vault."
      then Throws (vaultViolation attr_name)
      else if String.eqb user_role "admin"
              && existsb (String.eqb attr_name) userManagement
      then Throws (userViolation attr_name)
      else if String.eqb user_role "admin" && JS.startsWith attr_name "case."
              && negb (String.eqb attr_name "audit.cases.stats")
      then Throws (caseViolation attr_name)
      else Returns NEW
  | _, _ => Returns NEW
  end.

Definition withGrants (db : Database) (grants : list UserAttributeAssignment.t)
  : Database :=
  {| users_profile := users_profile db;
     abac_attributes := abac_attributes db;
     user_attributes := grants |}.

(** [INSERT INTO user_attributes], with the trigger before it. *)
Definition insertGrant (db : Database) (NEW : UserAttributeAssignment.t)
  : Outcome Database :=
  match check_admin_no_vault_access db NEW with
  | Returns row => Returns (withGrants db (user_attributes db ++ [row]))
  | Throws e => Throws e
  end.

(** [UPDATE user_attributes] of the row at position [i], with the trigger
    before it. *)
Definition updateGrant (db : Database) (i : nat) (NEW : UserAttributeAssignment.t)
  : Outcome Database :=
  match check_admin_no_vault_access db NEW with
  | Returns row => Returns (withGrants db (<[i := row]> (user_attributes db)))
  | Throws e => Throws e
  end.

(** [DELETE FROM user_attributes]: no trigger. *)
Definition deleteGrant (db : Database) (i : nat) : Database :=
  withGrants db (delete i (user_attributes db)).

(** The attribute names the auditor role must not hold. *)
Definition forbidden (attr_name : string) : bool :=
  JS.startsWith attr_name "admin.vault."
  || existsb (String.eqb attr_name) userManagement
  || JS.startsWith attr_name "case.".

(** The grant gives an auditor a forbidden attribute. *)
Definition violates (db : Database) (ua : UserAttributeAssignment.t) : bool :=
  match users_profile db !! user_id ua,
        abac_attributes db !! attribute_id ua with
  | Some role, Some attribute =>
      String.eqb role "admin" && forbidden (UserAttribute.name attribute)
  | _, _ => false
  end.

Definition invariant (db : Database) : Prop :=
  Forall (fun ua => violates db ua = false) (user_attributes db).

(** The writes to [user_attributes]. *)
Inductive step (db : Database) : Database -> Prop :=
| step_insert NEW db' : insertGrant db NEW = Returns db' -> step db db'
| step_update i NEW db' : updateGrant db i NEW = Returns db' -> step db db'
| step_delete i : step db (deleteGrant db i).

(** The states reached from a database without grants. *)
Inductive reachable (db0 : Database) : Database -> Prop :=
| reachable_init : user_attributes db0 = [] -> reachable db0 db0
| reachable_step db db' : reachable db0 db -> step db db' -> reachable db0 db'.

End Trigger.

(** ** The rate limiter ([src/lib/vault/middleware.ts]) *)

Module RateLimit.

Record Entry : Type := { count : Z; resetAt : Z }.

Record Result : Type := { allowed : bool; remaining : Z; resetIn : Z }.

Definition RATE_LIMIT_WINDOW_MS : Z := 60 * 1000.
Definition ADMIN_RATE_LIMIT : Z := 50.
Definition GENERAL_RATE_LIMIT : Z := 100.

Definition key (identifier : string) : string := "rate:" +:+ identifier.

(** [checkRateLimit] at time [now = Date.now()], on the process-wide
    [rateLimitStore]; the entry is updated in place. *)
Definition checkRateLimit (identifier : string) (maxRequests : Z) (now : Z)
    (rateLimitStore : gmap string Entry) : Result * gmap string Entry :=
  let renewed :=
    ({| allowed := true;
        remaining := maxRequests - 1;
        resetIn := RATE_LIMIT_WINDOW_MS |},
     <[key identifier := {| count := 1; resetAt := now + RATE_LIMIT_WINDOW_MS |}]>
       rateLimitStore) in
  match rateLimitStore !! key identifier with
  | None => renewed
  | Some current =>
      if resetAt current <? now then renewed
      else
        let current := {| count := count current + 1; resetAt := resetAt current |} in
        ({| allowed := count current <=? maxRequests;
            remaining := Z.max 0 (maxRequests - count current);
            resetIn := resetAt current - now |},
         <[key identifier := current]> rateLimitStore)
  end.

(** One request after the other, at the given times; the answers in
    order, and the store left behind. *)
Fixpoint requestsAt (identifier : string) (maxRequests : Z) (times : list Z)
    (rateLimitStore : gmap string Entry) : list Result * gmap string Entry :=
  match times with
  | [] => ([], rateLimitStore)
  | now :: later =>
      let '(r, store1) := checkRateLimit identifier maxRequests now rateLimitStore in
      let '(rs, store2) := requestsAt identifier maxRequests later store1 in
      (r :: rs, store2)
  end.

End RateLimit.

(** ** MD5, the hash of the anonymised view *)

Module MD5.

Definition mask : Z := 0xffffffff.

Definition add32 (a b : Z) : Z := Z.land (a + b) mask.

Definition rotl32 (x c : Z) : Z :=
  Z.land (Z.lor (Z.shiftl x c) (Z.shiftr x (32 - c))) mask.

Definition not32 (x : Z) : Z := Z.lxor x mask.

Definition shifts : list Z :=
  [ 7; 12; 17; 22; 7; 12; 17; 22; 7; 12; 17; 22; 7; 12; 17; 22;
    5; 9; 14; 20; 5; 9; 14; 20; 5; 9; 14; 20; 5; 9; 14; 20;
    4; 11; 16; 23; 4; 11; 16; 23; 4; 11; 16; 23; 4; 11; 16; 23;
    6; 10; 15; 21; 6; 10; 15; 21; 6; 10; 15; 21; 6; 10; 15; 21 ].

Definition K : list Z :=
  [ 0xd76aa478; 0xe8c7b756; 0x242070db; 0xc1bdceee;
    0xf57c0faf; 0x4787c62a; 0xa8304613; 0xfd469501;
    0x698098d8; 0x8b44f7af; 0xffff5bb1; 0x895cd7be;
    0x6b901122; 0xfd987193; 0xa679438e; 0x49b40821;
    0xf61e2562; 0xc040b340; 0x265e5a51; 0xe9b6c7aa;
    0xd62f105d; 0x02441453; 0xd8a1e681; 0xe7d3fbc8;
    0x21e1cde6; 0xc33707d6; 0xf4d50d87; 0x455a14ed;
    0xa9e3e905; 0xfcefa3f8; 0x676f02d9; 0x8d2a4c8a;
    0xfffa3942; 0x8771f681; 0x6d9d6122; 0xfde5380c;
    0xa4beea44; 0x4bdecfa9; 0xf6bb4b60; 0xbebfbc70;
    0x289b7ec6; 0xeaa127fa; 0xd4ef3085; 0x04881d05;
    0xd9d4d039; 0xe6db99e5; 0x1fa27cf8; 0xc4ac5665;
    0xf4292244; 0x432aff97; 0xab9423a7; 0xfc93a039;
    0x655b59c3; 0x8f0ccc92; 0xffeff47d; 0x85845dd1;
    0x6fa87e4f; 0xfe2ce6e0; 0xa3014314; 0x4e0811a1;
    0xf7537e82; 0xbd3af235; 0x2ad7d2bb; 0xeb86d391 ].

Definition bytesOf (s : string) : list Z :=
  map (fun c => Z.of_nat (nat_of_ascii c)) (list_ascii_of_string s).

(** [n] little-endian bytes of [x]. *)
Fixpoint littleEndian (n : nat) (x : Z) : list Z :=
  match n with
  | O => []
  | S n' => Z.land x 0xff :: littleEndian n' (Z.shiftr x 8)
  end.

Definition pad (message : list Z) : list Z :=
  let len := Z.of_nat (length message) in
  message ++ [0x80]
  ++ repeat 0 (Z.to_nat ((55 - len) mod 64))
  ++ littleEndian 8 (8 * len).

Fixpoint wordsOf (n : nat) (bytes : list Z) : list Z :=
  match n, bytes with
  | S n', b0 :: b1 :: b2 :: b3 :: rest =>
      (b0 + Z.shiftl b1 8 + Z.shiftl b2 16 + Z.shiftl b3 24) :: wordsOf n' rest
  | _, _ => []
  end.

Definition State : Type := (Z * Z * Z * Z)%type.

Definition operation (block : list Z) (st : State) (i : Z) : State :=
  let '(a, b, c, d) := st in
  let '(f, g) :=
    if i <? 16 then (Z.lor (Z.land b c) (Z.land (not32 b) d), i)
    else if i <? 32 then (Z.lor (Z.land d b) (Z.land (not32 d) c), (5 * i + 1) mod 16)
    else if i <? 48 then (Z.lxor (Z.lxor b c) d, (3 * i + 5) mod 16)
    else (Z.lxor c (Z.lor b (not32 d)), (7 * i) mod 16) in
  let sum :=
    add32 (add32 (add32 f a) (nth (Z.to_nat i) K 0)) (nth (Z.to_nat g) block 0) in
  (d, add32 b (rotl32 sum (nth (Z.to_nat i) shifts 0)), b, c).

Definition compress (st : State) (block : list Z) : State :=
  let '(a0, b0, c0, d0) := st in
  let '(a, b, c, d) :=
    fold_left (operation block) (map Z.of_nat (seq 0 64)) st in
  (add32 a0 a, add32 b0 b, add32 c0 c, add32 d0 d).

(** The 64-byte blocks of the padded message, as sixteen words each. *)
Fixpoint blocksOf (n : nat) (bytes : list Z) : list (list Z) :=
  match n with
  | O => []
  | S n' => wordsOf 16 (firstn 64 bytes) :: blocksOf n' (skipn 64 bytes)
  end.

Definition initial : State := (0x67452301, 0xefcdab89, 0x98badcfe, 0x10325476).

Definition digest (message : list Z) : list Z :=
  let padded := pad message in
  let '(a, b, c, d) :=
    fold_left compress (blocksOf (Nat.div (length padded) 64) padded) initial in
  littleEndian 4 a ++ littleEndian 4 b ++ littleEndian 4 c ++ littleEndian 4 d.

Definition hexDigit (n : Z) : ascii :=
  nth (Z.to_nat n) (list_ascii_of_string "0123456789abcdef") "0"%char.

Fixpoint hex (bytes : list Z) : string :=
  match bytes with
  | [] => EmptyString
  | b :: rest => String (hexDigit (Z.shiftr b 4)) (String (hexDigit (Z.land b 0xf)) (hex rest))
  end.

(** PostgreSQL's [MD5(text)]: the digest in lower-case hexadecimal. *)
Definition MD5 (s : string) : string := hex (digest (bytesOf s)).

End MD5.

(** ** The anonymised audit view ([016_admin_audit_complete.sql], section 3) *)

Module PolicyEnforcementLog.
(** A stored row: what [logDecision] inserted, with the columns the table
    fills in. The [timestamp] is in seconds since the epoch. *)
Record t : Type := mk
  { id : string;
    user_id : string;
    action : string;
    resource_type : string;
    resource_id : option string;
    result : string;
    reason : option string;
    metadata : option (gmap string string);
    timestamp : Z }.

Definition ofEntry (id : string) (timestamp : Z) (e : LogEntry.t) : t :=
  {| id := id;
     user_id := LogEntry.user_id e;
     action := LogEntry.action e;
     resource_type := LogEntry.resource_type e;
     resource_id := LogEntry.resource_id e;
     result := LogEntry.result e;
     reason := Some (LogEntry.reason e);
     metadata := LogEntry.metadata e;
     timestamp := timestamp |}.
End PolicyEnforcementLog.

Module AuditLogsSanitized.

Record t : Type := mk
  { id : string;
    user_hash : string;
    action : string;
    resource_type : string;
    result : string;
    reason_sanitized : option string;
    timestamp : Z;
    hour_of_day : Z;
    day_of_week : Z }.

Definition isHex (c : ascii) : bool :=
  let n := nat_of_ascii c in
  ((48 <=? n)%nat && (n <=? 57)%nat) || ((97 <=? n)%nat && (n <=? 102)%nat).

Definition isDash (c : ascii) : bool := (nat_of_ascii c =? 45)%nat.

(** The pattern [[0-9a-f]{8}-[0-9a-f]{4}-[0-9a-f]{4}-[0-9a-f]{4}-[0-9a-f]{12}],
    one class per character. *)
Definition uuidPattern : list (ascii -> bool) :=
  repeat isHex 8 ++ [isDash] ++ repeat isHex 4 ++ [isDash] ++ repeat isHex 4
  ++ [isDash] ++ repeat isHex 4 ++ [isDash] ++ repeat isHex 12.

(** The pattern matches at the start of [s]. *)
Fixpoint matchesAt (pattern : list (ascii -> bool)) (s : string) : bool :=
  match pattern, s with
  | [], _ => true
  | _ :: _, EmptyString => false
  | class :: pattern', String c s' => class c && matchesAt pattern' s'
  end.

(** [s ~ pattern]: the pattern matches somewhere in [s]. *)
Fixpoint matches (pattern : list (ascii -> bool)) (s : string) : bool :=
  matchesAt pattern s
  || match s with
     | EmptyString => false
     | String _ s' => matches pattern s'
     end.

(** The [CASE] expression of [reason_sanitized]; a character is a byte here
    (the reasons the evaluator logs are ASCII). *)
Definition sanitize (reason : option string) : option string :=
  match reason with
  | None => None
  | Some r =>
      if matches uuidPattern r then Some "Access decision logged"
      else if (100 <? String.length r)%nat then Some (substring 0 100 r +:+ "...")
      else Some r
  end.

(** [SUBSTRING(MD5(user_id::text), 1, 8)] *)
Definition userHash (user_id : string) : string :=
  substring 0 8 (MD5.MD5 user_id).

(** One row of the view; hour and weekday are taken in UTC. *)
Definition audit_logs_sanitized (pel : PolicyEnforcementLog.t) : t :=
  {| id := PolicyEnforcementLog.id pel;
     user_hash := userHash (PolicyEnforcementLog.user_id pel);
     action := PolicyEnforcementLog.action pel;
     resource_type := PolicyEnforcementLog.resource_type pel;
     result := PolicyEnforcementLog.result pel;
     reason_sanitized := sanitize (PolicyEnforcementLog.reason pel);
     timestamp := PolicyEnforcementLog.timestamp pel;
     hour_of_day := (PolicyEnforcementLog.timestamp pel / 3600) mod 24;
     day_of_week := (PolicyEnforcementLog.timestamp pel / 86400 + 4) mod 7 |}.

(** The text columns of a row of the view. *)
Definition textFields (row : t) : list string :=
  [ id row; user_hash row; action row; resource_type row; result row ]
  ++ match reason_sanitized row with Some r => [r] | None => [] end.

End AuditLogsSanitized.

(** ** Ephemeral credentials *)

Module EphemeralCredentialsService.

(** Modelled from the spec: the [EphemeralCredential] of its data model; the
    table [ephemeral_credentials] is only read by the [audit_token_stats]
    view. *)
Record EphemeralCredential : Type :=
  { token : string;
    caseId : string;
    issuedTo : string;
    issuedAt : Z;
    expiresAt : Z;
    usedAt : option Z }.

(** Modelled from the spec: [src/lib/services/ephemeral-credentials] is not
    among the sources. [issue] creates a credential for the given random
    token with [expiresAt = now + ttl] and no [usedAt]. *)
Definition issue (token : string) (caseId issuedTo : string) (ttl now : Z)
    (credentials : gmap string EphemeralCredential)
  : string * gmap string EphemeralCredential :=
  (token,
   <[token := {| token := token; caseId := caseId; issuedTo := issuedTo;
                 issuedAt := now; expiresAt := now + ttl; usedAt := None |}]>
     credentials).

(** Modelled from the spec: consumption sets [usedAt = now]. *)
Definition consume (now : Z) (c : EphemeralCredential) : EphemeralCredential :=
  {| token := token c; caseId := caseId c; issuedTo := issuedTo c;
     issuedAt := issuedAt c; expiresAt := expiresAt c; usedAt := Some now |}.

(** Modelled from the spec: [validateToken] is only called in
    [src/app/judge/cases/[id]/page.tsx]. In one atomic step it checks that
    [usedAt] is null and [expiresAt > now] and, if so, sets [usedAt = now]
    and returns the case; an unknown, expired or used token gives null. *)
Definition validateToken (token : string) (now : Z)
    (credentials : gmap string EphemeralCredential)
  : option string * gmap string EphemeralCredential :=
  match credentials !! token with
  | Some c =>
      match usedAt c with
      | None =>
          if now <? expiresAt c
          then (Some (caseId c), <[token := consume now c]> credentials)
          else (None, credentials)
      | Some _ => (None, credentials)
      end
  | None => (None, credentials)
  end.

(** The classes of [audit_token_stats] ([016_admin_audit_complete.sql],
    section 4), which the source does have: a credential counts as used when
    [used_at IS NOT NULL], as expired unused when
    [expires_at < NOW() AND used_at IS NULL], as pending when
    [expires_at > NOW() AND used_at IS NULL]. *)
Definition tokens_used (c : EphemeralCredential) : bool :=
  match usedAt c with Some _ => true | None => false end.

Definition tokens_expired_unused (now : Z) (c : EphemeralCredential) : bool :=
  (expiresAt c <? now) && negb (tokens_used c).

Definition tokens_pending (now : Z) (c : EphemeralCredential) : bool :=
  (now <? expiresAt c) && negb (tokens_used c).

(** Validations of one token at the given times, in order. *)
Fixpoint validations (token : string) (times : list Z)
    (credentials : gmap string EphemeralCredential)
  : list (option string) * gmap string EphemeralCredential :=
  match times with
  | [] => ([], credentials)
  | now :: later =>
      let '(r, credentials1) := validateToken token now credentials in
      let '(rs, credentials2) := validations token later credentials1 in
      (r :: rs, credentials2)
  end.

End EphemeralCredentialsService.

(** ** Vocabulary of the statements *)

(** The sink after one insert request. *)
Definition logged (supabase : SupabaseClient) (e : LogEntry.t) (sink : AuditSink)
  : AuditSink :=
  {| requests := requests sink ++ [e];
     rows := match insert_policy_enforcement_log supabase e with
             | Inserted => rows sink ++ [e]
             | _ => rows sink
             end |}.

(** A computation that reads nothing from the store either. *)
Definition readingAny {A : Type} (m : SupabaseClient -> M A) (o : Outcome A) : Prop :=
  forall supabase sink, m supabase sink = (o, sink).

Definition writingAny {A : Type} (m : SupabaseClient -> M A) (a : A)
    (e : LogEntry.t) : Prop :=
  forall supabase sink, m supabase sink = (Returns a, logged supabase e sink).

(** A computation that only reads: its outcome is [o] whatever the sink
    does, and the sink is left as it was. *)
Definition reading {A : Type} grants clearances (m : SupabaseClient -> M A)
    (o : Outcome A) : Prop :=
  forall f sink, m (storeOf grants clearances f) sink = (o, sink).

(** A computation that returns [a] after exactly one insert request, for
    the row [e], whatever the sink does. *)
Definition writing {A : Type} grants clearances (m : SupabaseClient -> M A)
    (a : A) (e : LogEntry.t) : Prop :=
  forall f sink,
    m (storeOf grants clearances f) sink
    = (Returns a, logged (storeOf grants clearances f) e sink).

(** The attributes [getUserAttributes] returns for a reply without error. *)
Definition flattened (data : option (list (option UserAttribute.t)))
  : list UserAttribute.t :=
  omap (fun ua => ua) (default [] data).

(** The row logged when a restriction blocks the action. *)
Definition restrictionEntry (context : EvaluationContext.t)
    (restriction : UserAttribute.t) : LogEntry.t :=
  ABACEvaluator.entry context false
    ("Blocked by restriction: " +:+ UserAttribute.name restriction) None.

(** The row logged when the clearance does not reach the classification. *)
Definition clearanceEntry (context : EvaluationContext.t)
    (classification : string) : LogEntry.t :=
  ABACEvaluator.entry context false
    ("Insufficient clearance for classification: " +:+ classification) None.

(** The restriction's entry in the blocked-prefix table matches the action. *)
Definition blocks (restriction action : string) : bool :=
  match JS.get ABACEvaluator.rules restriction with
  | JS.Own blockedActions => existsb (JS.startsWith action) blockedActions
  | _ => false
  end.

(** The level a classification requires ([CLASSIFICATION_LEVELS] of
    [src/lib/abac/types.ts]). *)
Definition CLASSIFICATION_LEVELS : list (string * Z) :=
  [ ("public", 1); ("confidential", 2); ("secret", 3); ("top_secret", 4) ].

(** The highest level the evaluator reads off the names of the subject's
    active clearance attributes. *)
Definition clearanceLevel (names : list string) : Z :=
  fold_right Z.max 0 (map ABACEvaluator.levelOfName names).

(** ** Scenarios *)

Module Scenario.

Definition permission (name : string) : UserAttribute.t :=
  {| UserAttribute.id := "attr:" +:+ name;
     UserAttribute.name := name;
     UserAttribute.category := "permission";
     UserAttribute.level := 1;
     UserAttribute.description := None |}.

Definition restriction (name : string) : UserAttribute.t :=
  {| UserAttribute.id := "attr:" +:+ name;
     UserAttribute.name := name;
     UserAttribute.category := "restriction";
     UserAttribute.level := 1;
     UserAttribute.description := Some "Solo lectura" |}.

Definition clearance (name : string) (level : Z) : UserAttribute.t :=
  {| UserAttribute.id := "attr:" +:+ name;
     UserAttribute.name := name;
     UserAttribute.category := "authorization";
     UserAttribute.level := level;
     UserAttribute.description := None |}.

Definition grant (user attribute : string) (expires_at : option Z)
  : UserAttributeAssignment.t :=
  {| UserAttributeAssignment.id := user +:+ "/" +:+ attribute;
     UserAttributeAssignment.user_id := user;
     UserAttributeAssignment.attribute_id := "attr:" +:+ attribute;
     UserAttributeAssignment.granted_by := "root";
     UserAttributeAssignment.granted_at := 0;
     UserAttributeAssignment.expires_at := expires_at;
     UserAttributeAssignment.reason := None |}.

Definition catalogue : gmap string UserAttribute.t :=
  list_to_map
    (map (fun a => (UserAttribute.id a, a))
       [ permission "case.create"; permission "case.edit.metadata";
         permission "case.list.view"; permission "doc.download";
         permission "audit.logs.view"; permission "admin.vault.reveal_identity";
         restriction "restrict.read_only"; restriction "restrict.no_export";
         clearance "clearance.L1.public" 1; clearance "clearance.L2.confidential" 2;
         clearance "clearance.L3.secret" 3; clearance "clearance.L4.top_secret" 4 ]).

Definition profiles : gmap string string :=
  list_to_map
    [ ("S", "secretary"); ("J", "judge"); ("A", "admin"); ("R", "super_admin") ].

(** S holds [case.create] and a grant of [case.edit.metadata] that expired
    at time 50; J holds [case.create], a read-only restriction and the
    highest clearance; A, an auditor, holds [case.create]. *)
Definition db : Database :=
  {| users_profile := profiles;
     abac_attributes := catalogue;
     user_attributes :=
       [ grant "S" "case.create" None;
         grant "S" "case.edit.metadata" (Some 50);
         grant "J" "case.create" None;
         grant "J" "restrict.read_only" None;
         grant "J" "clearance.L4.top_secret" None;
         grant "A" "case.create" None ] |}.

Definition accepting (e : LogEntry.t) : InsertReply := Inserted.
Definition failing (e : LogEntry.t) : InsertReply := InsertRejected "timeout".

Definition request (user action resourceType : string)
    (classification : option string) : EvaluationContext.t :=
  {| EvaluationContext.userId := user;
     EvaluationContext.action := action;
     EvaluationContext.resourceType := resourceType;
     EvaluationContext.resourceId := Some "case-7";
     EvaluationContext.metadata :=
       match classification with
       | Some c => Some {[ "classification" := c ]}
       | None => None
       end |}.

(** A store that serves the grants, and answers the clearance query with
    an error. *)
Definition clearancesDown : SupabaseClient :=
  storeOf (fun _ => Resolved (Some [Some (permission "case.list.view")]) None)
          (fun _ => Resolved None (Some "connection refused"))
          accepting.

(** The same store, when the clearance query finds the subject's one
    clearance attribute, which names no level. *)
Definition clearancesUp : SupabaseClient :=
  storeOf (fun _ => Resolved (Some [Some (permission "case.list.view")]) None)
          (fun _ => Resolved (Some [Some "clearance.trainee"]) None)
          accepting.

(** A store without any grant. *)
Definition noGrants : SupabaseClient :=
  storeOf (fun _ => Resolved (Some []) None) (fun _ => Resolved (Some []) None)
          accepting.

End Scenario.

(** The evaluator denies an auditor that actively holds a forbidden
    attribute, whatever it asks for. *)
Definition guardsAuditor (db : Database) (now : Z) (context : EvaluationContext.t)
  : Prop :=
  let userId := EvaluationContext.userId context in
  users_profile db !! userId = Some "admin" ->
  (exists a, In a (Store.activeAttributes db now userId)
             /\ Trigger.forbidden (UserAttribute.name a) = true) ->
  exists r,
    fst (ABACEvaluator.checkPermission
           (Returns (Store.client db now Scenario.accepting)) context empty_sink)
    = Returns r
    /\ EvaluationResult.allowed r = false.

(** In a window opened by its first request, the k-th request of a
    principal (counting from 0) is allowed exactly when k < limit: the
    (limit+1)-th and all later ones are denied. *)
Definition limitEnforced (identifier : string) (maxRequests : Z) (times : list Z)
    (rateLimitStore : gmap string RateLimit.Entry) : Prop :=
  forall (k : nat) r,
    fst (RateLimit.requestsAt identifier maxRequests times rateLimitStore) !! k = Some r ->
    (RateLimit.allowed r = true <-> Z.of_nat k < maxRequests).

(** The principal has no window open at time [now]. *)
Definition noWindow (identifier : string) (now : Z)
    (rateLimitStore : gmap string RateLimit.Entry) : Prop :=
  match rateLimitStore !! RateLimit.key identifier with
  | None => True
  | Some current => RateLimit.resetAt current < now
  end.

(** No text column of the row's projection contains the row's subject or
    its resource. *)
Definition leaksNothing (pel : PolicyEnforcementLog.t) : Prop :=
  forall field,
    In field (AuditLogsSanitized.textFields (AuditLogsSanitized.audit_logs_sanitized pel)) ->
    JS.includes field (PolicyEnforcementLog.user_id pel) = false
    /\ forall resourceId,
         PolicyEnforcementLog.resource_id pel = Some resourceId ->
         JS.includes field resourceId = false.

(** The same stored row about another resource, with other metadata. *)
Definition aboutResource (pel : PolicyEnforcementLog.t) (resource_id : option string)
    (metadata : option (gmap string string)) : PolicyEnforcementLog.t :=
  {| PolicyEnforcementLog.id := PolicyEnforcementLog.id pel;
     PolicyEnforcementLog.user_id := PolicyEnforcementLog.user_id pel;
     PolicyEnforcementLog.action := PolicyEnforcementLog.action pel;
     PolicyEnforcementLog.resource_type := PolicyEnforcementLog.resource_type pel;
     PolicyEnforcementLog.resource_id := resource_id;
     PolicyEnforcementLog.result := PolicyEnforcementLog.result pel;
     PolicyEnforcementLog.reason := PolicyEnforcementLog.reason pel;
     PolicyEnforcementLog.metadata := metadata;
     PolicyEnforcementLog.timestamp := PolicyEnforcementLog.timestamp pel |}.

(** A stored decision whose reason quotes the case number it is about. *)
Definition quotingRow : PolicyEnforcementLog.t :=
  {| PolicyEnforcementLog.id := "log-1";
     PolicyEnforcementLog.user_id := "3f2b1c4d-5e6f-4a7b-8c9d-0e1f2a3b4c5d";
     PolicyEnforcementLog.action := "case.view";
     PolicyEnforcementLog.resource_type := "case";
     PolicyEnforcementLog.resource_id := Some "CASE-2024-001";
     PolicyEnforcementLog.result := "deny";
     PolicyEnforcementLog.reason := Some "Access to CASE-2024-001 denied";
     PolicyEnforcementLog.metadata := None;
     PolicyEnforcementLog.timestamp := 1700000000 |}.

(** No class of the pattern accepts a dot. *)
Definition rejectsDot (pattern : list (ascii -> bool)) : Prop :=
  Forall (fun class => class "."%char = false) pattern.

(** The request is for a case with a classification. *)
Definition classifiedCase (context : EvaluationContext.t) : bool :=
  match EvaluationContext.classification context with
  | Some classification =>
      String.eqb (EvaluationContext.resourceType context) "case"
      && JS.truthy classification
  | None => false
  end.

(** How many of the validations succeeded. *)
Definition successes (results : list (option string)) : nat :=
  length (List.filter (fun r => match r with Some _ => true | None => false end)
                      results).

(** Every call leaves exactly one more insert request in the sink. *)
Definition writesOneDecision (createClient : Outcome SupabaseClient)
    (context : EvaluationContext.t) (sink : AuditSink) : Prop :=
  exists e,
    requests (snd (ABACEvaluator.checkPermission createClient context sink))
    = (requests sink ++ [e])%list.

(** ** The clearance level of a subject *)

(** The clearance attributes of [ATTRIBUTES] ([src/lib/abac/types.ts]),
    each with the level of the tier it is named after. *)
Definition CLEARANCE_ATTRIBUTES : list (string * Z) :=
  [ ("clearance.L1.public", 1);
    ("clearance.L2.confidential", 2);
    ("clearance.L3.secret", 3);
    ("clearance.L4.top_secret", 4) ].

(** An attribute whose name denotes a clearance tier. *)
Definition clearanceTier (a : UserAttribute.t) : bool :=
  JS.startsWith (UserAttribute.name a) "clearance.".

(** The subject's active clearance-tier attributes, as the catalogue has
    them. *)
Definition subjectClearances (db : Database) (now : Z) (userId : string)
  : list UserAttribute.t :=
  List.filter clearanceTier (Store.activeAttributes db now userId).

(** The subject's clearance level: the maximum numeric level among its
    active clearance-tier attributes, 0 when it has none. The level of an
    attribute is its [level] column. *)
Definition subjectClearance (db : Database) (now : Z) (userId : string) : Z :=
  fold_right Z.max 0 (map UserAttribute.level (subjectClearances db now userId)).

(** Each clearance attribute the subject holds is one of [ATTRIBUTES], and
    its [level] column is the level of its tier. *)
Definition namedByTier (db : Database) (now : Z) (userId : string) : Prop :=
  Forall (fun a => JS.assoc CLEARANCE_ATTRIBUTES (UserAttribute.name a)
                   = Some (UserAttribute.level a))
         (subjectClearances db now userId).

(** The clearance check follows the subject's clearance level: for a
    subject with a clearance attribute it passes exactly when that level
    reaches the level the classification requires. *)
Definition clearanceDecides (db : Database) (now : Z) (userId : string) : Prop :=
  forall classification requiredLevel,
    JS.assoc CLASSIFICATION_LEVELS classification = Some requiredLevel ->
    subjectClearances db now userId <> [] ->
    (fst (ABACEvaluator.checkClearanceLevel userId classification
            (Store.client db now Scenario.accepting) empty_sink) = Returns true
     <-> requiredLevel <= subjectClearance db now userId).

(** A catalogue whose top clearance is named without its level tag, and a
    judge K who holds it. *)
Module Untagged.

Definition catalogue : gmap string UserAttribute.t :=
  list_to_map
    (map (fun a => (UserAttribute.id a, a))
       [ Scenario.permission "case.list.view";
         Scenario.clearance "clearance.top_secret" 4 ]).

Definition db : Database :=
  {| users_profile := list_to_map [ ("K", "judge") ];
     abac_attributes := catalogue;
     user_attributes :=
       [ Scenario.grant "K" "case.list.view" None;
         Scenario.grant "K" "clearance.top_secret" None ] |}.

End Untagged.

(** * The rest of the access layer *)

From Stdlib Require Import DecimalString Sorted.

(** ** Exceptions without state *)

Definition andThen {A B : Type} (o : Outcome A) (k : A -> Outcome B) : Outcome B :=
  match o with
  | Returns a => k a
  | Throws e => Throws e
  end.

#[global] Instance Outcome_ret : MRet Outcome := @Returns.
#[global] Instance Outcome_bind : MBind Outcome := fun A B k o => andThen o k.

(** Awaiting a store call outside the evaluator. *)
Definition awaited {A : Type} (r : Reply A) : Outcome (option A * option string) :=
  match r with
  | Rejected e => Throws e
  | Resolved data error => Returns (data, error)
  end.

(** ** The client, with the calls of the guards *)

Module Profile.
Record t : Type := mk
  { id : string;
    role : string;
    status : string;
    real_name : option string }.
End Profile.

Module AccessLog.
(** A value of the [query_params] object. *)
Inductive Param : Type :=
| Null
| Text (s : list Z)
| Number (n : Z).

(** A row of [audit_access_log] as [logAuditAccess] inserts it. *)
Record t : Type := mk
  { accessed_by : string;
    view_accessed : string;
    query_params : option (list (string * Param));
    accessed_at : Z }.
End AccessLog.

(** The client [createClient] returns: the evaluator's queries, the session,
    the profile of a user ([.single()]), the grant of one attribute by name
    ([.maybeSingle()]) and the insert into [audit_access_log]. *)
Record Supabase : Type :=
  { queries : SupabaseClient;
    auth_getUser : Outcome (option string);
    select_profile : string -> Reply Profile.t;
    select_attribute : string -> string -> Reply unit;
    insert_audit_access_log : AccessLog.t -> InsertReply }.

(** ** The helpers of the evaluator ([src/lib/abac/evaluator.ts]) *)

Module ABACHelpers.

Import ABACEvaluator.

(** [hasAttribute]: [!!data] of the [.maybeSingle()] lookup; anything thrown
    is answered with [false]. *)
Definition hasAttribute (createClient : Outcome Supabase)
    (userId attributeName : string) : bool :=
  match
    (supabase ← createClient;
     '(data, _) ← awaited (select_attribute supabase userId attributeName);
     mret (match data with Some _ => true | None => false end))
  with
  | Returns b => b
  | Throws _ => false
  end.

(** The level of a clearance name as [hasClearance] reads it: [L4] is
    tested first. *)
Definition levelOfNameDescending (name : string) : Z :=
  if JS.includes name "L4" then 4
  else if JS.includes name "L3" then 3
  else if JS.includes name "L2" then 2
  else if JS.includes name "L1" then 1
  else 0.

(** [hasClearance]: [Math.max(...levels, 0) >= minLevel] over the
    attributes whose name starts with [clearance.]. *)
Definition hasClearance (createClient : Outcome SupabaseClient)
    (userId : string) (minLevel : Z) : M bool :=
  try_catch
    (supabase ← match createClient with
                | Returns client => mret client
                | Throws e => throw e
                end;
     userAttributes ← getUserAttributes userId supabase;
     let clearances :=
       List.filter (fun attr => JS.startsWith (UserAttribute.name attr) "clearance.")
                   userAttributes in
     let maxLevel :=
       fold_right Z.max 0
         (map (fun attr => levelOfNameDescending (UserAttribute.name attr)) clearances) in
     mret (minLevel <=? maxLevel))
    (fun _ => mret false).

End ABACHelpers.

(** ** The guards of the audit API ([src/lib/vault/middleware.ts]) *)

Module Guards.

(** [requireSuperAdmin] *)
Definition requireSuperAdmin (createClient : Outcome Supabase) : Outcome string :=
  supabase ← createClient;
  user ← auth_getUser supabase;
  match user with
  | None => Throws "Unauthorized - No authenticated user"
  | Some user =>
      '(profile, _) ← awaited (select_profile supabase user);
      match profile with
      | None => Throws "User profile not found"
      | Some profile =>
          if negb (String.eqb (Profile.status profile) "active")
          then Throws "Account is not active"
          else if negb (String.eqb (Profile.role profile) "super_admin")
          then Throws "Forbidden - Super Admin access required"
          else Returns user
      end
  end.

(** [requireAdmin] *)
Definition requireAdmin (createClient : Outcome Supabase)
  : Outcome (string * Profile.t) :=
  supabase ← createClient;
  user ← auth_getUser supabase;
  match user with
  | None => Throws "Unauthorized"
  | Some user =>
      '(profile, _) ← awaited (select_profile supabase user);
      match profile with
      | None => Throws "Unauthorized"
      | Some profile =>
          if negb (String.eqb (Profile.status profile) "active")
          then Throws "Account suspended"
          else if negb (String.eqb (Profile.role profile) "admin")
                  && negb (String.eqb (Profile.role profile) "super_admin")
          then Throws "Forbidden"
          else Returns (user, profile)
      end
  end.

(** [requireAdminWithPermission] *)
Definition requireAdminWithPermission (createClient : Outcome Supabase)
    (requiredAttribute : string) : Outcome (string * Profile.t) :=
  '(user, profile) ← requireAdmin createClient;
  supabase ← createClient;
  if String.eqb (Profile.role profile) "super_admin" then Returns (user, profile)
  else
    '(hasAttribute, _) ← awaited (select_attribute supabase user requiredAttribute);
    match hasAttribute with
    | None => Throws "Forbidden - Missing permission"
    | Some _ => Returns (user, profile)
    end.

(** What [NextResponse.json({ error }, { status })] carries; a status that
    is [undefined] is the default, 200, and an [error] that is [undefined]
    is left out of the body. *)
Record ErrorResponse : Type :=
  { status : Z;
    error : option string }.

(** The statuses [NextResponse.json] builds a response with a body for:
    200 to 599, but for 204, 205 and 304, which allow no body. With any
    other status the call throws (a [RangeError] or a [TypeError]) and
    returns no response. *)
Definition acceptedStatus (status : Z) : bool :=
  (200 <=? status) && (status <=? 599)
  && negb ((status =? 204) || (status =? 205) || (status =? 304)).

Definition errorMap : list (string * (Z * string)) :=
  [ ("Unauthorized", (401, "Authentication required"));
    ("Unauthorized - No authenticated user", (401, "Authentication required"));
    ("Account suspended", (403, "Account suspended"));
    ("Forbidden", (403, "Access denied"));
    ("Forbidden - Super Admin access required", (403, "Access denied"));
    ("Forbidden - Missing permission", (403, "Insufficient permissions"));
    ("User profile not found", (401, "Authentication required"));
    ("Account is not active", (403, "Account suspended")) ].

(** [createSecureErrorResponse]; [error] is the message when the value
    caught is an [Error], and [None] otherwise. A message that names a member
    of [Object.prototype] finds that member in [errorMap]: it is truthy and
    has neither [message] nor [status]. The value is the response the
    function returns when [NextResponse.json] accepts its status (see
    [acceptedStatus]), which the statuses of [errorMap], the default 200 and
    the default of [defaultStatus], 500, are; with a [defaultStatus] that is
    not accepted, the call throws for an unmapped message instead of
    returning this value. *)
Definition createSecureErrorResponse (error : option string) (defaultStatus : Z)
  : ErrorResponse :=
  let errorMessage := match error with Some m => m | None => "Unknown error" end in
  match JS.get errorMap errorMessage with
  | JS.Own (status, message) => {| status := status; error := Some message |}
  | JS.Inherited _ => {| status := 200; error := None |}
  | JS.Undefined => {| status := defaultStatus; error := Some "Internal server error" |}
  end.

End Guards.

(** ** Request parameters as JavaScript sees them *)

(** A string of a request is a sequence of UTF-16 code units. *)
Module JSString.

(** The code units of an ASCII literal. *)
Definition units (s : string) : list Z :=
  map (fun c => Z.of_nat (nat_of_ascii c)) (list_ascii_of_string s).

Definition between (lo hi c : Z) : bool := (lo <=? c) && (c <=? hi).

Definition isDigit (c : Z) : bool := between 48 57 c.

(** [\s], which is also what [trim] and [parseInt] skip: white space and
    line terminators. *)
Definition isWhiteSpace (c : Z) : bool :=
  between 9 13 c || (c =? 32) || (c =? 0xA0) || (c =? 0x1680)
  || between 0x2000 0x200A c || (c =? 0x2028) || (c =? 0x2029)
  || (c =? 0x202F) || (c =? 0x205F) || (c =? 0x3000) || (c =? 0xFEFF).

Fixpoint trimStart (s : list Z) : list Z :=
  match s with
  | c :: rest => if isWhiteSpace c then trimStart rest else s
  | [] => []
  end.

Definition trimEnd (s : list Z) : list Z := rev (trimStart (rev s)).

(** [s.trim()] *)
Definition trim (s : list Z) : list Z := trimEnd (trimStart s).

(** The value of the longest run of decimal digits at the start of [s],
    after the digits read so far; [None] when there is no digit at all. *)
Fixpoint digits (s : list Z) (read : option Z) : option Z :=
  match s with
  | c :: rest =>
      if isDigit c
      then digits rest (Some (10 * default 0 read + (c - 48)))
      else read
  | [] => read
  end.

(** [parseInt(s, 10)]; [None] is [NaN]. The integer is exact here, where
    JavaScript rounds beyond 2^53; the callers clamp it to a range far
    below. *)
Definition parseInt (s : list Z) : option Z :=
  match trimStart s with
  | c :: rest =>
      if c =? 45 then Z.opp <$> digits rest None
      else if c =? 43 then digits rest None
      else digits (c :: rest) None
  | [] => None
  end.

(** A pattern anchored at both ends, one class per code unit. *)
Fixpoint test (pattern : list (Z -> bool)) (s : list Z) : bool :=
  match pattern, s with
  | [], [] => true
  | class :: pattern', c :: s' => class c && test pattern' s'
  | _, _ => false
  end.

End JSString.

(** ** Parameters, identifiers and headers ([src/lib/vault/middleware.ts]) *)

Module Middleware.

Import JSString.

Record SearchParams : Type :=
  { search : option (list Z);
    page : option (list Z);
    limit : option (list Z);
    startDate : option (list Z);
    endDate : option (list Z) }.

Record Sanitized : Type :=
  { search' : list Z;
    page' : Z;
    limit' : Z;
    startDate' : option (list Z);
    endDate' : option (list Z) }.

(** A parameter in a boolean position: null, undefined and the empty string
    are falsy. *)
Definition given (p : option (list Z)) : option (list Z) :=
  match p with
  | Some (c :: s) => Some (c :: s)
  | _ => None
  end.

(** The class [[a-zA-Z0-9\s\-_.]] *)
Definition isSafe (c : Z) : bool :=
  between 97 122 c || between 65 90 c || isDigit c || isWhiteSpace c
  || (c =? 45) || (c =? 95) || (c =? 46).

(** [/^\d{4}-\d{2}-\d{2}$/] *)
Definition dateRegex : list (Z -> bool) :=
  repeat isDigit 4 ++ [Z.eqb 45] ++ repeat isDigit 2 ++ [Z.eqb 45] ++ repeat isDigit 2.

(** [parseInt(p || fallback, 10) || fallback], between [1] and [most]. *)
Definition clamped (p : option (list Z)) (fallback most : Z) : Z :=
  let parsed :=
    match given p with
    | Some s => parseInt s
    | None => Some fallback
    end in
  let value :=
    match parsed with
    | Some 0 | None => fallback
    | Some n => n
    end in
  Z.max 1 (Z.min most value).

Definition sanitizeSearchParams (params : SearchParams) : Sanitized :=
  {| search' :=
       match given (search params) with
       | Some s => trim (firstn 100 (List.filter isSafe s))
       | None => []
       end;
     page' := clamped (page params) 1 1000;
     limit' := clamped (limit params) 20 100;
     startDate' :=
       match given (startDate params) with
       | Some s => if test dateRegex s then Some s else None
       | None => None
       end;
     endDate' :=
       match given (endDate params) with
       | Some s => if test dateRegex s then Some s else None
       | None => None
       end |}.

(** [[0-9a-f]] under the [i] flag *)
Definition isHexDigit (c : Z) : bool :=
  isDigit c || between 97 102 c || between 65 70 c.

(** [[89ab]] under the [i] flag *)
Definition isVariant (c : Z) : bool :=
  (c =? 56) || (c =? 57) || (c =? 97) || (c =? 98) || (c =? 65) || (c =? 66).

(** [UUID_REGEX] *)
Definition UUID_REGEX : list (Z -> bool) :=
  repeat isHexDigit 8 ++ [Z.eqb 45] ++ repeat isHexDigit 4 ++ [Z.eqb 45]
  ++ [Z.eqb 52] ++ repeat isHexDigit 3 ++ [Z.eqb 45]
  ++ [isVariant] ++ repeat isHexDigit 3 ++ [Z.eqb 45] ++ repeat isHexDigit 12.

Definition isValidUUID (uuid : list Z) : bool := test UUID_REGEX uuid.

(** [n.toString()] of an integer *)
Definition toString (n : Z) : string := NilZero.string_of_int (Z.to_int n).

(** [Math.ceil(n / 1000)] of an integer *)
Definition ceilSeconds (n : Z) : Z := - ((- n) / 1000).

Record RateLimitHeaders : Type :=
  { X_RateLimit_Remaining : string;
    X_RateLimit_Reset : string }.

Definition getRateLimitHeaders (remaining resetIn : Z) : RateLimitHeaders :=
  {| X_RateLimit_Remaining := toString remaining;
     X_RateLimit_Reset := toString (ceilSeconds resetIn) |}.

(** [logAuditAccess]: the insert requests made so far are the state; a
    client that cannot be created or an insert that rejects is swallowed. *)
Definition logAuditAccess (createClient : Outcome Supabase) (now : Z)
    (userId viewAccessed : string) (queryParams : option (list (string * AccessLog.Param)))
    (accessLog : list AccessLog.t) : list AccessLog.t :=
  match createClient with
  | Returns supabase =>
      (accessLog
       ++ [ {| AccessLog.accessed_by := userId;
               AccessLog.view_accessed := viewAccessed;
               AccessLog.query_params := queryParams;
               AccessLog.accessed_at := now |} ])%list
  | Throws _ => accessLog
  end.

End Middleware.

(** ** Routing by role ([src/proxy.ts] and the pages) *)

(** What a gate answers: the request goes on, is redirected, or is answered
    with a JSON error. *)
Inductive Routed : Type :=
| Next
| Redirect (pathname : string) (searchParams : list (string * string))
| Json (status : Z) (error : string) (headers : list (string * string)).

Module Proxy.

Definition publicRoutes : list string :=
  [ "/auth/login"; "/auth/signup"; "/auth/callback"; "/auth/signout" ].

Definition isPublicRoute (pathname : string) : bool :=
  existsb (JS.startsWith pathname) publicRoutes.

(** [profile?.role !== r] *)
Definition roleIsNot (profile : option Profile.t) (r : string) : bool :=
  match profile with
  | Some p => negb (String.eqb (Profile.role p) r)
  | None => true
  end.

(** [profile?.status !== 'active'] *)
Definition notActive (profile : option Profile.t) : bool :=
  match profile with
  | Some p => negb (String.eqb (Profile.status p) "active")
  | None => true
  end.

(** [proxy]: [Next] stands for the response of [updateSession]. *)
Definition proxy (supabase : Supabase) (pathname : string) : Outcome Routed :=
  if isPublicRoute pathname then Returns Next
  else
    user ← auth_getUser supabase;
    match user with
    | None => Returns (Redirect "/auth/login" [])
    | Some user =>
        '(profile, _) ← awaited (select_profile supabase user);
        if notActive profile
        then Returns (Redirect "/auth/login" [("error", "account_inactive")])
        else if JS.startsWith pathname "/supreme-court"
                && roleIsNot profile "super_admin"
        then Returns (Redirect "/" [])
        else if JS.startsWith pathname "/admin"
                && roleIsNot profile "admin" && roleIsNot profile "super_admin"
        then Returns (Redirect "/unauthorized" [])
        else if JS.startsWith pathname "/judge" && roleIsNot profile "judge"
        then Returns (Redirect "/" [])
        else if JS.startsWith pathname "/api/admin"
                && roleIsNot profile "super_admin"
        then Returns (Json 403 "Forbidden - Super Admin access required" [])
        else if JS.startsWith pathname "/api/audit"
                && roleIsNot profile "admin" && roleIsNot profile "super_admin"
        then Returns (Json 403 "Forbidden - Admin access required" [])
        else if JS.startsWith pathname "/api/judge"
                && roleIsNot profile "judge" && roleIsNot profile "secretary"
        then Returns (Json 403 "Forbidden - Judge access required" [])
        else Returns Next
    end.

(** The rate limiter of the second gate of [src/proxy.ts]. *)
Record Bucket : Type := { count : Z; timestamp : Z }.

Definition RATE_LIMIT_WINDOW : Z := 60 * 1000.
Definition RATE_LIMIT_MAX_ADMIN : Z := 50.
Definition RATE_LIMIT_MAX_GENERAL : Z := 100.

Definition checkRateLimit (identifier : string) (maxRequests : Z) (now : Z)
    (rateLimitMap : gmap string Bucket) : bool * gmap string Bucket :=
  let renewed :=
    (true, <[identifier := {| count := 1; timestamp := now |}]> rateLimitMap) in
  match rateLimitMap !! identifier with
  | None => renewed
  | Some record =>
      if RATE_LIMIT_WINDOW <? now - timestamp record then renewed
      else
        let record := {| count := count record + 1; timestamp := timestamp record |} in
        (count record <=? maxRequests, <[identifier := record]> rateLimitMap)
  end.

Definition tooMany (headers : list (string * string)) : Routed :=
  Json 429 "Too many requests" headers.

(** One branch of [middleware]: no session is answered with [unauthenticated],
    then the bucket [bucket:user] is charged. *)
Definition limited (user : option string) (unauthenticated : Routed)
    (bucket : string) (maxRequests : Z) (headers : list (string * string)) (now : Z)
    (rateLimitMap : gmap string Bucket)
    (andThen : string -> Outcome Routed)
  : Outcome Routed * gmap string Bucket :=
  match user with
  | None => (Returns unauthenticated, rateLimitMap)
  | Some user =>
      let '(within, rateLimitMap') :=
        checkRateLimit (bucket +:+ ":" +:+ user) maxRequests now rateLimitMap in
      if within then (andThen user, rateLimitMap')
      else (Returns (tooMany headers), rateLimitMap')
  end.

(** [middleware] *)
Definition middleware (supabase : Supabase) (pathname : string) (now : Z)
    (rateLimitMap : gmap string Bucket) : Outcome Routed * gmap string Bucket :=
  match auth_getUser supabase with
  | Throws e => (Throws e, rateLimitMap)
  | Returns user =>
      if JS.startsWith pathname "/admin" then
        limited user (Redirect "/auth/login" [("redirect", pathname)])
          "admin" RATE_LIMIT_MAX_ADMIN [] now rateLimitMap
          (fun user =>
             '(profile, _) ← awaited (select_profile supabase user);
             match profile with
             | None => Returns (Redirect "/unauthorized" [])
             | Some profile =>
                 if negb (String.eqb (Profile.status profile) "active")
                 then Returns (Redirect "/unauthorized" [])
                 else if negb (String.eqb (Profile.role profile) "admin")
                         && negb (String.eqb (Profile.role profile) "super_admin")
                 then Returns (Redirect "/unauthorized" [])
                 else Returns Next
             end)
      else if JS.startsWith pathname "/api/audit" then
        limited user (Json 401 "Authentication required" [])
          "audit-api" RATE_LIMIT_MAX_ADMIN
          [("Retry-After", "60");
           ("X-RateLimit-Limit", Middleware.toString RATE_LIMIT_MAX_ADMIN)]
          now rateLimitMap (fun _ => Returns Next)
      else if JS.startsWith pathname "/dashboard" then
        limited user (Redirect "/auth/login" [("redirect", pathname)])
          "dashboard" RATE_LIMIT_MAX_GENERAL [] now rateLimitMap (fun _ => Returns Next)
      else if JS.startsWith pathname "/api/admin" then
        limited user (Json 401 "Authentication required" [])
          "api-admin" RATE_LIMIT_MAX_GENERAL [] now rateLimitMap (fun _ => Returns Next)
      else (Returns Next, rateLimitMap)
  end.

End Proxy.

Module Pages.

(** [HomePage]: the path the first [redirect] that is reached names. *)
Definition HomePage (user : option string) (profile : option Profile.t) : string :=
  match user with
  | None => "/auth/login"
  | Some _ =>
      let roleIs r :=
        match profile with
        | Some p => String.eqb (Profile.role p) r
        | None => false
        end in
      if roleIs "super_admin" then "/supreme-court"
      else if roleIs "admin" then "/admin"
      else if roleIs "judge" then "/judge/cases"
      else if roleIs "secretary" then "/dashboard/secretary"
      else "/auth/login"
  end.

(** [AdminLayout]: [None] when the panel is rendered, else the target of the
    redirect. *)
Definition AdminLayout (user : option string) (profile : option Profile.t)
  : option string :=
  match user with
  | None => Some "/auth/login?redirect=/admin"
  | Some _ =>
      match profile with
      | None => Some "/unauthorized"
      | Some profile =>
          if negb (String.eqb (Profile.status profile) "active")
          then Some "/unauthorized"
          else if negb (String.eqb (Profile.role profile) "admin")
                  && negb (String.eqb (Profile.role profile) "super_admin")
          then Some "/unauthorized"
          else None
      end
  end.

End Pages.

(** ** The aggregated views ([016_admin_audit_complete.sql], sections 1, 4, 9) *)

Module AuditViews.

(** [DATE(t)] of a time in seconds since the epoch, as a day number (UTC). *)
Definition DATE (t : Z) : Z := t / 86400.

(** [COUNT FILTER (WHERE p)] over all rows *)
Definition countIf {A : Type} (p : A -> bool) (rows : list A) : Z :=
  Z.of_nat (length (List.filter p rows)).

Record DailyMetrics : Type :=
  { date : Z;
    access_allowed : Z;
    access_denied : Z;
    total_actions : Z;
    case_actions : Z;
    cases_actions : Z;
    user_actions : Z;
    users_actions : Z;
    document_actions : Z;
    audit_actions : Z;
    case_operations : Z;
    user_operations : Z;
    document_operations : Z;
    admin_operations : Z }.

Definition resultIs (r : string) (pel : PolicyEnforcementLog.t) : bool :=
  String.eqb (PolicyEnforcementLog.result pel) r.

Definition resourceIs (r : string) (pel : PolicyEnforcementLog.t) : bool :=
  String.eqb (PolicyEnforcementLog.resource_type pel) r.

(** [action LIKE 'prefix%'] *)
Definition actionLike (prefix : string) (pel : PolicyEnforcementLog.t) : bool :=
  JS.startsWith (PolicyEnforcementLog.action pel) prefix.

Definition onDay (day : Z) (pel : PolicyEnforcementLog.t) : bool :=
  DATE (PolicyEnforcementLog.timestamp pel) =? day.

(** The row of one group. *)
Definition metricsOf (log : list PolicyEnforcementLog.t) (day : Z) : DailyMetrics :=
  let group := List.filter (onDay day) log in
  {| date := day;
     access_allowed := countIf (resultIs "allow") group;
     access_denied := countIf (resultIs "deny") group;
     total_actions := Z.of_nat (length group);
     case_actions := countIf (resourceIs "case") group;
     cases_actions := countIf (resourceIs "cases") group;
     user_actions := countIf (resourceIs "user") group;
     users_actions := countIf (resourceIs "users") group;
     document_actions := countIf (resourceIs "document") group;
     audit_actions := countIf (resourceIs "audit_logs") group;
     case_operations := countIf (actionLike "case.") group;
     user_operations := countIf (actionLike "user.") group;
     document_operations := countIf (actionLike "doc.") group;
     admin_operations := countIf (actionLike "admin.") group |}.

(** [audit_daily_metrics], as of the log it is refreshed from: one row per
    day that has a decision (every stored row has its [timestamp]); the
    order of the groups is the order in which the days first occur. *)
Definition audit_daily_metrics (log : list PolicyEnforcementLog.t) : list DailyMetrics :=
  map (metricsOf log) (remove_dups (map (fun pel => DATE (PolicyEnforcementLog.timestamp pel)) log)).

(** [ORDER BY date DESC] *)
Fixpoint insertByDate (row : DailyMetrics) (sorted : list DailyMetrics)
  : list DailyMetrics :=
  match sorted with
  | [] => [row]
  | first :: rest =>
      if date first <=? date row then row :: first :: rest
      else first :: insertByDate row rest
  end.

Definition orderByDateDesc (rows : list DailyMetrics) : list DailyMetrics :=
  fold_right insertByDate [] rows.

(** What [get_audit_metrics_safe] returns of a row. *)
Record SafeMetrics : Type :=
  { safe_date : Z;
    safe_access_allowed : Z;
    safe_access_denied : Z;
    safe_total_actions : Z;
    safe_case_operations : Z;
    safe_user_operations : Z }.

Definition safeOf (adm : DailyMetrics) : SafeMetrics :=
  {| safe_date := date adm;
     safe_access_allowed := access_allowed adm;
     safe_access_denied := access_denied adm;
     safe_total_actions := total_actions adm;
     safe_case_operations := case_operations adm;
     safe_user_operations := user_operations adm |}.

(** [get_audit_metrics_safe]: [uid] is [auth.uid()], [today] is
    [CURRENT_DATE]; a date that is not given takes its default. *)
Definition get_audit_metrics_safe (db : Database) (uid : option string)
    (metrics : list DailyMetrics) (today : Z) (p_start_date p_end_date : option Z)
  : Outcome (list SafeMetrics) :=
  let start := default (today - 30) p_start_date in
  let finish := default today p_end_date in
  match uid ≫= (fun id => users_profile db !! id) with
  | None => Throws "Unauthorized: No authenticated user"
  | Some caller_role =>
      if negb (String.eqb caller_role "admin" || String.eqb caller_role "super_admin")
      then Throws ("Forbidden: Requires admin role. Current role: " +:+ caller_role)
      else
        Returns
          (map safeOf
             (orderByDateDesc
                (List.filter (fun adm => (start <=? date adm) && (date adm <=? finish))
                             metrics)))
  end.

(** A row of [ephemeral_credentials], with the columns the view reads;
    [None] is NULL. Every row has its [created_at]. *)
Record Token : Type :=
  { created_at : Z;
    expires_at : option Z;
    used_at : option Z }.

(** The count columns of [audit_token_stats]; the average is left out. *)
Record TokenStats : Type :=
  { token_date : Z;
    tokens_emitted : Z;
    tokens_used : Z;
    tokens_expired_unused : Z;
    tokens_pending : Z }.

Definition isUsed (t : Token) : bool :=
  match used_at t with Some _ => true | None => false end.

(** [a < b] in a [WHERE]: a comparison with NULL is not true. *)
Definition before (a b : option Z) : bool :=
  match a, b with
  | Some a, Some b => a <? b
  | _, _ => false
  end.

Definition tokenStatsOf (now : Z) (tokens : list Token) (day : Z) : TokenStats :=
  let group := List.filter (fun t => DATE (created_at t) =? day) tokens in
  {| token_date := day;
     tokens_emitted := Z.of_nat (length group);
     tokens_used := countIf isUsed group;
     tokens_expired_unused :=
       countIf (fun t => before (expires_at t) (Some now) && negb (isUsed t)) group;
     tokens_pending :=
       countIf (fun t => before (Some now) (expires_at t) && negb (isUsed t)) group |}.

(** [audit_token_stats] at time [now = NOW()]. *)
Definition audit_token_stats (now : Z) (tokens : list Token) : list TokenStats :=
  map (tokenStatsOf now tokens) (remove_dups (map (fun t => DATE (created_at t)) tokens)).

End AuditViews.

(** ** The case route ([GET] and [PATCH] of [/api/admin/cases/[id]]) *)

Module CaseRoute.

(** What the [catch] of the handlers answers to the message of the error it
    caught. *)
Definition caught (message : string) : Guards.ErrorResponse :=
  if JS.includes message "Permiso denegado"
  then {| Guards.status := 403; Guards.error := Some message |}
  else {| Guards.status := 500; Guards.error := Some "Internal server error" |}.

(** The handlers up to their permission check: [None] when the handler goes
    on to read or update the case. [user] is the session's user, [action]
    is what the handler asks [enforcePermission] for. *)
Definition gate (createClient : Outcome SupabaseClient) (user : option string)
    (action caseId : string) : M (option Guards.ErrorResponse) :=
  match user with
  | None => mret (Some {| Guards.status := 401; Guards.error := Some "Unauthorized" |})
  | Some user =>
      try_catch
        (ABACEvaluator.enforcePermission createClient user action "cases"
           (Some caseId) None;;
         mret None)
        (fun message => mret (Some (caught message)))
  end.

Definition internalError : Guards.ErrorResponse :=
  {| Guards.status := 500; Guards.error := Some "Internal server error" |}.

Definition GET (createClient : Outcome SupabaseClient) (user : option string)
    (caseId : string) : M (option Guards.ErrorResponse) :=
  gate createClient user "case.details.view" caseId.

Definition PATCH (createClient : Outcome SupabaseClient) (user : option string)
    (caseId : string) : M (option Guards.ErrorResponse) :=
  gate createClient user "case.edit.metadata" caseId.

End CaseRoute.

(** ** The audit log route ([src/app/api/audit/logs/route.ts]) *)

Module AuditLogsRoute.

Import JSString Middleware.

(** The query parameters of the request, as [searchParams.get] gives them. *)
Record Params : Type :=
  { page : option (list Z);
    limit : option (list Z);
    action : option (list Z);
    result : option (list Z);
    startDate : option (list Z);
    endDate : option (list Z) }.

(** The query the handler builds on [audit_logs_sanitized]. *)
Record Query : Type :=
  { ilike_action : option (list Z);
    eq_result : option (list Z);
    gte_timestamp : option (list Z);
    lte_timestamp : option (list Z);
    range_from : Z;
    range_to : Z }.

(** What the awaited query resolves to. *)
Record ViewReply : Type :=
  { logs : option (list AuditLogsSanitized.t);
    error : option string;
    count : option Z }.

Record Pagination : Type :=
  { page' : Z;
    limit' : Z;
    total : Z;
    totalPages : Z }.

Record Filters : Type :=
  { filter_action : option (list Z);
    filter_result : option (list Z);
    filter_startDate : option (list Z);
    filter_endDate : option (list Z) }.

Inductive Response : Type :=
| Failure (status : Z) (error : option string) (headers : option RateLimitHeaders)
| Success (data : list AuditLogsSanitized.t) (pagination : Pagination)
          (filters : Filters) (headers : RateLimitHeaders).

(** What the handler touches: the rate limiter's store, the inserts asked of
    [audit_access_log], the queries run on the view. *)
Record State : Type :=
  { rateLimitStore : gmap string RateLimit.Entry;
    accessLog : list AccessLog.t;
    queries : list Query }.

(** The class [[a-zA-Z0-9._-]] *)
Definition isActionChar (c : Z) : bool :=
  between 97 122 c || between 65 90 c || isDigit c
  || (c =? 46) || (c =? 95) || (c =? 45).

Definition param (p : option (list Z)) : AccessLog.Param :=
  match p with Some s => AccessLog.Text s | None => AccessLog.Null end.

Definition GET (createClient : Outcome Supabase)
    (select_view : Query -> Outcome ViewReply) (params : Params) (now : Z)
    (st : State) : Response * State :=
  let fromError (e : string) :=
    let r := Guards.createSecureErrorResponse (Some e) 500 in
    Failure (Guards.status r) (Guards.error r) None in
  (* 1 *)
  match Guards.requireAdminWithPermission createClient "audit.logs.view" with
  | Throws e => (fromError e, st)
  | Returns (user, profile) =>
      (* 2 *)
      let '(rateLimit, store) :=
        RateLimit.checkRateLimit user RateLimit.ADMIN_RATE_LIMIT now (rateLimitStore st) in
      let headers :=
        getRateLimitHeaders (RateLimit.remaining rateLimit) (RateLimit.resetIn rateLimit) in
      if negb (RateLimit.allowed rateLimit) then
        (Failure 429 (Some "Too many requests. Please wait before trying again.")
           (Some headers),
         {| rateLimitStore := store; accessLog := accessLog st; queries := queries st |})
      else
        (* 3 *)
        let sanitized :=
          sanitizeSearchParams
            {| Middleware.search := None;
               Middleware.page := page params;
               Middleware.limit := limit params;
               Middleware.startDate := startDate params;
               Middleware.endDate := endDate params |} in
        let action :=
          given ((fun a => firstn 50 (List.filter isActionChar a)) <$> action params) in
        let validResult :=
          match result params with
          | Some r =>
              if bool_decide (r = units "allow") || bool_decide (r = units "deny")
              then Some r else None
          | None => None
          end in
        (* 4 *)
        let accessed :=
          logAuditAccess createClient now user "audit_logs_sanitized"
            (Some [ ("page", AccessLog.Number (Middleware.page' sanitized));
                    ("limit", AccessLog.Number (Middleware.limit' sanitized));
                    ("action", param action);
                    ("result", param validResult);
                    ("startDate", param (startDate' sanitized));
                    ("endDate", param (endDate' sanitized)) ])
            (accessLog st) in
        (* 5 *)
        let offset := (Middleware.page' sanitized - 1) * Middleware.limit' sanitized in
        let query :=
          {| ilike_action := (fun a => units "%" ++ a ++ units "%")%list <$> action;
             eq_result := validResult;
             gte_timestamp :=
               (fun d => d ++ units "T00:00:00Z")%list <$> startDate' sanitized;
             lte_timestamp :=
               (fun d => d ++ units "T23:59:59Z")%list <$> endDate' sanitized;
             range_from := offset;
             range_to := offset + Middleware.limit' sanitized - 1 |} in
        let st' :=
          {| rateLimitStore := store; accessLog := accessed;
             queries := (queries st ++ [query])%list |} in
        match select_view query with
        | Throws e => (fromError e, st')
        | Returns reply =>
            match error reply with
            | Some _ => (Failure 500 (Some "Failed to retrieve logs") None, st')
            | None =>
                (* 6 *)
                let total :=
                  match count reply with Some 0 | None => 0 | Some n => n end in
                (Success (default [] (logs reply))
                   {| page' := Middleware.page' sanitized;
                      limit' := Middleware.limit' sanitized;
                      total := total;
                      totalPages := - ((- total) / Middleware.limit' sanitized) |}
                   {| filter_action := action;
                      filter_result := validResult;
                      filter_startDate := startDate' sanitized;
                      filter_endDate := endDate' sanitized |}
                   headers,
                 st')
            end
        end
  end.

End AuditLogsRoute.

(** ** A store that answers the guards from tables *)

Module Backend.

(** [.single()]: anything but one row is an error. *)
Definition single {A : Type} (rows : list A) : Reply A :=
  match rows with
  | [row] => Resolved (Some row) None
  | _ => Resolved None (Some "JSON object requested, multiple (or no) rows returned")
  end.

(** [.maybeSingle()]: no row is no data, more than one row is an error. *)
Definition maybeSingle {A : Type} (rows : list A) : Reply A :=
  match rows with
  | [] => Resolved None None
  | [row] => Resolved (Some row) None
  | _ => Resolved None (Some "JSON object requested, multiple (or no) rows returned")
  end.

(** The subject's active grants of attributes with the given name. *)
Definition named (db : Database) (now : Z) (userId attributeName : string)
  : list UserAttribute.t :=
  List.filter (fun a => String.eqb (UserAttribute.name a) attributeName)
              (Store.activeAttributes db now userId).

(** The client of a session: [profiles] is [users_profile] with all its
    columns, the grants come from [db]. *)
Definition supabase (session : option string) (profiles : gmap string Profile.t)
    (db : Database) (now : Z) : Supabase :=
  {| queries := Store.client db now (fun _ => Inserted);
     auth_getUser := Returns session;
     select_profile := fun id => single (option_list (profiles !! id));
     select_attribute := fun userId attributeName =>
       maybeSingle (map (fun _ => ()) (named db now userId attributeName));
     insert_audit_access_log := fun _ => Inserted |}.

End Backend.

(** ** The accounts of the scenarios *)

Module Accounts.

Definition account (id role status : string) : string * Profile.t :=
  (id, {| Profile.id := id; Profile.role := role; Profile.status := status;
          Profile.real_name := None |}).

(** The profiles of [Scenario.profiles] with their other columns, and a
    suspended auditor. *)
Definition accounts : gmap string Profile.t :=
  list_to_map
    [ account "S" "secretary" "active";
      account "J" "judge" "active";
      account "A" "admin" "active";
      account "R" "super_admin" "active";
      account "I" "admin" "suspended" ].

(** The client of a session over the tables of the scenarios. *)
Definition client (session : option string) : Supabase :=
  Backend.supabase session accounts Scenario.db 100.

End Accounts.

(** ** Vocabulary of the statements about parameters *)

(** No white space at the start. *)
Definition startsClean (s : list Z) : Prop :=
  match s with
  | c :: _ => JSString.isWhiteSpace c = false
  | [] => True
  end.

(** No white space at either end. *)
Definition trimmed (s : list Z) : Prop := startsClean s /\ startsClean (rev s).

(** Four digits, a dash, two digits, a dash, two digits. *)
Definition isoDate (s : list Z) : Prop :=
  exists y1 y2 y3 y4 m1 m2 d1 d2,
    s = [y1; y2; y3; y4; 45; m1; m2; 45; d1; d2]
    /\ Forall (fun c => 48 <= c <= 57) [y1; y2; y3; y4; m1; m2; d1; d2].

(** ** Vocabulary of the statements about the limiters *)

(** Every window of the store has counted a request and closes no later
    than a full window after [now]. *)
Definition windowsOpenedBy (now : Z) (rateLimitStore : gmap string RateLimit.Entry)
  : Prop :=
  forall key current,
    rateLimitStore !! key = Some current ->
    1 <= RateLimit.count current
    /\ RateLimit.resetAt current <= now + RateLimit.RATE_LIMIT_WINDOW_MS.

(** The store of the API limiter and the map of the gate limiter hold the
    same windows: an entry under [rate:id] for a record under [id], with
    the same count, closing a window after the record's timestamp. *)
Definition sameWindows (rateLimitStore : gmap string RateLimit.Entry)
    (rateLimitMap : gmap string Proxy.Bucket) : Prop :=
  forall identifier,
    match rateLimitStore !! RateLimit.key identifier, rateLimitMap !! identifier with
    | Some current, Some record =>
        RateLimit.count current = Proxy.count record
        /\ RateLimit.resetAt current = Proxy.timestamp record + Proxy.RATE_LIMIT_WINDOW
    | None, None => True
    | _, _ => False
    end.

(** ** Vocabulary of the statements about the views *)

(** The sum of a column. *)
Definition total {A : Type} (column : A -> Z) (rows : list A) : Z :=
  fold_right Z.add 0 (map column rows).

(** A token that is neither used, nor expired, nor pending at [now]: it
    has no expiry, or expires at this very instant. *)
Definition limbo (now : Z) (t : AuditViews.Token) : bool :=
  negb (AuditViews.isUsed t)
  && match AuditViews.expires_at t with
     | Some expiry => expiry =? now
     | None => true
     end.

(** A row [logDecision] wrote, as the table stores it. *)
Definition decisionRow (pel : PolicyEnforcementLog.t) : Prop :=
  exists id timestamp context allowed reason,
    pel = PolicyEnforcementLog.ofEntry id timestamp
            (ABACEvaluator.entry context allowed reason None).

(** ** Vocabulary of the statements about identifiers *)

(** None of the letters [A] to [F] occurs in [s]. *)
Definition lowerHex (s : string) : bool :=
  forallb (fun c => negb ((65 <=? nat_of_ascii c)%nat && (nat_of_ascii c <=? 70)%nat))
          (list_ascii_of_string s).

(** A class of code units and a class of characters that accept the same
    characters, as long as these are none of [A] to [F]. *)
Definition covers (units_class : Z -> bool) (class : ascii -> bool) : Prop :=
  forall c,
    units_class (Z.of_nat (nat_of_ascii c)) = true ->
    negb ((65 <=? nat_of_ascii c)%nat && (nat_of_ascii c <=? 70)%nat) = true ->
    class c = true.

(** * Properties *)

(** ** Strings *)

Section Strings.

Lemma append_cons (c : ascii) (s t : string) :
  String c s +:+ t = String c (s +:+ t).
Proof. reflexivity. Qed.

Lemma prefix_app (p s : string) : String.prefix p (p +:+ s) = true.
Proof.
  induction p as [|c p IH]; simpl.
  - by destruct s.
  - destruct (ascii_dec c c); [apply IH | done].
Qed.

Lemma includes_unfold (s sub : string) :
  JS.includes s sub
  = String.prefix sub s
    || match s with
       | EmptyString => false
       | String _ rest => JS.includes rest sub
       end.
Proof. destruct s; reflexivity. Qed.

Lemma includes_app_r (s pre sub : string) :
  JS.includes s sub = true -> JS.includes (pre +:+ s) sub = true.
Proof.
  intros H. induction pre as [|c pre IH]; [done|].
  rewrite includes_unfold. change (String c pre +:+ s) with (String c (pre +:+ s)).
  cbv iota. rewrite IH. apply orb_true_r.
Qed.

Lemma includes_prefix (s sub : string) :
  String.prefix sub s = true -> JS.includes s sub = true.
Proof. intros H. rewrite includes_unfold, H. reflexivity. Qed.

(** A string includes every string it was built around. *)
Lemma includes_middle (pre sub post : string) :
  JS.includes (pre +:+ sub +:+ post) sub = true.
Proof. apply includes_app_r, includes_prefix, prefix_app. Qed.

Lemma eqb_string_refl (s : string) : String.eqb s s = true.
Proof. apply String.eqb_refl. Qed.

End Strings.

(** ** The evaluator, step by step *)

Ltac run_bind := unfold mbind, M_bind, mret, M_ret, bind, ret, throw; cbn beta iota.

Section Evaluator.

Import ABACEvaluator.

Variable context : EvaluationContext.t.
Variable grants : string -> Reply (list (option UserAttribute.t)).
Variable clearances : string -> Reply (list (option string)).

Let userId := EvaluationContext.userId context.
Let action := EvaluationContext.action context.
Let store := storeOf grants clearances.

(** [logDecision] never throws and issues exactly one insert. *)
Lemma logDecision_run supabase allowed reason sink :
  logDecision context allowed reason supabase sink
  = (Returns (), logged supabase (entry context allowed reason None) sink).
Proof.
  unfold logDecision, try_catch, insert, logged.
  destruct (insert_policy_enforcement_log supabase _); reflexivity.
Qed.

Lemma getUserAttributes_reading :
  reading grants clearances (getUserAttributes userId)
    (match grants userId with
     | Rejected e => Throws e
     | Resolved _ (Some e) => Throws e
     | Resolved data None => Returns (flattened data)
     end).
Proof.
  intros f sink. unfold getUserAttributes, await. run_bind. cbn.
  destruct (grants userId) as [e|data [e|]]; try reflexivity.
  destruct data; reflexivity.
Qed.

Lemma restrictionApplies_run restriction sink :
  restrictionAppliesToAction restriction action sink
  = (match JS.get rules restriction with
     | JS.Own blockedActions => Returns (existsb (JS.startsWith action) blockedActions)
     | JS.Inherited _ => Throws "TypeError: blockedActions.some is not a function"
     | JS.Undefined => Returns false
     end, sink).
Proof.
  unfold restrictionAppliesToAction.
  destruct (JS.get rules restriction); reflexivity.
Qed.

Let restrictionEntry := restrictionEntry context.

(** The loop over the restrictions ends in one of three ways. *)
Lemma checkRestrictions_cases restrictions :
  readingAny
    (fun supabase => checkRestrictions context supabase restrictions) (Returns None)
  \/ (exists e,
        readingAny
          (fun supabase => checkRestrictions context supabase restrictions) (Throws e))
  \/ (exists restriction,
        In restriction restrictions
        /\ blocks (UserAttribute.name restriction) action = true
        /\ writingAny
             (fun supabase => checkRestrictions context supabase restrictions)
             (Some (restrictionDenial restriction)) (restrictionEntry restriction)).
Proof.
  induction restrictions as [|r rest IH].
  - left. intros f sink. reflexivity.
  - pose proof (restrictionApplies_run (UserAttribute.name r)) as Hr.
    destruct (JS.get rules (UserAttribute.name r)) as [blocked|shown|] eqn:Hget;
      [destruct (existsb (JS.startsWith action) blocked) eqn:Hex|..].
    + right. right. exists r. split; [by left|]. split.
      { unfold blocks. by rewrite Hget. }
      intros f sink. cbn [checkRestrictions]. run_bind.
      fold action. rewrite Hr. rewrite logDecision_run. reflexivity.
    + assert (Hstep : forall supabase sink,
                 checkRestrictions context supabase (r :: rest) sink
                 = checkRestrictions context supabase rest sink).
      { intros supabase sink. cbn [checkRestrictions]. run_bind. fold action.
        by rewrite Hr. }
      destruct IH as [IH|[[e IH]|(r' & Hin & Hb & IH)]].
      * left. intros f sink. rewrite Hstep. apply IH.
      * right. left. exists e. intros f sink. rewrite Hstep. apply IH.
      * right. right. exists r'. split; [by right|]. split; [done|].
        intros f sink. rewrite Hstep. apply IH.
    + right. left. eexists. intros f sink. cbn [checkRestrictions]. run_bind.
      fold action. by rewrite Hr.
    + assert (Hstep : forall supabase sink,
                 checkRestrictions context supabase (r :: rest) sink
                 = checkRestrictions context supabase rest sink).
      { intros supabase sink. cbn [checkRestrictions]. run_bind. fold action.
        by rewrite Hr. }
      destruct IH as [IH|[[e IH]|(r' & Hin & Hb & IH)]].
      * left. intros f sink. rewrite Hstep. apply IH.
      * right. left. exists e. intros f sink. rewrite Hstep. apply IH.
      * right. right. exists r'. split; [by right|]. split; [done|].
        intros f sink. rewrite Hstep. apply IH.
Qed.

(** With a blocking restriction in the list the loop does not fall
    through. *)
Lemma checkRestrictions_blocked restrictions restriction :
  In restriction restrictions ->
  blocks (UserAttribute.name restriction) action = true ->
  (exists e,
      readingAny
        (fun supabase => checkRestrictions context supabase restrictions) (Throws e))
  \/ (exists r,
        In r restrictions
        /\ blocks (UserAttribute.name r) action = true
        /\ writingAny
             (fun supabase => checkRestrictions context supabase restrictions)
             (Some (restrictionDenial r)) (restrictionEntry r)).
Proof.
  intros Hin Hb.
  induction restrictions as [|r rest IH]; [destruct Hin|].
  pose proof (restrictionApplies_run (UserAttribute.name r)) as Hr.
  destruct (blocks (UserAttribute.name r) action) eqn:Hbr.
  - right. exists r. split; [by left|]. split; [done|].
    unfold blocks in Hbr.
    destruct (JS.get rules (UserAttribute.name r)); try discriminate.
    intros f sink. cbn [checkRestrictions]. run_bind. fold action.
    rewrite Hr, Hbr, logDecision_run. reflexivity.
  - destruct Hin as [->|Hin]; [congruence|].
    unfold blocks in Hbr.
    destruct (JS.get rules (UserAttribute.name r)) eqn:Hget.
    + assert (Hstep : forall supabase sink,
                 checkRestrictions context supabase (r :: rest) sink
                 = checkRestrictions context supabase rest sink).
      { intros supabase sink. cbn [checkRestrictions]. run_bind. fold action.
        by rewrite Hr, Hbr. }
      destruct (IH Hin) as [[e IH']|(r' & Hin' & Hb' & IH')].
      * left. exists e. intros f sink. rewrite Hstep. apply IH'.
      * right. exists r'. split; [by right|]. split; [done|].
        intros f sink. rewrite Hstep. apply IH'.
    + left. eexists. intros f sink. cbn [checkRestrictions]. run_bind.
      fold action. by rewrite Hr.
    + assert (Hstep : forall supabase sink,
                 checkRestrictions context supabase (r :: rest) sink
                 = checkRestrictions context supabase rest sink).
      { intros supabase sink. cbn [checkRestrictions]. run_bind. fold action.
        by rewrite Hr. }
      destruct (IH Hin) as [[e IH']|(r' & Hin' & Hb' & IH')].
      * left. exists e. intros f sink. rewrite Hstep. apply IH'.
      * right. exists r'. split; [by right|]. split; [done|].
        intros f sink. rewrite Hstep. apply IH'.
Qed.

Lemma levelsOfRows_cases rows :
  exists o, forall sink, levelsOfRows rows sink = (o, sink).
Proof.
  induction rows as [|[name|] rest [o IH]].
  - by eexists.
  - destruct o as [levels|e]; eexists; intros sink;
      cbn [levelsOfRows]; run_bind; by rewrite IH.
  - by eexists.
Qed.

Lemma levelsOfRows_names names sink :
  levelsOfRows (map Some names) sink = (Returns (map levelOfName names), sink).
Proof.
  induction names as [|n rest IH]; [done|].
  cbn [map levelsOfRows]. run_bind. by rewrite IH.
Qed.

Lemma checkClearanceLevel_cases classification :
  exists o, reading grants clearances
              (checkClearanceLevel userId classification) o.
Proof.
  unfold reading, checkClearanceLevel, await. run_bind. cbn.
  destruct (clearances userId) as [e|[[|row rows]|] err]; try by eexists.
  destruct (levelsOfRows_cases (row :: rows)) as [[levels|e] Hl].
  - destruct (JS.get requiredLevels classification) as [required| |];
      eexists; intros f sink; rewrite Hl; reflexivity.
  - eexists. intros f sink. rewrite Hl. reflexivity.
Qed.

Let clearanceEntry := clearanceEntry context.

(** Step 4 ends in one of three ways. *)
Lemma checkClassification_cases :
  reading grants clearances (checkClassification context) (Returns None)
  \/ (exists e, reading grants clearances (checkClassification context) (Throws e))
  \/ (exists classification,
        EvaluationContext.classification context = Some classification
        /\ writing grants clearances (checkClassification context)
             (Some clearanceDenial) (clearanceEntry classification)).
Proof.
  unfold checkClassification.
  destruct (EvaluationContext.classification context) as [c|] eqn:Hc;
    [|left; by intros f sink].
  destruct (String.eqb _ _ && JS.truthy c); [|left; by intros f sink].
  destruct (checkClearanceLevel_cases c) as [[[|]|e] Ho].
  - left. intros f sink. run_bind. fold userId. by rewrite Ho.
  - right. right. exists c. split; [done|]. intros f sink. run_bind.
    fold userId. rewrite Ho, logDecision_run. reflexivity.
  - right. left. exists e. intros f sink. run_bind. fold userId. by rewrite Ho.
Qed.

Let restrictionsOf (userAttributes : list UserAttribute.t) :=
  List.filter (fun attr => String.eqb (UserAttribute.category attr) "restriction")
              userAttributes.

Lemma evaluate_grants_fail e :
  (grants userId = Rejected e \/ exists data, grants userId = Resolved data (Some e)) ->
  reading grants clearances (fun supabase => evaluate (Returns supabase) context)
    (Throws e).
Proof.
  intros H f sink. unfold evaluate. run_bind. fold userId.
  rewrite getUserAttributes_reading.
  destruct H as [->|[data ->]]; reflexivity.
Qed.

Lemma evaluate_missing data requiredAttribute :
  grants userId = Resolved data None ->
  missingAttribute action (flattened data) = Some requiredAttribute ->
  writing grants clearances (fun supabase => evaluate (Returns supabase) context)
    (missingDenial requiredAttribute)
    (entry context false ("Missing required attribute: " +:+ requiredAttribute) None).
Proof.
  intros Hg Hm f sink. unfold evaluate. run_bind. fold userId action.
  rewrite getUserAttributes_reading, Hg, Hm, logDecision_run. reflexivity.
Qed.

(** [evaluate] from step 3 on, once the required attribute is there. *)
Lemma evaluate_from_restrictions data f sink :
  grants userId = Resolved data None ->
  missingAttribute action (flattened data) = None ->
  evaluate (Returns (store f)) context sink
  = (blocked ← checkRestrictions context (store f)
                (restrictionsOf (flattened data));
     match blocked with
     | Some denial => mret denial
     | None =>
         unclear ← checkClassification context (store f);
         match unclear with
         | Some denial => mret denial
         | None =>
             logDecision context true "All checks passed" (store f);;
             mret (permitted (flattened data))
         end
     end) sink.
Proof.
  intros Hg Hm. unfold evaluate. run_bind. fold userId action.
  unfold store. rewrite getUserAttributes_reading, Hg, Hm. reflexivity.
Qed.

Lemma evaluate_restriction_throws data e :
  grants userId = Resolved data None ->
  missingAttribute action (flattened data) = None ->
  readingAny
    (fun supabase =>
       checkRestrictions context supabase (restrictionsOf (flattened data)))
    (Throws e) ->
  reading grants clearances (fun supabase => evaluate (Returns supabase) context)
    (Throws e).
Proof.
  intros Hg Hm Hr f sink. fold (store f).
  rewrite (evaluate_from_restrictions data f sink Hg Hm). run_bind.
  by rewrite Hr.
Qed.

Lemma evaluate_restriction_blocks data denial e :
  grants userId = Resolved data None ->
  missingAttribute action (flattened data) = None ->
  writingAny
    (fun supabase =>
       checkRestrictions context supabase (restrictionsOf (flattened data)))
    (Some denial) e ->
  writing grants clearances (fun supabase => evaluate (Returns supabase) context)
    denial e.
Proof.
  intros Hg Hm Hr f sink. fold (store f).
  rewrite (evaluate_from_restrictions data f sink Hg Hm). run_bind.
  by rewrite Hr.
Qed.

(** The ways [evaluate] ends once the required attribute is there. *)
Lemma evaluate_held data :
  grants userId = Resolved data None ->
  missingAttribute action (flattened data) = None ->
  let body := fun supabase => evaluate (Returns supabase) context in
  (exists e, reading grants clearances body (Throws e))
  \/ (exists restriction,
        In restriction (restrictionsOf (flattened data))
        /\ blocks (UserAttribute.name restriction) action = true
        /\ writing grants clearances body
             (restrictionDenial restriction) (restrictionEntry restriction))
  \/ (exists classification,
        EvaluationContext.classification context = Some classification
        /\ readingAny
             (fun supabase =>
                checkRestrictions context supabase (restrictionsOf (flattened data)))
             (Returns None)
        /\ writing grants clearances body
             clearanceDenial (clearanceEntry classification))
  \/ (readingAny
        (fun supabase =>
           checkRestrictions context supabase (restrictionsOf (flattened data)))
        (Returns None)
      /\ reading grants clearances (checkClassification context) (Returns None)
      /\ writing grants clearances body
           (permitted (flattened data))
           (entry context true "All checks passed" None)).
Proof.
  intros Hg Hm body.
  assert (Hstart : forall f sink, body (store f) sink = _)
    by (intros f sink; by apply evaluate_from_restrictions).
  destruct (checkRestrictions_cases (restrictionsOf (flattened data)))
    as [Hr|[[e Hr]|(r & Hin & Hb & Hr)]].
  - destruct checkClassification_cases as [Hc|[[e Hc]|(c & Hcl & Hc)]].
    + right. right. right. split; [done|]. split; [done|].
      intros f sink. rewrite Hstart. run_bind.
      unfold store. rewrite Hr, Hc, logDecision_run. reflexivity.
    + left. exists e. intros f sink. rewrite Hstart. run_bind.
      unfold store. by rewrite Hr, Hc.
    + right. right. left. exists c. split; [done|]. split; [done|].
      intros f sink. rewrite Hstart. run_bind.
      unfold store. by rewrite Hr, Hc.
  - left. exists e. intros f sink. rewrite Hstart. run_bind.
    unfold store. by rewrite Hr.
  - right. left. exists r. split; [done|]. split; [done|].
    intros f sink. rewrite Hstart. run_bind. unfold store. by rewrite Hr.
Qed.

(** [evaluate] throws without having written, or returns after exactly
    one insert, of a row that carries the decision. *)
Lemma evaluate_cases :
  let body := fun supabase => evaluate (Returns supabase) context in
  (exists e, reading grants clearances body (Throws e))
  \/ (exists r reason,
        writing grants clearances body r
          (entry context (EvaluationResult.allowed r) reason None)).
Proof.
  intros body.
  destruct (grants userId) as [e|data [e|]] eqn:Hg.
  - left. exists e. apply evaluate_grants_fail. by left.
  - left. exists e. apply evaluate_grants_fail. right. by exists data.
  - destruct (missingAttribute action (flattened data)) as [req|] eqn:Hm.
    + right. exists (missingDenial req). eexists.
      by apply (evaluate_missing data req).
    + destruct (evaluate_held data Hg Hm)
        as [[e H]|[(r & _ & _ & H)|[(c & _ & _ & H)|(_ & _ & H)]]].
      * left. by exists e.
      * right. exists (restrictionDenial r). eexists. exact H.
      * right. exists clearanceDenial. eexists. exact H.
      * right. exists (permitted (flattened data)). eexists. exact H.
Qed.

End Evaluator.

(** ** [checkPermission] *)

Section CheckPermission.

Import ABACEvaluator.

Variable context : EvaluationContext.t.

Lemma client_eta supabase :
  supabase = storeOf (select_user_attributes supabase) (select_clearances supabase)
               (insert_policy_enforcement_log supabase).
Proof. by destruct supabase. Qed.

Lemma checkPermission_thrown createClient e sink sink' :
  evaluate createClient context sink = (Throws e, sink') ->
  checkPermission createClient context sink = (Returns systemError, sink').
Proof. intros H. unfold checkPermission, try_catch. by rewrite H. Qed.

Lemma checkPermission_returned createClient r sink sink' :
  evaluate createClient context sink = (Returns r, sink') ->
  checkPermission createClient context sink = (Returns r, sink').
Proof. intros H. unfold checkPermission, try_catch. by rewrite H. Qed.

Lemma evaluate_no_client e sink :
  evaluate (Throws e) context sink = (Throws e, sink).
Proof. reflexivity. Qed.

(** [checkPermission] always returns: no exception leaves it. *)
Lemma checkPermission_total createClient sink :
  exists r sink', checkPermission createClient context sink = (Returns r, sink').
Proof.
  unfold checkPermission, try_catch.
  destruct (evaluate createClient context sink) as [[r|e] sink']; by do 2 eexists.
Qed.

(** Whatever is thrown inside [checkPermission] is answered with a denial,
    and nothing reaches the audit sink on that path. *)
Lemma thrown_error_denies createClient e sink :
  fst (evaluate createClient context sink) = Throws e ->
  checkPermission createClient context sink = (Returns systemError, sink).
Proof.
  intros H. destruct createClient as [supabase|e0].
  - rewrite (client_eta supabase) in *.
    destruct (evaluate_cases context (select_user_attributes supabase)
                (select_clearances supabase)) as [[e' Hc]|(r & reason & Hc)].
    + apply (checkPermission_thrown _ e'), Hc.
    + rewrite Hc in H. discriminate.
  - reflexivity.
Qed.

(** An unreachable store, or a grants query that is rejected or answered
    with an error, is a denial. *)
Lemma store_failure_denies createClient sink :
  match createClient with
  | Throws _ => True
  | Returns supabase =>
      match select_user_attributes supabase (EvaluationContext.userId context) with
      | Rejected _ | Resolved _ (Some _) => True
      | Resolved _ None => False
      end
  end ->
  checkPermission createClient context sink = (Returns systemError, sink).
Proof.
  destruct createClient as [supabase|e]; [|reflexivity].
  intros H. rewrite (client_eta supabase).
  destruct (select_user_attributes supabase _) as [e|data [e|]] eqn:Hg;
    [| |destruct H].
  - apply (checkPermission_thrown _ e), evaluate_grants_fail. by left.
  - apply (checkPermission_thrown _ e), evaluate_grants_fail. right. by exists data.
Qed.

End CheckPermission.

(** ** Fail-closed *)

Section FailClosed.

Import ABACEvaluator Scenario.

(** C1, where the code departs from the claim: the store answers the
    clearance query with an error, [checkClearanceLevel] reads only [data],
    and the request for a public case is allowed; had the query been
    answered with the subject's clearance row the same request would have
    been denied. *)
Theorem clearance_error_fails_open :
  fst (checkPermission (Returns clearancesDown)
         (request "J" "case.view" "case" (Some "public")) empty_sink)
  = Returns (permitted [permission "case.list.view"])
  /\ fst (checkPermission (Returns clearancesUp)
            (request "J" "case.view" "case" (Some "public")) empty_sink)
     = Returns clearanceDenial.
Proof. split; reflexivity. Qed.

End FailClosed.

(** ** The audit sink *)

Section AuditTrail.

Import ABACEvaluator Scenario.

(** The error path of [checkPermission] writes no decision. *)
Lemma error_path_writes_nothing :
  ~ writesOneDecision (Throws "store unreachable")
      (request "S" "case.edit" "cases" None) empty_sink.
Proof. intros [e H]. cbn in H. by destruct e. Qed.

(** C7, as the code has it: a call that ends in the error handler returns
    the system denial and issues no insert; every other call issues
    exactly one insert, of a row that carries the decision, before it
    returns; and the result is the same however the sink takes the
    insert. *)
Theorem decision_logged_unless_error createClient context sink :
  exists r sink',
    checkPermission createClient context sink = (Returns r, sink')
    /\ ((exists e, fst (evaluate createClient context sink) = Throws e)
          /\ r = systemError /\ sink' = sink
        \/ exists supabase reason,
             createClient = Returns supabase
             /\ fst (evaluate createClient context sink) = Returns r
             /\ sink' = logged supabase
                          (entry context (EvaluationResult.allowed r) reason None)
                          sink)
    /\ forall supabase f,
         createClient = Returns supabase ->
         fst (checkPermission
                (Returns (storeOf (select_user_attributes supabase)
                                  (select_clearances supabase) f))
                context sink)
         = Returns r.
Proof.
  destruct createClient as [supabase|e0].
  - rewrite (client_eta supabase).
    destruct (evaluate_cases context (select_user_attributes supabase)
                (select_clearances supabase)) as [[e Hc]|(r & reason & Hc)].
    + exists systemError, sink. split; [|split].
      * apply (checkPermission_thrown _ _ e), Hc.
      * left. split; [|done]. exists e. by rewrite Hc.
      * intros supabase' f [= <-]. cbn [select_user_attributes select_clearances storeOf].
        by rewrite (checkPermission_thrown _ _ e _ sink (Hc f sink)).
    + eexists r, _. split; [|split].
      * apply checkPermission_returned, Hc.
      * right. eexists _, reason. split; [done|]. split; [by rewrite Hc|done].
      * intros supabase' f [= <-]. cbn [select_user_attributes select_clearances storeOf].
        by rewrite (checkPermission_returned _ _ r _ _ (Hc f sink)).
  - exists systemError, sink. split; [done|]. split.
    + left. split; [by exists e0|done].
    + intros supabase f [=].
Qed.

(** A sink that rejects the insert: the request was made, no row was kept,
    and the answer is the one a working sink would have seen. *)
Example audit_failure_does_not_block :
  let context := request "S" "case.create" "cases" None in
  let run := checkPermission (Returns (Store.client db 100 failing)) context empty_sink in
  fst run = fst (checkPermission (Returns (Store.client db 100 accepting)) context
                   empty_sink)
  /\ fst run = Returns (permitted [permission "case.create"])
  /\ length (requests (snd run)) = 1%nat
  /\ rows (snd run) = [].
Proof. repeat split; reflexivity. Qed.

End AuditTrail.

(** ** The permission and restriction checks *)

Section Permissions.

Import ABACEvaluator Scenario.

Lemma omap_map_id {A B : Type} (g : A -> option B) (l : list A) :
  omap (fun x => x) (map g l) = omap g l.
Proof. induction l as [|a l IH]; [done|]. cbn. rewrite IH. reflexivity. Qed.

(** A store that serves the grants from the tables hands
    [getUserAttributes] the attributes the subject actively holds. *)
Lemma flattened_grants db now userId :
  flattened (Some (Store.userAttributesQuery db now userId))
  = Store.activeAttributes db now userId.
Proof. apply omap_map_id. Qed.

(** No entry of the action table is the empty string. *)
Lemma mapping_truthy action requiredAttribute :
  JS.assoc mapping action = Some requiredAttribute ->
  JS.truthy requiredAttribute = true.
Proof.
  unfold mapping. cbn [JS.assoc].
  repeat (destruct (String.eqb _ action); [intros [= <-]; reflexivity|]).
  discriminate.
Qed.

Lemma mapActionToAttribute_own action requiredAttribute :
  JS.assoc mapping action = Some requiredAttribute ->
  mapActionToAttribute action = JS.Own requiredAttribute.
Proof.
  intros H. unfold mapActionToAttribute, JS.get. rewrite H.
  by rewrite (mapping_truthy _ _ H).
Qed.

Lemma existsb_name_false requiredAttribute (attrs : list UserAttribute.t) :
  (forall a, In a attrs -> UserAttribute.name a <> requiredAttribute) ->
  existsb (fun attr => String.eqb (UserAttribute.name attr) requiredAttribute) attrs
  = false.
Proof.
  intros H. apply not_true_is_false. intros Hex.
  apply existsb_exists in Hex as (a & Hin & Heq).
  apply String.eqb_eq in Heq. by apply (H a).
Qed.

(** C5: for an action with an entry in the action table, a subject whose
    active grants do not include the mapped attribute is denied, and the
    reason names that attribute. The denial is logged. *)
Theorem missing_attribute_denied db now clearances f context sink requiredAttribute :
  JS.assoc mapping (EvaluationContext.action context) = Some requiredAttribute ->
  (forall a, In a (Store.activeAttributes db now (EvaluationContext.userId context)) ->
             UserAttribute.name a <> requiredAttribute) ->
  let supabase := storeOf (Store.grants db now) clearances f in
  let r := missingDenial requiredAttribute in
  checkPermission (Returns supabase) context sink
  = (Returns r,
     logged supabase
       (entry context false ("Missing required attribute: " +:+ requiredAttribute) None)
       sink)
  /\ EvaluationResult.allowed r = false
  /\ JS.includes (EvaluationResult.reason r) requiredAttribute = true.
Proof.
  intros Hmap Hnone supabase r. split; [|split].
  - apply checkPermission_returned.
    apply (evaluate_missing context (Store.grants db now) clearances
             (Some (Store.userAttributesQuery db now (EvaluationContext.userId context)))).
    + reflexivity.
    + rewrite flattened_grants. unfold missingAttribute.
      rewrite (mapActionToAttribute_own _ _ Hmap).
      by rewrite existsb_name_false.
  - reflexivity.
  - cbn [r missingDenial EvaluationResult.reason].
    apply includes_app_r, includes_middle.
Qed.

(** The scenario of the specification: S holds [case.create] only (the
    grant of [case.edit.metadata] has expired) and asks for [case.edit]. *)
Lemma missing_attribute_denied_witness :
  let context := request "S" "case.edit" "cases" None in
  let supabase := Store.client db 100 accepting in
  checkPermission (Returns supabase) context empty_sink
  = (Returns (missingDenial "case.edit.metadata"),
     logged supabase
       (entry context false "Missing required attribute: case.edit.metadata" None)
       empty_sink)
  /\ EvaluationResult.allowed (missingDenial "case.edit.metadata") = false
  /\ JS.includes (EvaluationResult.reason (missingDenial "case.edit.metadata"))
       "case.edit.metadata" = true.
Proof.
  apply (missing_attribute_denied db 100 (Store.clearances db 100) accepting
           (request "S" "case.edit" "cases" None) empty_sink "case.edit.metadata").
  - reflexivity.
  - vm_compute. intros a [<-|[]]. discriminate.
Defined.

Lemma restriction_listed (attrs : list UserAttribute.t) restriction :
  In restriction attrs ->
  UserAttribute.category restriction = "restriction" ->
  In restriction
    (List.filter (fun attr => String.eqb (UserAttribute.category attr) "restriction")
                 attrs).
Proof.
  intros Hin Hcat. apply filter_In. split; [done|].
  rewrite Hcat. reflexivity.
Qed.

(** C4: a subject that actively holds a restriction whose blocked prefixes
    match the action is denied, whatever else it holds and whatever the
    clearance query answers. The permission check comes first (a missing
    attribute is reported as such), the restrictions second, and the
    clearance query has no part in the outcome. *)
Theorem restriction_overrides db now clearances f context sink restriction :
  let userId := EvaluationContext.userId context in
  let action := EvaluationContext.action context in
  In restriction (Store.activeAttributes db now userId) ->
  UserAttribute.category restriction = "restriction" ->
  blocks (UserAttribute.name restriction) action = true ->
  exists r sink',
    checkPermission (Returns (storeOf (Store.grants db now) clearances f)) context sink
    = (Returns r, sink')
    /\ EvaluationResult.allowed r = false
    /\ (forall requiredAttribute,
          missingAttribute action (Store.activeAttributes db now userId)
            = Some requiredAttribute ->
          r = missingDenial requiredAttribute)
    /\ (missingAttribute action (Store.activeAttributes db now userId) = None ->
        r = systemError
        \/ exists blocking,
             In blocking (Store.activeAttributes db now userId)
             /\ UserAttribute.category blocking = "restriction"
             /\ blocks (UserAttribute.name blocking) action = true
             /\ r = restrictionDenial blocking)
    /\ forall clearances',
         checkPermission (Returns (storeOf (Store.grants db now) clearances' f))
           context sink
         = (Returns r, sink').
Proof.
  intros userId action Hin Hcat Hblocks.
  set (data := Some (Store.userAttributesQuery db now userId)).
  assert (Hg : Store.grants db now userId = Resolved data None) by reflexivity.
  assert (Hfl : flattened data = Store.activeAttributes db now userId)
    by apply flattened_grants.
  destruct (missingAttribute action (Store.activeAttributes db now userId))
    as [req|] eqn:Hm.
  - assert (Hw : forall c,
               writing (Store.grants db now) c
                 (fun supabase => evaluate (Returns supabase) context)
                 (missingDenial req)
                 (entry context false ("Missing required attribute: " +:+ req) None)).
    { intros c. apply (evaluate_missing context _ c data); [done|].
      fold action. by rewrite Hfl. }
    eexists (missingDenial req), _. split; [|split; [|split; [|split]]].
    + apply checkPermission_returned, Hw.
    + reflexivity.
    + by intros ? [= <-].
    + discriminate.
    + intros c. by rewrite (checkPermission_returned _ _ _ _ _ (Hw c f sink)).
  - pose proof (restriction_listed _ _ Hin Hcat) as Hlisted.
    rewrite <- Hfl in Hlisted, Hm.
    destruct (checkRestrictions_blocked context _ _ Hlisted Hblocks)
      as [[e Hr]|(r0 & Hin0 & Hb0 & Hr)].
    + exists systemError, sink. split; [|split; [|split; [|split]]].
      * apply (checkPermission_thrown _ _ e).
        by apply (evaluate_restriction_throws context _ clearances data e).
      * reflexivity.
      * discriminate.
      * intros _. by left.
      * intros c. apply (checkPermission_thrown _ _ e).
        by apply (evaluate_restriction_throws context _ c data e).
    + eexists (restrictionDenial r0), _. split; [|split; [|split; [|split]]].
      * apply checkPermission_returned.
        by apply (evaluate_restriction_blocks context _ clearances data _ _ Hg Hm Hr).
      * reflexivity.
      * discriminate.
      * intros _. right. exists r0. apply filter_In in Hin0 as [Hin0 Hc0].
        apply String.eqb_eq in Hc0. rewrite Hfl in Hin0. done.
      * intros c.
        by rewrite (checkPermission_returned _ _ _ _ _
                      (evaluate_restriction_blocks context _ c data _ _ Hg Hm Hr
                         f sink)).
Qed.

(** J holds [case.create], the highest clearance and the read-only
    restriction, and asks to create a top-secret case. *)
Lemma restriction_overrides_witness :
  exists r sink',
    checkPermission (Returns (Store.client db 100 accepting))
      (request "J" "case.create" "case" (Some "top_secret")) empty_sink
    = (Returns r, sink')
    /\ EvaluationResult.allowed r = false
    /\ EvaluationResult.policy r = Some "Restriction Policy".
Proof.
  destruct (restriction_overrides db 100 (Store.clearances db 100) accepting
              (request "J" "case.create" "case" (Some "top_secret")) empty_sink
              (restriction "restrict.read_only"))
    as (r & sink' & Hrun & Hdenied & _ & Hwhy & _).
  - vm_compute. tauto.
  - reflexivity.
  - reflexivity.
  - exists r, sink'. split; [exact Hrun|]. split; [exact Hdenied|].
    destruct Hwhy as [->|(b & _ & _ & _ & ->)]; [reflexivity| |reflexivity].
    revert Hrun. vm_compute. congruence.
Defined.

(** An action that is neither in the action table nor inherited needs no
    attribute: a subject without grants is allowed it, outside a classified
    case, and the decision is logged. *)
Lemma unmapped_action_allowed grants clearances f context sink data :
  JS.hasOwn mapping (EvaluationContext.action context) = false ->
  JS.inherited (EvaluationContext.action context) = false ->
  grants (EvaluationContext.userId context) = Resolved data None ->
  flattened data = [] ->
  classifiedCase context = false ->
  checkPermission (Returns (storeOf grants clearances f)) context sink
  = (Returns (permitted []),
     logged (storeOf grants clearances f)
       (entry context true "All checks passed" None) sink).
Proof.
  intros Hown Hinherited Hg Hnone Hc.
  assert (Hmap : JS.get mapping (EvaluationContext.action context) = JS.Undefined).
  { unfold JS.get, JS.hasOwn, JS.inherited in *.
    destruct (JS.assoc mapping _); [discriminate|].
    by destruct (JS.assoc JS.object_prototype _). }
  unfold checkPermission, try_catch, evaluate. run_bind.
  rewrite getUserAttributes_reading, Hg, Hnone.
  unfold missingAttribute, mapActionToAttribute. rewrite Hmap.
  cbn [List.filter checkRestrictions]. run_bind.
  unfold classifiedCase in Hc. unfold checkClassification.
  destruct (EvaluationContext.classification context) as [c|].
  - rewrite Hc. run_bind. by rewrite logDecision_run.
  - run_bind. by rewrite logDecision_run.
Qed.

(** The page of a case asks for [case.details.view], which names an
    attribute and not an action of the table: a judge without any grant
    passes. *)
Example attribute_name_as_action :
  fst (checkPermission (Returns noGrants)
         (request "J" "case.details.view" "cases" None) empty_sink)
  = Returns (permitted []).
Proof. reflexivity. Qed.

(** C10, where the code departs from the claim: [constructor] has no entry
    in the action table, yet [mapping[action]] finds the member every
    object inherits, and the subject without grants is denied for lack of
    that attribute. *)
Theorem inherited_action_denied :
  JS.hasOwn mapping "constructor" = false
  /\ fst (checkPermission (Returns noGrants)
            (request "S" "constructor" "cases" None) empty_sink)
     = Returns (missingDenial (JS.native "Object")).
Proof. split; reflexivity. Qed.

End Permissions.

(** ** Clearance *)

Section Clearance.

Import ABACEvaluator Scenario.

Lemma levelOfName_range name : 0 <= levelOfName name <= 4.
Proof.
  unfold levelOfName.
  repeat match goal with |- context [if ?b then _ else _] => destruct b end; lia.
Qed.

Lemma fold_left_max (levels : list Z) (start : Z) :
  0 <= start ->
  Forall (fun l => 0 <= l) levels ->
  fold_left Z.max levels start = Z.max start (fold_right Z.max 0 levels).
Proof.
  intros Hs Hl. revert start Hs.
  induction Hl as [|l rest Hl _ IH]; intros start Hs; cbn; [lia|].
  rewrite IH; lia.
Qed.

(** On a list of levels that is not empty, [Math.max] is the highest
    level. *)
Lemma maxLevelOf_names name names :
  maxLevelOf (map levelOfName (name :: names)) = clearanceLevel (name :: names).
Proof.
  unfold clearanceLevel. cbn [map maxLevelOf fold_right].
  apply fold_left_max; [apply levelOfName_range|].
  apply List.Forall_forall. intros l Hin. apply in_map_iff in Hin as (n & <- & _).
  apply levelOfName_range.
Qed.

(** The evaluator's own table is [CLASSIFICATION_LEVELS]. *)
Lemma requiredLevels_types : requiredLevels = CLASSIFICATION_LEVELS.
Proof. reflexivity. Qed.

Lemma classification_cases classification requiredLevel :
  JS.assoc CLASSIFICATION_LEVELS classification = Some requiredLevel ->
  (classification = "public" /\ requiredLevel = 1)
  \/ (classification = "confidential" /\ requiredLevel = 2)
  \/ (classification = "secret" /\ requiredLevel = 3)
  \/ (classification = "top_secret" /\ requiredLevel = 4).
Proof.
  unfold CLASSIFICATION_LEVELS. cbn [JS.assoc].
  repeat match goal with
         | |- (if String.eqb ?k classification then _ else _) = _ -> _ =>
             destruct (String.eqb_spec k classification) as [<-|_];
             [intros [= <-]; tauto|]
         end.
  discriminate.
Qed.

(** The names the clearance query returns are the names of the subject's
    clearance attributes. *)
Lemma clearanceNames_held db now userId :
  Store.clearanceNames db now userId
  = map UserAttribute.name (subjectClearances db now userId).
Proof.
  unfold Store.clearanceNames, subjectClearances, clearanceTier.
  induction (Store.activeAttributes db now userId) as [|a rest IH]; [done|].
  cbn. destruct (JS.startsWith (UserAttribute.name a) "clearance."); cbn; by rewrite IH.
Qed.

(** The evaluator reads the level of each attribute of [ATTRIBUTES] off
    its name as the level of its tier. *)
Lemma levelOfName_tier name level :
  JS.assoc CLEARANCE_ATTRIBUTES name = Some level -> levelOfName name = level.
Proof.
  unfold CLEARANCE_ATTRIBUTES. cbn [JS.assoc].
  repeat match goal with
         | |- (if String.eqb ?k name then _ else _) = _ -> _ =>
             destruct (String.eqb_spec k name) as [<-|_];
             [intros [= <-]; reflexivity|]
         end.
  discriminate.
Qed.

(** On attributes named by their tier, the highest level the evaluator
    reads off the names is the highest [level] column. *)
Lemma clearanceLevel_held db now userId :
  namedByTier db now userId ->
  clearanceLevel (Store.clearanceNames db now userId) = subjectClearance db now userId.
Proof.
  unfold namedByTier, subjectClearance, clearanceLevel.
  rewrite clearanceNames_held.
  induction 1 as [|a rest Ha _ IH]; [done|].
  cbn [map fold_right]. by rewrite IH, (levelOfName_tier _ _ Ha).
Qed.

(** The check does not follow the [level] column: K's one clearance
    attribute has level 4, which reaches the 3 a secret case requires, but
    its name carries no tag for the evaluator to read, and K is denied. *)
Lemma untagged_clearance_denied : ~ clearanceDecides Untagged.db 100 "K".
Proof.
  intros H. specialize (H "secret" 3 eq_refl).
  destruct H as [_ H]; [vm_compute; discriminate|].
  assert (Hlevel : 3 <= subjectClearance Untagged.db 100 "K")
    by (vm_compute; discriminate).
  specialize (H Hlevel). vm_compute in H. discriminate H.
Qed.

(** C6, for subjects whose clearance attributes are those of [ATTRIBUTES]
    with the level of their tier: for each of the four classifications, the
    clearance check passes iff the subject's clearance level, the maximum
    [level] among its active clearance attributes, reaches the level the
    classification requires; a subject without clearance attributes passes
    for [public] only. On a case with that classification, step 4 of
    [checkPermission] lets the request through exactly when the check
    passes. *)
Theorem clearance_check db now grants f userId classification requiredLevel sink :
  JS.assoc CLASSIFICATION_LEVELS classification = Some requiredLevel ->
  namedByTier db now userId ->
  let supabase := storeOf grants (Store.clearances db now) f in
  let held := subjectClearances db now userId in
  exists passes : bool,
    checkClearanceLevel userId classification supabase sink = (Returns passes, sink)
    /\ (held <> [] ->
        (passes = true <-> requiredLevel <= subjectClearance db now userId))
    /\ (held = [] -> (passes = true <-> classification = "public"))
    /\ forall context,
         EvaluationContext.userId context = userId ->
         EvaluationContext.resourceType context = "case" ->
         EvaluationContext.classification context = Some classification ->
         checkClassification context supabase sink
         = if passes then (Returns None, sink)
           else (Returns (Some clearanceDenial),
                 logged supabase (clearanceEntry context classification) sink).
Proof.
  intros Hlevel Hnamed supabase held.
  assert (Hget : JS.get requiredLevels classification = JS.Own requiredLevel).
  { unfold JS.get. rewrite requiredLevels_types. by rewrite Hlevel. }
  assert (Htruthy : JS.truthy classification = true).
  { destruct (classification_cases _ _ Hlevel) as [[-> _]|[[-> _]|[[-> _]|[-> _]]]];
      reflexivity. }
  assert (Hnz : Z.eqb requiredLevel 0 = false).
  { destruct (classification_cases _ _ Hlevel) as [[_ ->]|[[_ ->]|[[_ ->]|[_ ->]]]];
      reflexivity. }
  pose proof (clearanceLevel_held db now userId Hnamed) as Hmax.
  pose proof (clearanceNames_held db now userId) as Hnames. fold held in Hnames.
  assert (Hrun : exists passes : bool,
             checkClearanceLevel userId classification supabase sink
             = (Returns passes, sink)
             /\ (held <> [] ->
                 (passes = true <-> requiredLevel <= subjectClearance db now userId))
             /\ (held = [] -> (passes = true <-> classification = "public"))).
  { unfold checkClearanceLevel, await. run_bind. cbn.
    destruct (Store.clearanceNames db now userId) as [|name rest] eqn:Hrows.
    - exists (String.eqb classification "public"). split; [done|].
      split; [|intros _; apply String.eqb_eq].
      intros Hheld. destruct held; [done|discriminate Hnames].
    - exists (requiredLevel <=? subjectClearance db now userId).
      split; [|split].
      + cbn [map]. change (Some name :: map Some rest) with (map Some (name :: rest)).
        rewrite levelsOfRows_names, Hget, Hnz, maxLevelOf_names, Hmax. reflexivity.
      + intros _. apply Z.leb_le.
      + intros Hheld. rewrite Hheld in Hnames. discriminate Hnames. }
  destruct Hrun as (passes & Hrun & Hsome & Hnone).
  exists passes. split; [done|]. split; [done|]. split; [done|].
  intros context Hu Hr Hc. unfold checkClassification.
  rewrite Hc, Hr, Htruthy.
  change (String.eqb "case" "case" && true) with true. cbv iota.
  run_bind. rewrite Hu, Hrun.
  destruct passes; [reflexivity|]. by rewrite logDecision_run.
Qed.

(** J holds the highest clearance and passes for a secret case. *)
Lemma clearance_check_witness :
  exists passes : bool,
    checkClearanceLevel "J" "secret" (Store.client db 100 accepting) empty_sink
    = (Returns passes, empty_sink)
    /\ passes = true.
Proof.
  destruct (clearance_check db 100 (Store.grants db 100) accepting "J" "secret" 3
              empty_sink) as (passes & Hrun & Hsome & _).
  - reflexivity.
  - vm_compute. repeat constructor.
  - exists passes. split; [exact Hrun|]. apply Hsome.
    + vm_compute. discriminate.
    + vm_compute. discriminate.
Defined.

End Clearance.

(** ** The auditor's grants *)

Section AuditorGrants.

Import Trigger Scenario.

Lemma case_prefix_not_audit attr_name :
  JS.startsWith attr_name "case." = true ->
  String.eqb attr_name "audit.cases.stats" = false.
Proof.
  destruct attr_name as [|c rest]; [discriminate|].
  unfold JS.startsWith. cbn [String.prefix].
  destruct (ascii_dec "c" c) as [<-|_]; [reflexivity|discriminate].
Qed.

(** The trigger raises for an auditor and a forbidden attribute. *)
Lemma trigger_rejects db NEW attribute :
  users_profile db !! UserAttributeAssignment.user_id NEW = Some "admin" ->
  abac_attributes db !! UserAttributeAssignment.attribute_id NEW = Some attribute ->
  forbidden (UserAttribute.name attribute) = true ->
  exists e, check_admin_no_vault_access db NEW = Throws e.
Proof.
  intros Hrole Hattr Hforbidden. unfold check_admin_no_vault_access.
  rewrite Hrole, Hattr. cbn [fmap option_fmap option_map].
  change (String.eqb "admin" "admin") with true. cbn [andb].
  unfold forbidden in Hforbidden.
  destruct (JS.startsWith (UserAttribute.name attribute) "admin.vault.");
    [by eexists|].
  destruct (existsb (String.eqb (UserAttribute.name attribute)) userManagement);
    [by eexists|].
  cbn [orb] in Hforbidden. rewrite Hforbidden.
  rewrite (case_prefix_not_audit _ Hforbidden). by eexists.
Qed.

(** A row the trigger lets through is returned as it came and breaks
    nothing. *)
Lemma trigger_passes db NEW row :
  check_admin_no_vault_access db NEW = Returns row ->
  row = NEW /\ violates db NEW = false.
Proof.
  intros H. split.
  - unfold check_admin_no_vault_access in H.
    repeat match type of H with
           | match ?x with _ => _ end = _ => destruct x
           | (if ?b then _ else _) = _ => destruct b
           end; congruence.
  - unfold violates.
    destruct (users_profile db !! _) as [role|] eqn:Hrole; [|done].
    destruct (abac_attributes db !! _) as [attribute|] eqn:Hattr; [|done].
    destruct (String.eqb_spec role "admin") as [->|]; [|done].
    destruct (forbidden (UserAttribute.name attribute)) eqn:Hf; [|done].
    destruct (trigger_rejects db NEW attribute Hrole Hattr Hf) as [e He].
    congruence.
Qed.

Lemma violates_withGrants db grants ua :
  violates (withGrants db grants) ua = violates db ua.
Proof. reflexivity. Qed.

Lemma invariant_step db db' : invariant db -> step db db' -> invariant db'.
Proof.
  unfold invariant. intros Hinv Hstep.
  destruct Hstep as [NEW db' H|i NEW db' H|i].
  - unfold insertGrant in H.
    destruct (check_admin_no_vault_access db NEW) as [row|e] eqn:Hc; [|discriminate].
    injection H as <-. apply trigger_passes in Hc as [-> Hok].
    cbn. apply Forall_app. split; [done|]. by constructor.
  - unfold updateGrant in H.
    destruct (check_admin_no_vault_access db NEW) as [row|e] eqn:Hc; [|discriminate].
    injection H as <-. apply trigger_passes in Hc as [-> Hok].
    cbn. apply Forall_insert; done.
  - cbn. by apply Forall_delete.
Qed.

(** The trigger keeps the invariant in every state reached by writes to
    [user_attributes]. *)
Lemma reachable_invariant db0 db : reachable db0 db -> invariant db.
Proof.
  induction 1 as [Hinit|db db' _ IH Hstep].
  - unfold invariant. rewrite Hinit. constructor.
  - by apply (invariant_step db).
Qed.

(** The evaluator of the source has no guard of its own: the auditor A of
    the scenario, holding [case.create], is allowed to create a case. *)
Lemma evaluator_has_no_auditor_guard :
  ~ guardsAuditor db 100 (request "A" "case.create" "cases" None).
Proof.
  intros H. destruct H as (r & Hrun & Hdenied).
  - reflexivity.
  - exists (permission "case.create"). split; [|reflexivity].
    vm_compute. by left.
  - vm_compute in Hrun. injection Hrun as <-. discriminate.
Qed.

(** C2, as the code has it: in every state reached from a database without
    grants by inserts, updates and deletes on [user_attributes], no
    auditor holds a vault, user-management or case attribute, because the
    trigger refuses every insert and every update that would give it one.
    (Roles and the attribute catalogue are fixed along the way.) *)
Theorem auditor_grants_rejected db0 db :
  reachable db0 db ->
  invariant db
  /\ forall NEW attribute,
       users_profile db !! UserAttributeAssignment.user_id NEW = Some "admin" ->
       abac_attributes db !! UserAttributeAssignment.attribute_id NEW
         = Some attribute ->
       forbidden (UserAttribute.name attribute) = true ->
       exists e,
         insertGrant db NEW = Throws e
         /\ forall i, updateGrant db i NEW = Throws e.
Proof.
  intros Hreach. split; [by apply (reachable_invariant db0)|].
  intros NEW attribute Hrole Hattr Hf.
  destruct (trigger_rejects db NEW attribute Hrole Hattr Hf) as [e He].
  exists e. unfold insertGrant, updateGrant. rewrite He. done.
Qed.

(** From the scenario's tables without grants: S is given [case.create];
    the same grant for the auditor A is refused. *)
Lemma auditor_grants_rejected_witness :
  let db0 := withGrants db [] in
  let db1 := withGrants db [grant "S" "case.create" None] in
  invariant db1
  /\ exists e, insertGrant db1 (grant "A" "case.create" None) = Throws e.
Proof.
  intros db0 db1.
  assert (Hreach : reachable db0 db1).
  { apply (reachable_step db0 db0); [by apply reachable_init|].
    by apply (step_insert db0 (grant "S" "case.create" None)). }
  destruct (auditor_grants_rejected db0 db1 Hreach) as [Hinv Hrej].
  split; [exact Hinv|].
  destruct (Hrej (grant "A" "case.create" None) (permission "case.create"))
    as (e & He & _); [reflexivity..|].
  by exists e.
Defined.

End AuditorGrants.

(** ** The rate limiter *)

Section RateLimiter.

Import RateLimit.

Variable identifier : string.
Variable maxRequests : Z.

(** The first request of a window. *)
Lemma checkRateLimit_opens now (rateLimitStore : gmap string Entry) :
  noWindow identifier now rateLimitStore ->
  checkRateLimit identifier maxRequests now rateLimitStore
  = ({| allowed := true; remaining := maxRequests - 1;
        resetIn := RATE_LIMIT_WINDOW_MS |},
     <[key identifier := {| count := 1; resetAt := now + RATE_LIMIT_WINDOW_MS |}]>
       rateLimitStore).
Proof.
  unfold noWindow, checkRateLimit. intros H.
  destruct (rateLimitStore !! key identifier) as [current|]; [|done].
  apply Z.ltb_lt in H. by rewrite H.
Qed.

(** A request inside the window. *)
Lemma checkRateLimit_counts now (rateLimitStore : gmap string Entry) current :
  rateLimitStore !! key identifier = Some current ->
  now <= resetAt current ->
  checkRateLimit identifier maxRequests now rateLimitStore
  = ({| allowed := count current + 1 <=? maxRequests;
        remaining := Z.max 0 (maxRequests - (count current + 1));
        resetIn := resetAt current - now |},
     <[key identifier := {| count := count current + 1; resetAt := resetAt current |}]>
       rateLimitStore).
Proof.
  unfold checkRateLimit. intros -> H.
  assert ((resetAt current <? now) = false) as -> by lia. reflexivity.
Qed.

(** Requests inside an open window: the k-th of them finds the counter at
    [count + k] and is allowed iff [count + k + 1 <= maxRequests]. *)
Lemma requestsAt_window times (rateLimitStore : gmap string Entry) c R :
  rateLimitStore !! key identifier = Some {| count := c; resetAt := R |} ->
  Forall (fun t => t <= R) times ->
  (forall (k : nat) r,
      fst (requestsAt identifier maxRequests times rateLimitStore) !! k = Some r ->
      allowed r = (c + Z.of_nat k + 1 <=? maxRequests))
  /\ snd (requestsAt identifier maxRequests times rateLimitStore) !! key identifier
     = Some {| count := c + Z.of_nat (length times); resetAt := R |}.
Proof.
  intros Hcur Htimes. revert rateLimitStore c Hcur.
  induction Htimes as [|now later Hnow _ IH]; intros rateLimitStore c Hcur.
  - split; [intros k r [=]|]. cbn. rewrite Hcur. do 2 f_equal. lia.
  - cbn [requestsAt].
    rewrite (checkRateLimit_counts now rateLimitStore _ Hcur Hnow).
    cbn [count resetAt].
    set (store1 := <[key identifier := _]> rateLimitStore).
    specialize (IH store1 (c + 1)).
    destruct (requestsAt identifier maxRequests later store1) as [rs store2].
    destruct IH as [IHk IHs]; [apply lookup_insert_eq|].
    cbn [fst snd] in *. split.
    + intros [|k] r Hk; cbn in Hk.
      * injection Hk as <-. cbn. f_equal. lia.
      * rewrite (IHk k r Hk). f_equal. lia.
    + rewrite IHs. cbn [length]. do 2 f_equal. lia.
Qed.

(** A request of another principal leaves this one's entry alone. *)
Lemma checkRateLimit_other other limit now (rateLimitStore : gmap string Entry) :
  other <> identifier ->
  snd (checkRateLimit other limit now rateLimitStore) !! key identifier
  = rateLimitStore !! key identifier.
Proof.
  intros Hne.
  assert (key other <> key identifier)
    by (unfold key; intros Heq; apply Hne; by simplify_eq/=).
  unfold checkRateLimit.
  destruct (rateLimitStore !! key other) as [current|];
    [destruct (resetAt current <? now)|]; cbn; by rewrite lookup_insert_ne.
Qed.

(** With a limit of zero the first request of a window is still let
    through, although it is the (limit+1)-th. *)
Lemma zero_limit_first_request_allowed :
  ~ limitEnforced "admin-1" 0 [1000] ∅.
Proof.
  intros H. specialize (H O _ eq_refl). cbn in H. destruct H as [H _].
  specialize (H eq_refl). lia.
Qed.

(** C9, for a limit of at least one: the request that finds no open window
    opens one, is allowed and sets the counter to 1; of the requests that
    follow inside the window, the k-th overall is allowed iff
    [k <= maxRequests], so the (limit+1)-th and every later one is denied;
    the first request after the window has elapsed is allowed again and
    resets the counter to 1. *)
Theorem fixed_window now later after (rateLimitStore : gmap string Entry) :
  1 <= maxRequests ->
  noWindow identifier now rateLimitStore ->
  Forall (fun t => t <= now + RATE_LIMIT_WINDOW_MS) later ->
  now + RATE_LIMIT_WINDOW_MS < after ->
  let run := requestsAt identifier maxRequests (now :: later) rateLimitStore in
  fst (checkRateLimit identifier maxRequests now rateLimitStore)
  = {| allowed := true; remaining := maxRequests - 1;
       resetIn := RATE_LIMIT_WINDOW_MS |}
  /\ snd (checkRateLimit identifier maxRequests now rateLimitStore) !! key identifier
     = Some {| count := 1; resetAt := now + RATE_LIMIT_WINDOW_MS |}
  /\ limitEnforced identifier maxRequests (now :: later) rateLimitStore
  /\ snd run !! key identifier
     = Some {| count := Z.of_nat (length (now :: later));
               resetAt := now + RATE_LIMIT_WINDOW_MS |}
  /\ allowed (fst (checkRateLimit identifier maxRequests after (snd run))) = true
  /\ snd (checkRateLimit identifier maxRequests after (snd run)) !! key identifier
     = Some {| count := 1; resetAt := after + RATE_LIMIT_WINDOW_MS |}.
Proof.
  intros Hlimit Hfree Hlater Hafter run.
  pose proof (checkRateLimit_opens now rateLimitStore Hfree) as Hopen.
  set (store1 := <[key identifier := {| count := 1;
                                        resetAt := now + RATE_LIMIT_WINDOW_MS |}]>
                   rateLimitStore) in *.
  destruct (requestsAt_window later store1 1 (now + RATE_LIMIT_WINDOW_MS))
    as [Hk Hs]; [apply lookup_insert_eq|done|].
  assert (Hrun : run = (fst (checkRateLimit identifier maxRequests now rateLimitStore)
                        :: fst (requestsAt identifier maxRequests later store1),
                        snd (requestsAt identifier maxRequests later store1))).
  { unfold run. cbn [requestsAt]. rewrite Hopen.
    by destruct (requestsAt identifier maxRequests later store1). }
  assert (Hend : snd run !! key identifier
                 = Some {| count := Z.of_nat (length (now :: later));
                           resetAt := now + RATE_LIMIT_WINDOW_MS |}).
  { rewrite Hrun. cbn [snd]. rewrite Hs. cbn [length]. do 2 f_equal. lia. }
  assert (Hreopen : noWindow identifier after (snd run)).
  { unfold noWindow. rewrite Hend. cbn. lia. }
  split; [by rewrite Hopen|]. split; [rewrite Hopen; apply lookup_insert_eq|].
  split; [|split; [done|]].
  - intros k r. fold run. rewrite Hrun, Hopen. cbn [fst].
    destruct k as [|k]; cbn.
    + intros [= <-]. cbn. split; [lia|done].
    + intros Hr. rewrite (Hk k r Hr). rewrite Z.leb_le. lia.
  - rewrite (checkRateLimit_opens after (snd run) Hreopen). split; [done|].
    apply lookup_insert_eq.
Qed.

End RateLimiter.

(** A limit of two: the first two requests of the window pass, the third
    and the fourth are denied, and after the window the next one passes. *)
Lemma fixed_window_witness :
  map RateLimit.allowed
    (fst (RateLimit.requestsAt "admin-1" 2 [1000; 1010; 1020; 61000] ∅))
  = [true; true; false; false]
  /\ RateLimit.allowed
       (fst (RateLimit.checkRateLimit "admin-1" 2 61001
               (snd (RateLimit.requestsAt "admin-1" 2 [1000; 1010; 1020; 61000] ∅))))
     = true.
Proof.
  destruct (fixed_window "admin-1" 2 1000 [1010; 1020; 61000] 61001 ∅)
    as (_ & _ & Hlimit & _ & Hafter & _).
  - lia.
  - exact I.
  - repeat constructor; unfold RateLimit.RATE_LIMIT_WINDOW_MS; lia.
  - unfold RateLimit.RATE_LIMIT_WINDOW_MS; lia.
  - split; [reflexivity|exact Hafter].
Defined.

(** ** Ephemeral credentials *)

Section Credentials.

Import EphemeralCredentialsService.

Variable token : string.

Lemma validateToken_success now (credentials : gmap string EphemeralCredential) c :
  credentials !! token = Some c ->
  usedAt c = None ->
  now < expiresAt c ->
  validateToken token now credentials
  = (Some (caseId c), <[token := consume now c]> credentials).
Proof.
  intros Hc Hu Ht. unfold validateToken. rewrite Hc, Hu.
  assert ((now <? expiresAt c) = true) as -> by lia. reflexivity.
Qed.

Lemma validateToken_used now (credentials : gmap string EphemeralCredential) c t :
  credentials !! token = Some c ->
  usedAt c = Some t ->
  validateToken token now credentials = (None, credentials).
Proof. intros Hc Hu. unfold validateToken. by rewrite Hc, Hu. Qed.

Lemma validateToken_expired now (credentials : gmap string EphemeralCredential) c :
  credentials !! token = Some c ->
  expiresAt c <= now ->
  validateToken token now credentials = (None, credentials).
Proof.
  intros Hc Ht. unfold validateToken. rewrite Hc.
  destruct (usedAt c); [done|].
  assert ((now <? expiresAt c) = false) as -> by lia. reflexivity.
Qed.

(** A validation leaves [usedAt] as it was, or sets it from null. *)
Lemma validateToken_usedAt now (credentials : gmap string EphemeralCredential) :
  let after := snd (validateToken token now credentials) in
  match credentials !! token with
  | None => after !! token = None
  | Some c =>
      exists c', after !! token = Some c'
                 /\ (usedAt c' = usedAt c
                     \/ (usedAt c = None /\ usedAt c' = Some now))
  end.
Proof.
  cbv zeta. unfold validateToken.
  destruct (credentials !! token) as [c|] eqn:Hc; [|exact Hc].
  destruct (usedAt c) as [t|] eqn:Hu.
  - exists c. split; [exact Hc|]. left. by rewrite Hu.
  - destruct (now <? expiresAt c); cbn [snd].
    + exists (consume now c). rewrite lookup_insert_eq. split; [done|]. by right.
    + exists c. split; [exact Hc|]. by left.
Qed.

(** A validation succeeds exactly on a credential the statistics view
    counts as pending, and leaves it counted as used. *)
Lemma validateToken_pending now (credentials : gmap string EphemeralCredential) :
  (exists case, fst (validateToken token now credentials) = Some case)
  <-> exists c, credentials !! token = Some c /\ tokens_pending now c = true.
Proof.
  unfold validateToken, tokens_pending, tokens_used. split.
  - intros [case H]. destruct (credentials !! token) as [c|]; [|discriminate].
    exists c. split; [done|].
    destruct (usedAt c); [discriminate|].
    by destruct (now <? expiresAt c).
  - intros (c & -> & H). destruct (usedAt c); [by rewrite andb_false_r in H|].
    rewrite andb_true_r in H. rewrite H. by eexists.
Qed.

Lemma validateToken_counts_used now (credentials : gmap string EphemeralCredential) case :
  fst (validateToken token now credentials) = Some case ->
  exists c, snd (validateToken token now credentials) !! token = Some c
            /\ tokens_used c = true
            /\ tokens_pending now c = false
            /\ tokens_expired_unused now c = false.
Proof.
  unfold validateToken.
  destruct (credentials !! token) as [c|]; [|discriminate].
  destruct (usedAt c) eqn:Hu; [discriminate|].
  destruct (now <? expiresAt c); [|discriminate].
  intros _. exists (consume now c). cbn [snd]. rewrite lookup_insert_eq.
  unfold tokens_pending, tokens_expired_unused, tokens_used. cbn.
  by rewrite !andb_false_r.
Qed.

(** Once used, a credential is never validated again. *)
Lemma validations_used times (credentials : gmap string EphemeralCredential) c t :
  credentials !! token = Some c ->
  usedAt c = Some t ->
  validations token times credentials = (map (fun _ => None) times, credentials).
Proof.
  intros Hc Hu. induction times as [|now later IH]; [done|].
  cbn [validations map]. rewrite (validateToken_used now credentials c t Hc Hu).
  by rewrite IH.
Qed.

(** Over any sequence of validations, a token succeeds at most once. *)
Lemma validations_at_most_once times (credentials : gmap string EphemeralCredential) :
  (successes (fst (validations token times credentials)) <= 1)%nat.
Proof.
  revert credentials. induction times as [|now later IH]; intros credentials.
  - cbn. lia.
  - cbn [validations]. unfold validateToken at 1.
    destruct (credentials !! token) as [c|] eqn:Hc.
    + destruct (usedAt c) as [t|] eqn:Hu.
      * specialize (IH credentials).
        destruct (validations token later credentials) as [rs credentials'].
        exact IH.
      * destruct (now <? expiresAt c).
        -- rewrite (validations_used later _ (consume now c) now);
             [|apply lookup_insert_eq|done].
           cbn. unfold successes. cbn.
           replace (List.filter _ (map (fun _ => None) later)) with (@nil (option string));
             [cbn; lia|].
           clear. induction later; [done|]. cbn. done.
        -- specialize (IH credentials).
           destruct (validations token later credentials) as [rs credentials'].
           exact IH.
    + specialize (IH credentials).
      destruct (validations token later credentials) as [rs credentials'].
      exact IH.
Qed.

(** C3: the first validation of a freshly issued, unexpired credential
    returns the case it is bound to and sets [usedAt]; every later
    validation of that token returns null and leaves [usedAt] as it is; a
    validation at or after [expiresAt] returns null even if the credential
    was never used; and over any sequence of validations a token is
    validated successfully at most once. *)
Theorem single_use caseId issuedTo ttl now first
    (credentials : gmap string EphemeralCredential) :
  first < now + ttl ->
  let issued := snd (issue token caseId issuedTo ttl now credentials) in
  let used := snd (validateToken token first issued) in
  fst (validateToken token first issued) = Some caseId
  /\ (exists c, issued !! token = Some c /\ usedAt c = None)
  /\ (exists c, used !! token = Some c /\ usedAt c = Some first)
  /\ (forall second, validateToken token second used = (None, used))
  /\ (forall late, now + ttl <= late -> validateToken token late issued = (None, issued))
  /\ (forall store t c u,
        store !! token = Some c -> usedAt c = Some u ->
        validateToken token t store = (None, store))
  /\ forall store times, (successes (fst (validations token times store)) <= 1)%nat.
Proof.
  intros Hfirst issued used.
  set (c := {| EphemeralCredentialsService.token := token; caseId := caseId;
               issuedTo := issuedTo; issuedAt := now; expiresAt := now + ttl;
               usedAt := None |}).
  assert (Hissued : issued !! token = Some c) by apply lookup_insert_eq.
  assert (Hrun : validateToken token first issued
                 = (Some caseId, <[token := consume first c]> issued)).
  { apply (validateToken_success first issued c); [done|done|]. cbn. lia. }
  assert (Hused : used !! token = Some (consume first c)).
  { unfold used. rewrite Hrun. apply lookup_insert_eq. }
  split; [by rewrite Hrun|]. split; [by exists c|].
  split; [by exists (consume first c)|]. split; [|split; [|split]].
  - intros second. by apply (validateToken_used second used (consume first c) first).
  - intros late Hlate. by apply (validateToken_expired late issued c).
  - intros store t c' u Hc Hu. by apply (validateToken_used t store c' u).
  - intros store times. apply validations_at_most_once.
Qed.

End Credentials.

(** A credential issued at time 100 for 600 seconds, used at 130, tried
    again at 140. *)
Lemma single_use_witness :
  let issued :=
    snd (EphemeralCredentialsService.issue "t0k3n" "case-7" "J" 600 100 ∅) in
  fst (EphemeralCredentialsService.validations "t0k3n" [130; 140] issued)
  = [Some "case-7"; None]
  /\ fst (EphemeralCredentialsService.validateToken "t0k3n" 700 issued) = None.
Proof.
  intros issued.
  destruct (single_use "t0k3n" "case-7" "J" 600 100 130 ∅)
    as (Hfirst & _ & _ & Hsecond & Hlate & _ & _); [lia|].
  split.
  - cbn [EphemeralCredentialsService.validations].
    fold issued in Hfirst, Hsecond.
    destruct (EphemeralCredentialsService.validateToken "t0k3n" 130 issued)
      as [r used] eqn:Hrun.
    cbn [fst snd] in Hfirst, Hsecond. rewrite (Hsecond 140), Hfirst. reflexivity.
  - fold issued in Hlate. rewrite (Hlate 700); [reflexivity|lia].
Defined.

(** ** The anonymised view *)

Section Anonymised.

Import AuditLogsSanitized.

Lemma substring_prefix (m : nat) (s : string) :
  exists rest, s = substring 0 m s +:+ rest.
Proof.
  revert s. induction m as [|m IH]; intros s.
  - exists s. by destruct s.
  - destruct s as [|c s]; [by exists EmptyString|].
    destruct (IH s) as [rest Hrest]. exists rest.
    cbn [substring]. rewrite append_cons. f_equal. exact Hrest.
Qed.

Lemma substring_length (m : nat) (s : string) :
  (m <= String.length s)%nat -> String.length (substring 0 m s) = m.
Proof.
  revert s. induction m as [|m IH]; intros s Hm.
  - by destruct s.
  - destruct s as [|c s]; cbn in *; [lia|]. rewrite IH; lia.
Qed.

Lemma prefix_length (p s : string) :
  String.prefix p s = true -> (String.length p <= String.length s)%nat.
Proof.
  revert s. induction p as [|c p IH]; intros s H; cbn; [lia|].
  destruct s as [|c' s]; [discriminate|]. cbn in H.
  destruct (ascii_dec c c'); [|discriminate]. apply IH in H. cbn. lia.
Qed.

Lemma includes_length (s sub : string) :
  JS.includes s sub = true -> (String.length sub <= String.length s)%nat.
Proof.
  induction s as [|c s IH]; rewrite includes_unfold; intros H;
    apply orb_true_iff in H as [H|H].
  - by apply prefix_length.
  - discriminate.
  - by apply prefix_length.
  - apply IH in H. cbn. lia.
Qed.

Lemma matchesAt_length pattern (s : string) :
  matchesAt pattern s = true -> (length pattern <= String.length s)%nat.
Proof.
  revert s. induction pattern as [|class pattern IH]; intros s H; cbn; [lia|].
  destruct s as [|c s]; [discriminate|]. cbn in H.
  apply andb_true_iff in H as [_ H]. apply IH in H. cbn. lia.
Qed.

(** A match at the start of a string is a match at the start of every
    string that begins with it. *)
Lemma matchesAt_prefix pattern (p s : string) :
  matchesAt pattern p = true -> String.prefix p s = true ->
  matchesAt pattern s = true.
Proof.
  revert p s. induction pattern as [|class pattern IH]; intros p s Hp Hs; [done|].
  destruct p as [|c p]; [discriminate|].
  destruct s as [|c' s]; [discriminate|]. cbn in *.
  destruct (ascii_dec c c') as [<-|]; [|discriminate].
  apply andb_true_iff in Hp as [-> Hp]. by apply (IH p).
Qed.

Lemma matches_unfold pattern (s : string) :
  matches pattern s
  = matchesAt pattern s
    || match s with
       | EmptyString => false
       | String _ s' => matches pattern s'
       end.
Proof. by destruct s. Qed.

(** A string that contains a piece the pattern matches is matched. *)
Lemma includes_matches pattern (s piece : string) :
  matchesAt pattern piece = true -> JS.includes s piece = true ->
  matches pattern s = true.
Proof.
  intros Hp. induction s as [|c s IH]; rewrite includes_unfold, matches_unfold;
    intros H; apply orb_true_iff in H as [H|H].
  - by rewrite (matchesAt_prefix _ _ _ Hp H).
  - discriminate.
  - by rewrite (matchesAt_prefix _ _ _ Hp H).
  - rewrite (IH H). apply orb_true_r.
Qed.

(** A match that ends before the appended dots does not depend on them. *)
Lemma matchesAt_before_dots pattern (s rest : string) :
  rejectsDot pattern ->
  matchesAt pattern (s +:+ "...") = true -> matchesAt pattern (s +:+ rest) = true.
Proof.
  intros Hdot. revert s. induction Hdot as [|class pattern Hclass _ IH]; intros s H.
  - by destruct (s +:+ rest).
  - destruct s as [|c s].
    + change (EmptyString +:+ "...") with "..." in H.
      cbn [matchesAt] in H. by rewrite Hclass in H.
    + rewrite append_cons in *. cbn [matchesAt] in *.
      apply andb_true_iff in H as [-> H]. by apply IH.
Qed.

Lemma matches_before_dots pattern (s rest : string) :
  rejectsDot pattern -> pattern <> [] ->
  matches pattern (s +:+ "...") = true -> matches pattern (s +:+ rest) = true.
Proof.
  intros Hdot Hne. induction s as [|c s IH]; intros H.
  - exfalso. destruct Hdot as [|class pattern Hclass _]; [done|].
    change (EmptyString +:+ "...") with "..." in H.
    cbn in H. rewrite Hclass in H. discriminate.
  - rewrite matches_unfold in H. rewrite matches_unfold.
    apply orb_true_iff in H as [H|H].
    + by rewrite (matchesAt_before_dots _ _ rest Hdot H).
    + rewrite append_cons in *. rewrite (IH H). apply orb_true_r.
Qed.

Lemma uuidPattern_rejectsDot : rejectsDot uuidPattern.
Proof. unfold rejectsDot, uuidPattern. cbn. repeat constructor. Qed.

(** The sanitised reason never holds anything of the shape of a UUID. *)
Lemma sanitize_clean reason r :
  sanitize reason = Some r -> matches uuidPattern r = false.
Proof.
  destruct reason as [raw|]; [|discriminate]. cbn [sanitize].
  destruct (matches uuidPattern raw) eqn:Hraw; [by intros [= <-]|].
  destruct (100 <? String.length raw)%nat; [|by intros [= <-]].
  intros [= <-]. apply not_true_is_false. intros H.
  destruct (substring_prefix 100 raw) as [rest Hrest].
  apply (matches_before_dots _ _ rest uuidPattern_rejectsDot) in H; [|done].
  rewrite <- Hrest in H. congruence.
Qed.

Lemma append_length (s t : string) :
  String.length (s +:+ t) = (String.length s + String.length t)%nat.
Proof. induction s as [|c s IH]; [done|]. rewrite append_cons. cbn. by rewrite IH. Qed.

(** The sanitised reason is at most 103 characters long. *)
Lemma sanitize_bounded reason r :
  sanitize reason = Some r -> (String.length r <= 103)%nat.
Proof.
  destruct reason as [raw|]; [|discriminate]. cbn [sanitize].
  destruct (matches uuidPattern raw); [intros [= <-]; cbn; lia|].
  destruct (100 <? String.length raw)%nat eqn:Hlong; intros [= <-].
  - apply Nat.ltb_lt in Hlong.
    rewrite append_length, substring_length; [cbn|]; lia.
  - apply Nat.ltb_ge in Hlong. lia.
Qed.

Lemma hex_length bytes : String.length (MD5.hex bytes) = (2 * length bytes)%nat.
Proof. induction bytes as [|b rest IH]; [done|]. cbn. rewrite IH. lia. Qed.

Example MD5_empty : MD5.MD5 EmptyString = "d41d8cd98f00b204e9800998ecf8427e".
Proof. vm_compute. reflexivity. Qed.

Example MD5_abc : MD5.MD5 "abc" = "900150983cd24fb0d6963f7d28e17f72".
Proof. vm_compute. reflexivity. Qed.

(** An MD5 digest is 32 hexadecimal characters. *)
Lemma MD5_length s : String.length (MD5.MD5 s) = 32%nat.
Proof.
  unfold MD5.MD5, MD5.digest. rewrite hex_length.
  destruct (fold_left MD5.compress _ MD5.initial) as [[[a b] c] d].
  reflexivity.
Qed.

Lemma userHash_length user_id : String.length (userHash user_id) = 8%nat.
Proof. unfold userHash. apply substring_length. rewrite MD5_length. lia. Qed.

(** The first eight characters of the digest do not tell every pair of
    subjects apart. *)
Remark userHash_collision :
  userHash "f77600c1-a379-4be4-be4e-ec0f2ed8d801"
  = userHash "00f9a3a9-3cbb-41f0-bd24-7e7016332294".
Proof. vm_compute. reflexivity. Qed.

(** The projection of a row copies what the reason quotes: the case
    number the row is about stays readable. *)
Lemma quoted_resource_leaks : ~ leaksNothing quotingRow.
Proof.
  intros H.
  destruct (H "Access to CASE-2024-001 denied") as [_ Hresource].
  - vm_compute. tauto.
  - specialize (Hresource "CASE-2024-001" eq_refl). vm_compute in Hresource.
    discriminate.
Qed.

(** C8, as the view has it: [user_hash] is the first eight characters of
    the MD5 digest of the subject id, so it depends on nothing else and is
    eight characters long; the projection does not depend on the row's
    [resource_id] or [metadata]; the sanitised reason holds no text of the
    shape of a lower-case UUID, so neither it nor [user_hash] contains a
    subject or resource id of that shape; [action], [resource_type] and
    [result] are copied as they are. *)
Theorem anonymised_view pel :
  let row := audit_logs_sanitized pel in
  (forall pel',
      PolicyEnforcementLog.user_id pel' = PolicyEnforcementLog.user_id pel ->
      user_hash (audit_logs_sanitized pel') = user_hash row)
  /\ user_hash row = substring 0 8 (MD5.MD5 (PolicyEnforcementLog.user_id pel))
  /\ String.length (user_hash row) = 8%nat
  /\ (forall resource_id metadata,
        audit_logs_sanitized (aboutResource pel resource_id metadata) = row)
  /\ (forall r, reason_sanitized row = Some r ->
                matches uuidPattern r = false /\ (String.length r <= 103)%nat)
  /\ (forall identifier,
        matchesAt uuidPattern identifier = true ->
        JS.includes (user_hash row) identifier = false
        /\ forall r, reason_sanitized row = Some r -> JS.includes r identifier = false)
  /\ action row = PolicyEnforcementLog.action pel
  /\ resource_type row = PolicyEnforcementLog.resource_type pel
  /\ result row = PolicyEnforcementLog.result pel.
Proof.
  intros row. split; [|split; [|split; [|split; [|split; [|split]]]]].
  - intros pel' Heq. cbn. by rewrite Heq.
  - reflexivity.
  - apply userHash_length.
  - reflexivity.
  - intros r Hr. split; [exact (sanitize_clean _ r Hr)|exact (sanitize_bounded _ r Hr)].
  - intros identifier Hshape. split.
    + apply not_true_is_false. intros H. apply includes_length in H.
      apply matchesAt_length in Hshape. cbn [row audit_logs_sanitized user_hash] in H.
      rewrite userHash_length in H. cbn in Hshape. lia.
    + intros r Hr. apply not_true_is_false. intros H.
      apply sanitize_clean in Hr.
      rewrite (includes_matches _ _ _ Hshape H) in Hr. discriminate.
  - done.
Qed.

End Anonymised.

(** ** From the decision to its anonymised row *)

(** S, holding [case.create] only, asks for [case.edit]: the denial is
    stored, and its projection shows the hash of S, the verdict and the
    reason, which names the missing attribute. *)
Example denial_end_to_end :
  let context := Scenario.request "S" "case.edit" "cases" None in
  let run :=
    ABACEvaluator.checkPermission
      (Returns (Store.client Scenario.db 100 Scenario.accepting)) context empty_sink in
  exists e,
    rows (snd run) = [e]
    /\ let row :=
         AuditLogsSanitized.audit_logs_sanitized
           (PolicyEnforcementLog.ofEntry "log-1" 1700000000 e) in
       AuditLogsSanitized.user_hash row = AuditLogsSanitized.userHash "S"
       /\ AuditLogsSanitized.result row = "deny"
       /\ AuditLogsSanitized.reason_sanitized row
          = Some "Missing required attribute: case.edit.metadata".
Proof. eexists. split; [reflexivity|]. repeat split. Qed.

(** * Properties of the rest of the access layer *)

(** ** The helpers of the evaluator *)

Section Helpers.

Import ABACEvaluator ABACHelpers.

Lemma getUserAttributes_run supabase userId sink :
  getUserAttributes userId supabase sink
  = (match select_user_attributes supabase userId with
     | Rejected e => Throws e
     | Resolved _ (Some e) => Throws e
     | Resolved data None => Returns (flattened data)
     end, sink).
Proof.
  unfold getUserAttributes, await. run_bind.
  destruct (select_user_attributes supabase userId) as [e|data [e|]]; try reflexivity.
  destruct data; reflexivity.
Qed.

(** X1: [hasAttribute] and [hasClearance] answer [false] whenever the store
    fails them: the client cannot be created, the query is rejected, or it
    is answered with an error. *)
Theorem helpers_fail_closed supabase (client : Supabase) userId attributeName minLevel sink e :
  (select_attribute client userId attributeName = Rejected e
   \/ select_attribute client userId attributeName = Resolved None (Some e)) ->
  (select_user_attributes supabase userId = Rejected e
   \/ exists data, select_user_attributes supabase userId = Resolved data (Some e)) ->
  hasAttribute (Throws e) userId attributeName = false
  /\ hasAttribute (Returns client) userId attributeName = false
  /\ hasClearance (Throws e) userId minLevel sink = (Returns false, sink)
  /\ hasClearance (Returns supabase) userId minLevel sink = (Returns false, sink).
Proof.
  intros Hattr Hgrants. split; [done|]. split; [|split; [done|]].
  - unfold hasAttribute. cbn. by destruct Hattr as [->| ->].
  - unfold hasClearance, try_catch. run_bind. rewrite getUserAttributes_run.
    by destruct Hgrants as [->|[data ->]].
Qed.

Lemma helpers_fail_closed_witness :
  let down : Supabase :=
    {| queries := Scenario.noGrants;
       auth_getUser := Returns (Some "J");
       select_profile := fun _ => Rejected "fetch failed";
       select_attribute := fun _ _ => Resolved None (Some "fetch failed");
       insert_audit_access_log := fun _ => Inserted |} in
  let unreachable :=
    storeOf (fun _ => Resolved None (Some "fetch failed"))
            (fun _ => Resolved None (Some "fetch failed")) Scenario.accepting in
  hasAttribute (Returns down) "J" "case.create" = false
  /\ fst (hasClearance (Returns unreachable) "J" 0 empty_sink) = Returns false.
Proof.
  intros down unreachable.
  destruct (helpers_fail_closed unreachable down "J" "case.create" 0 empty_sink
              "fetch failed") as (_ & Hattr & _ & Hclear).
  - by right.
  - right. by eexists.
  - split; [exact Hattr|]. by rewrite Hclear.
Defined.

Lemma maybeSingle_data {A : Type} (rows : list A) :
  (exists row, Backend.maybeSingle rows = Resolved (Some row) None /\ rows = [row])
  \/ (exists error, Backend.maybeSingle rows = Resolved None error /\ length rows <> 1%nat).
Proof.
  destruct rows as [|row [|second rest]].
  - right. by eexists.
  - left. by eexists.
  - right. by eexists.
Qed.

Lemma named_exists db now userId attributeName :
  existsb (fun attr => String.eqb (UserAttribute.name attr) attributeName)
          (Store.activeAttributes db now userId)
  = match Backend.named db now userId attributeName with [] => false | _ => true end.
Proof.
  unfold Backend.named.
  induction (Store.activeAttributes db now userId) as [|a rest IH]; [done|].
  cbn. destruct (String.eqb (UserAttribute.name a) attributeName); [done|]. exact IH.
Qed.

(** X2: on a store that answers from the tables, [hasAttribute] is true exactly
    when the subject has one active grant of an attribute of that name, and
    then the attribute check of [checkPermission] is satisfied for every
    action mapped to it; with two such grants that check is still satisfied,
    but [hasAttribute] is false. *)
Theorem hasAttribute_exactly_one session profiles db now userId attributeName :
  let held := Backend.named db now userId attributeName in
  let answer :=
    hasAttribute (Returns (Backend.supabase session profiles db now))
      userId attributeName in
  (answer = true <-> length held = 1%nat)
  /\ forall action,
       JS.assoc mapping action = Some attributeName ->
       (1 <= length held)%nat ->
       missingAttribute action (Store.activeAttributes db now userId) = None.
Proof.
  intros held answer. split.
  - unfold answer, hasAttribute. cbn.
    fold held. rewrite <- (length_map (fun _ => ()) held).
    destruct (maybeSingle_data (map (fun _ : UserAttribute.t => ()) held))
      as [(row & -> & Hrows)|(error & -> & Hrows)]; cbn.
    + by rewrite Hrows.
    + split; [discriminate|]. intros H. by destruct Hrows.
  - intros action Hmap Hheld. unfold missingAttribute.
    rewrite (mapActionToAttribute_own _ _ Hmap), named_exists. fold held.
    destruct held; [cbn in Hheld; lia|done].
Qed.

Lemma levelOfNameDescending_range name : 0 <= levelOfNameDescending name <= 4.
Proof.
  unfold levelOfNameDescending.
  repeat match goal with |- context [if ?b then _ else _] => destruct b end; lia.
Qed.

Lemma max_levels_range {A : Type} (name : A -> string) (rows : list A) :
  0 <= fold_right Z.max 0 (map (fun row => levelOfNameDescending (name row)) rows) <= 4.
Proof.
  induction rows as [|row rest IH]; cbn; [lia|].
  pose proof (levelOfNameDescending_range (name row)). lia.
Qed.

(** [hasClearance] compares [minLevel] with one number between 0 and 4, or
    answers [false] whatever [minLevel] is. *)
Lemma hasClearance_shape createClient userId :
  exists level : option Z,
    (forall highest, level = Some highest -> 0 <= highest <= 4)
    /\ forall minLevel sink,
         hasClearance createClient userId minLevel sink
         = (Returns (match level with
                     | Some highest => minLevel <=? highest
                     | None => false
                     end), sink).
Proof.
  destruct createClient as [supabase|e]; [|exists None; by split].
  destruct (select_user_attributes supabase userId) as [e|data [e|]] eqn:Hg.
  - exists None. split; [done|]. intros minLevel sink.
    unfold hasClearance, try_catch. run_bind. by rewrite getUserAttributes_run, Hg.
  - exists None. split; [done|]. intros minLevel sink.
    unfold hasClearance, try_catch. run_bind. by rewrite getUserAttributes_run, Hg.
  - exists (Some (fold_right Z.max 0
                     (map (fun attr => levelOfNameDescending (UserAttribute.name attr))
                          (List.filter
                             (fun attr => JS.startsWith (UserAttribute.name attr) "clearance.")
                             (flattened data))))).
    split.
    + intros highest [= <-]. apply (max_levels_range UserAttribute.name).
    + intros minLevel sink.
      unfold hasClearance, try_catch. run_bind. by rewrite getUserAttributes_run, Hg.
Qed.

(** X3: [hasClearance] never confirms a level above 4, confirms every level up
    to one it has confirmed, and says the same whatever the sink holds. *)
Theorem hasClearance_bounded createClient userId minLevel sink :
  (4 < minLevel -> fst (hasClearance createClient userId minLevel sink) = Returns false)
  /\ (fst (hasClearance createClient userId minLevel sink) = Returns true ->
      forall lower sink',
        lower <= minLevel ->
        hasClearance createClient userId lower sink' = (Returns true, sink')).
Proof.
  destruct (hasClearance_shape createClient userId) as (level & Hrange & Hrun).
  split.
  - intros Hhigh. rewrite Hrun. cbn. destruct level as [highest|]; [|done].
    specialize (Hrange highest eq_refl). f_equal. lia.
  - rewrite Hrun. cbn. intros Hok lower sink' Hlower. rewrite Hrun.
    destruct level as [highest|]; [|discriminate].
    injection Hok as Hok. do 2 f_equal. lia.
Qed.

Lemma clearances_of_attributes (level : string -> Z) (attrs : list UserAttribute.t) :
  map (fun attr => level (UserAttribute.name attr))
      (List.filter (fun attr => JS.startsWith (UserAttribute.name attr) "clearance.") attrs)
  = map level
      (List.filter (fun n => JS.startsWith n "clearance.") (map UserAttribute.name attrs)).
Proof.
  induction attrs as [|a rest IH]; [done|]. cbn.
  destruct (JS.startsWith (UserAttribute.name a) "clearance."); cbn; by rewrite IH.
Qed.

(** [hasClearance] on a store that serves the grants from the tables. *)
Lemma hasClearance_tables db now clearances f userId minLevel sink :
  hasClearance (Returns (storeOf (Store.grants db now) clearances f)) userId minLevel sink
  = (Returns (minLevel <=? fold_right Z.max 0
                             (map levelOfNameDescending
                                  (Store.clearanceNames db now userId))), sink).
Proof.
  unfold hasClearance, try_catch. run_bind. rewrite getUserAttributes_run.
  cbn [storeOf select_user_attributes]. unfold Store.grants.
  rewrite flattened_grants, clearances_of_attributes. reflexivity.
Qed.

(** [checkClearanceLevel] on a store that serves the clearances from the
    tables, for a classification of the table. *)
Lemma checkClearanceLevel_tables db now grants f userId classification requiredLevel sink :
  JS.assoc CLASSIFICATION_LEVELS classification = Some requiredLevel ->
  checkClearanceLevel userId classification
    (storeOf grants (Store.clearances db now) f) sink
  = (Returns (match Store.clearanceNames db now userId with
              | [] => String.eqb classification "public"
              | names => requiredLevel <=? clearanceLevel names
              end), sink).
Proof.
  intros Hlevel.
  assert (Hget : JS.get requiredLevels classification = JS.Own requiredLevel).
  { unfold JS.get. rewrite requiredLevels_types. by rewrite Hlevel. }
  assert (Hnz : Z.eqb requiredLevel 0 = false).
  { destruct (classification_cases _ _ Hlevel) as [[_ ->]|[[_ ->]|[[_ ->]|[_ ->]]]];
      reflexivity. }
  unfold checkClearanceLevel, await. run_bind. cbn.
  destruct (Store.clearanceNames db now userId) as [|name rest]; [done|].
  cbn [map]. change (Some name :: map Some rest) with (map Some (name :: rest)).
  by rewrite levelsOfRows_names, Hget, Hnz, maxLevelOf_names.
Qed.

(** X4: for a subject with at least one clearance attribute, each of whose
    names reads as the same level from either end, [hasClearance] for the
    level a classification requires says what [checkClearanceLevel] says
    for that classification. Without any clearance attribute they part:
    [hasClearance] confirms no level from 1 up, while the check passes a
    public case. *)
Theorem hasClearance_agrees db now f userId classification requiredLevel sink :
  JS.assoc CLASSIFICATION_LEVELS classification = Some requiredLevel ->
  let supabase := storeOf (Store.grants db now) (Store.clearances db now) f in
  let names := Store.clearanceNames db now userId in
  (forall n, In n names -> levelOfName n = levelOfNameDescending n) ->
  (names <> [] ->
   hasClearance (Returns supabase) userId requiredLevel sink
   = checkClearanceLevel userId classification supabase sink)
  /\ (names = [] ->
      hasClearance (Returns supabase) userId requiredLevel sink = (Returns false, sink)
      /\ checkClearanceLevel userId "public" supabase sink = (Returns true, sink)).
Proof.
  intros Hlevel supabase names Hsame. unfold supabase.
  rewrite hasClearance_tables, (checkClearanceLevel_tables _ _ _ _ _ _ _ _ Hlevel).
  fold names. split.
  - intros Hsome. destruct names as [|name rest] eqn:Hnames; [done|].
    unfold clearanceLevel. do 4 f_equal.
    apply map_ext_in. intros n Hn. symmetry. by apply Hsame.
  - intros Hnone. split.
    + rewrite Hnone. cbn. do 2 f_equal.
      destruct (classification_cases _ _ Hlevel) as [[_ ->]|[[_ ->]|[[_ ->]|[_ ->]]]];
        reflexivity.
    + rewrite (checkClearanceLevel_tables _ _ _ _ _ "public" 1 _ eq_refl).
      fold names. by rewrite Hnone.
Qed.

(** J holds [clearance.L4.top_secret]: both say yes for a secret case. *)
Lemma hasClearance_agrees_witness :
  hasClearance (Returns (Store.client Scenario.db 100 Scenario.accepting)) "J" 3 empty_sink
  = checkClearanceLevel "J" "secret" (Store.client Scenario.db 100 Scenario.accepting)
      empty_sink.
Proof.
  destruct (hasClearance_agrees Scenario.db 100 Scenario.accepting "J" "secret" 3
              empty_sink) as [Hsome _].
  - reflexivity.
  - vm_compute. intros n [<-|[]]. reflexivity.
  - apply Hsome. vm_compute. discriminate.
Defined.

End Helpers.

(** ** The case route *)

Section CaseRouteGate.

Import ABACEvaluator.

(** The gate lets the handler go on exactly when [checkPermission] allows,
    and answers a denial with what [caught] makes of its reason. *)
Lemma gate_run createClient user action caseId sink result sink' :
  checkPermission createClient
    (EvaluationContext.mk user action "cases" (Some caseId) None) sink
  = (Returns result, sink') ->
  CaseRoute.gate createClient (Some user) action caseId sink
  = (Returns (if EvaluationResult.allowed result then None
              else Some (CaseRoute.caught (EvaluationResult.reason result))), sink').
Proof.
  intros Hcheck. unfold CaseRoute.gate, enforcePermission, try_catch. run_bind.
  rewrite Hcheck. by destruct (EvaluationResult.allowed result).
Qed.

Lemma checkRestrictions_none context restrictions supabase sink :
  Forall (fun r => JS.inherited (UserAttribute.name r) = false
                   /\ blocks (UserAttribute.name r) (EvaluationContext.action context)
                      = false) restrictions ->
  checkRestrictions context supabase restrictions sink = (Returns None, sink).
Proof.
  induction 1 as [|r rest [Hinh Hblocks] _ IH]; [done|].
  cbn [checkRestrictions]. run_bind. rewrite restrictionApplies_run.
  unfold blocks, JS.inherited, JS.get in *.
  destruct (JS.assoc rules (UserAttribute.name r)) as [blocked|].
  - by rewrite Hblocks.
  - destruct (JS.assoc JS.object_prototype (UserAttribute.name r)); [discriminate|].
    exact IH.
Qed.

(** What a store of the tables answers when the action asks for no
    attribute, no restriction stands in the way and no classification is
    given. *)
Lemma evaluate_unhindered db now f context sink :
  mapActionToAttribute (EvaluationContext.action context) = JS.Undefined ->
  EvaluationContext.metadata context = None ->
  Forall (fun r => JS.inherited (UserAttribute.name r) = false
                   /\ blocks (UserAttribute.name r) (EvaluationContext.action context)
                      = false)
         (List.filter (fun a => String.eqb (UserAttribute.category a) "restriction")
                      (Store.activeAttributes db now (EvaluationContext.userId context))) ->
  checkPermission (Returns (Store.client db now f)) context sink
  = (Returns (permitted (Store.activeAttributes db now (EvaluationContext.userId context))),
     logged (Store.client db now f) (entry context true "All checks passed" None) sink).
Proof.
  intros Hmap Hmeta Hfree.
  apply checkPermission_returned.
  unfold evaluate. run_bind. rewrite getUserAttributes_run.
  unfold Store.client at 1. cbn [storeOf select_user_attributes]. unfold Store.grants.
  rewrite flattened_grants.
  unfold missingAttribute. rewrite Hmap.
  rewrite (checkRestrictions_none _ _ _ _ Hfree).
  unfold checkClassification, EvaluationContext.classification. rewrite Hmeta.
  run_bind. by rewrite logDecision_run.
Qed.

Lemma blocks_details_view name : blocks name "case.details.view" = false.
Proof.
  unfold blocks, JS.get, rules. cbn [JS.assoc].
  repeat match goal with
         | |- context [String.eqb ?a name] => destruct (String.eqb a name)
         end; try reflexivity.
  by destruct (JS.assoc JS.object_prototype name).
Qed.

Lemma blocks_edit_metadata name :
  name <> "restrict.read_only" -> blocks name "case.edit.metadata" = false.
Proof.
  intros Hne. unfold blocks, JS.get, rules. cbn [JS.assoc].
  destruct (String.eqb_spec "restrict.no_export" name); [reflexivity|].
  destruct (String.eqb_spec "restrict.no_delete" name); [reflexivity|].
  destruct (String.eqb_spec "restrict.read_only" name); [congruence|].
  by destruct (JS.assoc JS.object_prototype name).
Qed.

(** X5: the two handlers ask [enforcePermission] for [case.details.view] and
    [case.edit.metadata], which are names of attributes, not keys of the
    action table: no attribute is required of the subject. Whatever the
    subject holds or lacks, [GET] goes on unless a restriction it holds is
    named like a member of [Object.prototype], and [PATCH] goes on unless
    such a restriction or [restrict.read_only] is among them; the decision
    is logged as allowed. *)
Theorem case_route_asks_no_attribute db now f user caseId sink :
  let supabase := Store.client db now f in
  let restrictions :=
    List.filter (fun a => String.eqb (UserAttribute.category a) "restriction")
                (Store.activeAttributes db now user) in
  let allowed action :=
    entry (EvaluationContext.mk user action "cases" (Some caseId) None)
          true "All checks passed" None in
  (Forall (fun r => JS.inherited (UserAttribute.name r) = false) restrictions ->
   CaseRoute.GET (Returns supabase) (Some user) caseId sink
   = (Returns None, logged supabase (allowed "case.details.view") sink))
  /\ (Forall (fun r => JS.inherited (UserAttribute.name r) = false
                       /\ UserAttribute.name r <> "restrict.read_only") restrictions ->
      CaseRoute.PATCH (Returns supabase) (Some user) caseId sink
      = (Returns None, logged supabase (allowed "case.edit.metadata") sink)).
Proof.
  intros supabase restrictions allowed. subst supabase. split; intros Hfree.
  - unfold CaseRoute.GET.
    rewrite (gate_run _ _ _ _ _ _ _
               (evaluate_unhindered db now f
                  (EvaluationContext.mk user "case.details.view" "cases" (Some caseId) None)
                  sink eq_refl eq_refl
                  (Forall_impl _ _ _ Hfree
                     (fun r Hr => conj Hr (blocks_details_view _))))).
    reflexivity.
  - unfold CaseRoute.PATCH.
    rewrite (gate_run _ _ _ _ _ _ _
               (evaluate_unhindered db now f
                  (EvaluationContext.mk user "case.edit.metadata" "cases" (Some caseId) None)
                  sink eq_refl eq_refl
                  (Forall_impl _ _ _ Hfree
                     (fun r Hr => conj (proj1 Hr) (blocks_edit_metadata _ (proj2 Hr)))))).
    reflexivity.
Qed.

(** A, who holds [case.create] only, may read and edit case 7. *)
Lemma case_route_asks_no_attribute_witness :
  fst (CaseRoute.GET (Returns (Store.client Scenario.db 100 Scenario.accepting))
         (Some "A") "7" empty_sink) = Returns None
  /\ fst (CaseRoute.PATCH (Returns (Store.client Scenario.db 100 Scenario.accepting))
            (Some "A") "7" empty_sink) = Returns None.
Proof.
  destruct (case_route_asks_no_attribute Scenario.db 100 Scenario.accepting "A" "7"
              empty_sink) as [Hget Hpatch].
  split.
  - rewrite Hget; [reflexivity|]. vm_compute. constructor.
  - rewrite Hpatch; [reflexivity|]. vm_compute. constructor.
Defined.

End CaseRouteGate.

Section CaseRouteAnswers.

Import ABACEvaluator.

Lemma caught_systemError :
  CaseRoute.caught (EvaluationResult.reason systemError) = CaseRoute.internalError.
Proof. reflexivity. Qed.

Lemma caught_status message :
  Guards.status (CaseRoute.caught message) = 403
  \/ Guards.status (CaseRoute.caught message) = 500.
Proof. unfold CaseRoute.caught. destruct (JS.includes _ _); [by left|by right]. Qed.

(** X6: [GET] asks for an action no rule blocks and no table entry maps: it
    never answers 403. Whatever the store holds or does, the handler goes
    on, or the answer is 500 with the fixed text (401 without a session). *)
Theorem case_route_get_never_forbidden createClient user caseId sink :
  let answer := fst (CaseRoute.GET createClient user caseId sink) in
  answer = Returns None
  \/ answer = Returns (Some CaseRoute.internalError)
  \/ (user = None
      /\ answer = Returns (Some {| Guards.status := 401;
                                   Guards.error := Some "Unauthorized" |})).
Proof.
  destruct user as [user|]; [|right; right; by split].
  set (context := EvaluationContext.mk user "case.details.view" "cases" (Some caseId) None).
  assert (Hsystem : forall sink',
             checkPermission createClient context sink = (Returns systemError, sink') ->
             fst (CaseRoute.GET createClient (Some user) caseId sink)
             = Returns (Some CaseRoute.internalError)).
  { intros sink' H. unfold CaseRoute.GET. by rewrite (gate_run _ _ _ _ _ _ _ H). }
  destruct createClient as [supabase|e].
  2:{ right; left. by apply (Hsystem sink). }
  rewrite (client_eta supabase) in *.
  set (grants := select_user_attributes supabase) in *.
  set (clearances := select_clearances supabase) in *.
  set (f := insert_policy_enforcement_log supabase) in *.
  destruct (grants user) as [e|data [e|]] eqn:Hg.
  - right; left. apply (Hsystem sink). apply store_failure_denies.
    cbn. fold grants. by rewrite Hg.
  - right; left. apply (Hsystem sink). apply store_failure_denies.
    cbn. fold grants. by rewrite Hg.
  - destruct (evaluate_held context grants clearances data Hg eq_refl)
      as [[e H]|[(r & _ & Hblocks & _)|[(c & Hc & _)|(_ & _ & H)]]].
    + right; left. apply (Hsystem sink). apply (thrown_error_denies _ _ e).
      by rewrite H.
    + cbn in Hblocks. by rewrite blocks_details_view in Hblocks.
    + discriminate Hc.
    + left. unfold CaseRoute.GET.
      by rewrite (gate_run _ _ _ _ _ _ _ (checkPermission_returned _ _ _ _ _ (H f sink))).
Qed.

(** X7: the holder of an active [restrict.read_only] restriction never gets
    past [PATCH]: the answer is an error, 500 or 403. *)
Theorem case_route_read_only_refused db now f user caseId sink restriction :
  In restriction (Store.activeAttributes db now user) ->
  UserAttribute.name restriction = "restrict.read_only" ->
  UserAttribute.category restriction = "restriction" ->
  exists response,
    fst (CaseRoute.PATCH (Returns (Store.client db now f)) (Some user) caseId sink)
    = Returns (Some response)
    /\ (Guards.status response = 403 \/ Guards.status response = 500).
Proof.
  intros Hin Hname Hcat. unfold Store.client.
  set (context := EvaluationContext.mk user "case.edit.metadata" "cases" (Some caseId) None).
  pose proof (flattened_grants db now user) as Hflat.
  assert (Hg : Store.grants db now (EvaluationContext.userId context)
               = Resolved (Some (Store.userAttributesQuery db now user)) None) by done.
  destruct (evaluate_held context (Store.grants db now) (Store.clearances db now) _
              Hg eq_refl)
    as [[e H]|[(r & _ & _ & H)|[(c & Hc & _)|(Hnone & _ & _)]]].
  - exists CaseRoute.internalError. split; [|by right]. unfold CaseRoute.PATCH.
    rewrite (gate_run _ _ _ _ _ _ _
               (thrown_error_denies context _ e sink
                  (f_equal fst (H f sink)))).
    reflexivity.
  - exists (CaseRoute.caught (EvaluationResult.reason (restrictionDenial r))).
    split; [|apply caught_status]. unfold CaseRoute.PATCH.
    by rewrite (gate_run _ _ _ _ _ _ _ (checkPermission_returned _ _ _ _ _ (H f sink))).
  - discriminate Hc.
  - exfalso. rewrite Hflat in Hnone.
    destruct (checkRestrictions_blocked context _ restriction
                (restriction_listed _ _ Hin Hcat)) as [[e He]|(r & _ & _ & Hr)].
    + by rewrite Hname.
    + pose proof (He (Store.client db now f) sink) as Hthrows.
      pose proof (Hnone (Store.client db now f) sink) as Hreturns.
      cbv beta in Hthrows, Hreturns. congruence.
    + pose proof (Hr (Store.client db now f) sink) as Hdenied.
      pose proof (Hnone (Store.client db now f) sink) as Hreturns.
      cbv beta in Hdenied, Hreturns. congruence.
Qed.

(** J holds [restrict.read_only]. *)
Lemma case_route_read_only_refused_witness :
  exists response,
    fst (CaseRoute.PATCH (Returns (Store.client Scenario.db 100 Scenario.accepting))
           (Some "J") "7" empty_sink)
    = Returns (Some response)
    /\ (Guards.status response = 403 \/ Guards.status response = 500).
Proof.
  apply (case_route_read_only_refused Scenario.db 100 Scenario.accepting "J" "7"
           empty_sink (Scenario.restriction "restrict.read_only")).
  - vm_compute. right; left. reflexivity.
  - reflexivity.
  - reflexivity.
Defined.

End CaseRouteAnswers.

(** ** The guards *)

Section GuardsProperties.

Import Guards.

(** X8: whoever passes [requireSuperAdmin] passes [requireAdmin], and
    [requireAdminWithPermission] for every attribute, on the same client. *)
Theorem guards_nested createClient user :
  requireSuperAdmin createClient = Returns user ->
  exists profile,
    Profile.role profile = "super_admin"
    /\ Profile.status profile = "active"
    /\ requireAdmin createClient = Returns (user, profile)
    /\ forall requiredAttribute,
         requireAdminWithPermission createClient requiredAttribute
         = Returns (user, profile).
Proof.
  unfold requireSuperAdmin, requireAdminWithPermission, requireAdmin.
  destruct createClient as [supabase|e]; [|discriminate]. cbn.
  destruct (auth_getUser supabase) as [[u|]|e]; cbn; try discriminate.
  destruct (select_profile supabase u) as [e|[profile|] err]; cbn; try discriminate.
  destruct (String.eqb_spec (Profile.status profile) "active") as [Hstatus|];
    cbn; [|discriminate].
  destruct (String.eqb_spec (Profile.role profile) "super_admin") as [Hrole|];
    cbn; [|discriminate].
  intros [= <-]. exists profile. rewrite Hrole. cbn. by rewrite Hrole.
Qed.

Lemma guards_nested_witness :
  exists profile,
    Profile.role profile = "super_admin"
    /\ Profile.status profile = "active"
    /\ requireAdmin (Returns (Accounts.client (Some "R")))
       = Returns ("R", profile)
    /\ forall requiredAttribute,
         requireAdminWithPermission
           (Returns (Accounts.client (Some "R")))
           requiredAttribute
         = Returns ("R", profile).
Proof.
  apply (guards_nested
           (Returns (Accounts.client (Some "R"))) "R").
  reflexivity.
Defined.

(** X9: what [createSecureErrorResponse] answers, whatever was thrown and
    for every default status that [NextResponse.json] accepts: the status
    of the answer is accepted too, so the call returns, and the answer is
    one of four fixed pairs of a 401 or 403 status and its text, or the
    default status with [Internal server error]: the body is one of five
    fixed texts. One case falls outside: a message that names a member of
    [Object.prototype] is answered with status 200 and no text at all. *)
Theorem secure_error_texts error defaultStatus :
  acceptedStatus defaultStatus = true ->
  let response := createSecureErrorResponse error defaultStatus in
  acceptedStatus (status response) = true
  /\ ((Guards.error response = None /\ status response = 200
       /\ exists message, error = Some message /\ JS.inherited message = true)
      \/ (Guards.error response = Some "Internal server error"
          /\ status response = defaultStatus)
      \/ (In (status response, Guards.error response)
             [ (401, Some "Authentication required");
               (403, Some "Account suspended");
               (403, Some "Access denied");
               (403, Some "Insufficient permissions") ])).
Proof.
  intros Haccepted. unfold createSecureErrorResponse.
  set (errorMessage := match error with Some m => m | None => "Unknown error" end).
  unfold JS.get.
  destruct (JS.assoc errorMap errorMessage) as [[st text]|] eqn:Hown.
  - cbn [status Guards.error].
    unfold errorMap in Hown. cbn [JS.assoc] in Hown.
    repeat match type of Hown with
           | (if ?b then _ else _) = _ => destruct b
           end;
      try discriminate; injection Hown as <- <-; (split; [reflexivity|]);
      right; right; cbn; tauto.
  - destruct (JS.assoc JS.object_prototype errorMessage) as [shown|] eqn:Hinh.
    + split; [reflexivity|]. left. cbn. split; [done|]. split; [done|].
      destruct error as [m|].
      * exists m. split; [done|]. unfold JS.inherited. subst errorMessage. by rewrite Hinh.
      * discriminate Hinh.
    + split; [exact Haccepted|]. right; left. by cbn.
Qed.

(** An error of the store, answered with the default of the default
    status. *)
Lemma secure_error_texts_witness :
  createSecureErrorResponse (Some "connection refused") 500
  = {| status := 500; Guards.error := Some "Internal server error" |}
  /\ acceptedStatus 500 = true.
Proof.
  destruct (secure_error_texts (Some "connection refused") 500 eq_refl) as [Haccepted _].
  split; [reflexivity|exact Haccepted].
Defined.

End GuardsProperties.

Section GuardAnswers.

Import Guards.

(** X10: who passes [requireAdminWithPermission] on a store of the tables, and
    what [createSecureErrorResponse] answers to the others: 401 without a
    session or a profile, 403 for an account that is not active, for a role
    other than the two administrators' and for an auditor that does not
    hold exactly one active grant of the attribute. The super administrator
    passes without any grant. *)
Theorem guard_answers session profiles db now requiredAttribute :
  let outcome :=
    requireAdminWithPermission (Returns (Backend.supabase session profiles db now))
      requiredAttribute in
  let refused code text :=
    exists e, outcome = Throws e
              /\ createSecureErrorResponse (Some e) 500
                 = {| status := code; error := Some text |} in
  match session ≫= (fun user => pair user <$> profiles !! user) with
  | None => refused 401 "Authentication required"
  | Some (user, profile) =>
      if negb (String.eqb (Profile.status profile) "active")
      then refused 403 "Account suspended"
      else if String.eqb (Profile.role profile) "super_admin"
      then outcome = Returns (user, profile)
      else if String.eqb (Profile.role profile) "admin"
      then if bool_decide (length (Backend.named db now user requiredAttribute) = 1%nat)
           then outcome = Returns (user, profile)
           else refused 403 "Insufficient permissions"
      else refused 403 "Access denied"
  end.
Proof.
  intros outcome refused. subst outcome refused.
  unfold requireAdminWithPermission, requireAdmin. cbn.
  destruct session as [user|]; cbn; [|by eexists].
  destruct (profiles !! user) as [profile|]; cbn; [|by eexists].
  destruct (String.eqb (Profile.status profile) "active"); cbn; [|by eexists].
  destruct (String.eqb (Profile.role profile) "super_admin") eqn:Hsuper; cbn.
  { rewrite andb_false_r. cbn. by rewrite Hsuper. }
  destruct (String.eqb (Profile.role profile) "admin"); cbn; [|by eexists].
  rewrite Hsuper.
  destruct (Backend.named db now user requiredAttribute) as [|a [|b rest]]; cbn;
    [by eexists|done|by eexists].
Qed.

End GuardAnswers.

(** ** The parameters of a search *)

Section Parameters.

Import JSString Middleware.

Lemma trimStart_suffix s : exists pre, s = (pre ++ trimStart s)%list.
Proof.
  induction s as [|c rest [pre IH]]; [by exists []|]. cbn.
  destruct (isWhiteSpace c).
  - exists (c :: pre). cbn. by rewrite <- IH.
  - by exists [].
Qed.

Lemma trimStart_clean s : startsClean (trimStart s).
Proof.
  induction s as [|c rest IH]; [done|]. cbn.
  destruct (isWhiteSpace c) eqn:Hc; [exact IH|exact Hc].
Qed.

Lemma trimStart_id s : startsClean s -> trimStart s = s.
Proof. destruct s as [|c rest]; [done|]. cbn. by intros ->. Qed.

Lemma trimEnd_prefix s : exists post, s = (trimEnd s ++ post)%list.
Proof.
  unfold trimEnd. destruct (trimStart_suffix (rev s)) as [pre Hpre].
  exists (rev pre). rewrite <- rev_app_distr, <- Hpre. by rewrite rev_involutive.
Qed.

Lemma trim_trimmed s : trimmed (trim s).
Proof.
  unfold trimmed, trim. split.
  - pose proof (trimStart_clean s) as Hclean.
    destruct (trimEnd_prefix (trimStart s)) as [post Hpost].
    destruct (trimEnd (trimStart s)) as [|c rest]; [done|].
    rewrite Hpost in Hclean. exact Hclean.
  - unfold trimEnd. rewrite rev_involutive. apply trimStart_clean.
Qed.

Lemma trim_id s : trimmed s -> trim s = s.
Proof.
  intros [Hstart Hend]. unfold trim, trimEnd.
  rewrite (trimStart_id s Hstart), (trimStart_id (rev s) Hend).
  apply rev_involutive.
Qed.

Lemma trim_part s : exists pre post, s = (pre ++ trim s ++ post)%list.
Proof.
  destruct (trimStart_suffix s) as [pre Hpre].
  destruct (trimEnd_prefix (trimStart s)) as [post Hpost].
  exists pre, post. unfold trim. by rewrite <- Hpost.
Qed.

(** X11: what [sanitizeSearchParams] keeps of [search]: safe code units only,
    at most 100 of them, no white space at either end; and sanitizing what
    it returned changes nothing. *)
Theorem sanitized_search params :
  let kept := search' (sanitizeSearchParams params) in
  Forall (fun c => isSafe c = true) kept
  /\ (length kept <= 100)%nat
  /\ trimmed kept
  /\ search' (sanitizeSearchParams
                {| search := Some kept; page := page params; limit := limit params;
                   startDate := startDate params; endDate := endDate params |})
     = kept.
Proof.
  intros kept.
  assert (Hkept : exists s, kept = trim (firstn 100 (List.filter isSafe s))).
  { subst kept. unfold sanitizeSearchParams. cbn [search'].
    destruct (given (search params)) as [s|]; [by exists s|by exists []]. }
  destruct Hkept as [s Hkept].
  set (cut := firstn 100 (List.filter isSafe s)) in *.
  assert (Hsafe : Forall (fun c => isSafe c = true) cut).
  { apply List.Forall_forall. intros c Hc.
    assert (Hin : In c (List.filter isSafe s)).
    { rewrite <- (firstn_skipn 100). apply in_or_app. by left. }
    apply filter_In in Hin. tauto. }
  assert (Hlen : (length cut <= 100)%nat) by apply firstn_le_length.
  destruct (trim_part cut) as (pre & post & Hpart).
  assert (Hsafe' : Forall (fun c => isSafe c = true) kept).
  { rewrite Hpart in Hsafe. rewrite <- Hkept in Hsafe.
    apply Forall_app in Hsafe as [_ Hsafe]. by apply Forall_app in Hsafe as [Hsafe _]. }
  assert (Hlen' : (length kept <= 100)%nat).
  { rewrite Hpart, <- Hkept in Hlen. rewrite !length_app in Hlen. lia. }
  assert (Htrim : trimmed kept) by (rewrite Hkept; apply trim_trimmed).
  repeat split; try done; try apply Htrim.
  unfold sanitizeSearchParams. cbn [search' search].
  destruct kept as [|c rest] eqn:Hk; [done|]. cbn [given]. rewrite <- Hk in *.
  assert (Hfilter : List.filter isSafe kept = kept).
  { clear -Hsafe'. induction Hsafe' as [|c l Hc _ IH]; [done|].
    cbn. by rewrite Hc, IH. }
  rewrite Hfilter, firstn_all2 by exact Hlen'.
  by apply trim_id.
Qed.

Lemma clamped_range p fallback most : 1 <= most -> 1 <= clamped p fallback most <= most.
Proof. unfold clamped. lia. Qed.

Lemma test_length pattern s : test pattern s = true -> length s = length pattern.
Proof.
  revert s. induction pattern as [|class pattern IH]; intros [|c s]; cbn;
    try discriminate; [done|].
  intros H. apply andb_true_iff in H as [_ H]. by rewrite (IH s H).
Qed.

Lemma test_date s : test dateRegex s = true -> isoDate s.
Proof.
  intros Htest. pose proof (test_length _ _ Htest) as Hlen.
  destruct s as [|y1 [|y2 [|y3 [|y4 [|h1 [|m1 [|m2 [|h2 [|d1 [|d2 [|c s]]]]]]]]]]];
    try discriminate Hlen.
  unfold dateRegex in Htest. cbn [repeat app test] in Htest.
  rewrite !andb_true_iff in Htest. unfold isDigit, between in Htest.
  rewrite !andb_true_iff, !Z.leb_le, !Z.eqb_eq in Htest.
  destruct Htest as (?&?&?&?&?&?&?&?&?&?&_). subst.
  do 8 eexists. split; [reflexivity|]. repeat constructor; lia.
Qed.

(** A date that is kept is the parameter itself and has the shape of a
    date. *)
Lemma kept_date p d :
  match given p with
  | Some s => if test dateRegex s then Some s else None
  | None => None
  end = Some d -> p = Some d /\ isoDate d.
Proof.
  destruct p as [[|c s]|]; cbn [given]; try discriminate.
  destruct (test dateRegex (c :: s)) eqn:Htest; [|discriminate].
  intros [= <-]. split; [done|]. by apply test_date.
Qed.

(** X12: what [sanitizeSearchParams] returns whatever the request carries: a
    page between 1 and 1000, a limit between 1 and 100, and for each date
    either nothing or the parameter itself, which then has the shape
    [dddd-dd-dd]. *)
Theorem sanitized_ranges params :
  let sanitized := sanitizeSearchParams params in
  1 <= page' sanitized <= 1000
  /\ 1 <= limit' sanitized <= 100
  /\ (forall d, startDate' sanitized = Some d -> startDate params = Some d /\ isoDate d)
  /\ (forall d, endDate' sanitized = Some d -> endDate params = Some d /\ isoDate d).
Proof.
  cbn. split; [apply clamped_range; lia|]. split; [apply clamped_range; lia|].
  split; apply kept_date.
Qed.

End Parameters.

(** ** The two limiters *)

Section Limiters.

Import RateLimit.

Lemma key_inj a b : key a = key b -> a = b.
Proof. unfold key. intros H. by simplify_eq/=. Qed.

Lemma windowsOpenedBy_later now now' store :
  now <= now' -> windowsOpenedBy now store -> windowsOpenedBy now' store.
Proof.
  intros Hle H k current Hk. destruct (H k current Hk). split; [done|lia].
Qed.

Lemma windowsOpenedBy_insert now store k current :
  1 <= count current ->
  resetAt current <= now + RATE_LIMIT_WINDOW_MS ->
  windowsOpenedBy now store ->
  windowsOpenedBy now (<[k := current]> store).
Proof.
  intros Hc Hr H k' current' Hk'.
  destruct (decide (k = k')) as [<-|Hne].
  - rewrite lookup_insert_eq in Hk'. by injection Hk' as <-.
  - rewrite lookup_insert_ne in Hk' by done. by apply (H k').
Qed.

(** X13: what [checkRateLimit] tells the client, for a limit of at least one
    and a clock that does not run backwards: the remaining requests are
    between 0 and the limit less one, and 0 when the request is denied; the
    window closes in at most a minute, so [X-RateLimit-Reset] is between 0
    and 60 seconds. The store keeps the shape these bounds rest on. *)
Theorem rate_limit_reply identifier maxRequests now now' rateLimitStore :
  1 <= maxRequests ->
  now <= now' ->
  windowsOpenedBy now rateLimitStore ->
  let reply := fst (checkRateLimit identifier maxRequests now' rateLimitStore) in
  let store := snd (checkRateLimit identifier maxRequests now' rateLimitStore) in
  windowsOpenedBy now' store
  /\ 0 <= remaining reply <= maxRequests - 1
  /\ (allowed reply = false -> remaining reply = 0)
  /\ 0 <= resetIn reply <= RATE_LIMIT_WINDOW_MS
  /\ 0 <= Middleware.ceilSeconds (resetIn reply) <= 60.
Proof.
  intros Hlimit Hclock Hstore reply store.
  apply (windowsOpenedBy_later _ _ _ Hclock) in Hstore.
  assert (Hceil : forall ms, 0 <= ms <= RATE_LIMIT_WINDOW_MS ->
                             0 <= Middleware.ceilSeconds ms <= 60).
  { intros ms Hms. unfold Middleware.ceilSeconds, RATE_LIMIT_WINDOW_MS in *.
    pose proof (Z.div_le_upper_bound (- ms) 1000 0 ltac:(lia) ltac:(lia)).
    pose proof (Z.div_le_lower_bound (- ms) 1000 (-60) ltac:(lia) ltac:(lia)). lia. }
  subst reply store. unfold checkRateLimit.
  destruct (rateLimitStore !! key identifier) as [current|] eqn:Hcur.
  - destruct (Hstore _ _ Hcur) as [Hcount Hreset].
    destruct (Z.ltb_spec (resetAt current) now') as [Hexpired|Hopen]; cbn.
    + split; [apply windowsOpenedBy_insert; cbn; [lia|lia|done]|].
      split; [lia|]. split; [done|]. split; [unfold RATE_LIMIT_WINDOW_MS; lia|].
      apply Hceil. unfold RATE_LIMIT_WINDOW_MS. lia.
    + split; [apply windowsOpenedBy_insert; cbn; [lia|lia|done]|].
      split; [lia|]. split; [intros Hdenied%Z.leb_gt; lia|].
      split; [lia|]. apply Hceil. lia.
  - cbn. split; [apply windowsOpenedBy_insert; cbn; [lia|lia|done]|].
    split; [lia|]. split; [done|]. split; [unfold RATE_LIMIT_WINDOW_MS; lia|].
    apply Hceil. unfold RATE_LIMIT_WINDOW_MS. lia.
Qed.

(** The first two requests of a subject, half a second apart. *)
Lemma rate_limit_reply_witness :
  let store := snd (checkRateLimit "A" ADMIN_RATE_LIMIT 1000 ∅) in
  let reply := fst (checkRateLimit "A" ADMIN_RATE_LIMIT 1500 store) in
  0 <= remaining reply <= ADMIN_RATE_LIMIT - 1
  /\ 0 <= Middleware.ceilSeconds (resetIn reply) <= 60.
Proof.
  intros store reply.
  destruct (rate_limit_reply "A" ADMIN_RATE_LIMIT 0 1000 ∅) as (Hstore & _);
    [unfold ADMIN_RATE_LIMIT; lia|lia|intros k current Hk; by rewrite lookup_empty in Hk|].
  destruct (rate_limit_reply "A" ADMIN_RATE_LIMIT 1000 1500 store)
    as (_ & Hremaining & _ & _ & Hreset);
    [unfold ADMIN_RATE_LIMIT; lia|lia|exact Hstore|].
  split; [exact Hremaining|exact Hreset].
Defined.

(** X14: the limiter of the gate and the limiter of the API take the same
    decisions: started on the same windows, they give the same answer to
    every request and are left with the same windows. *)
Theorem limiters_agree identifier maxRequests now rateLimitStore rateLimitMap :
  sameWindows rateLimitStore rateLimitMap ->
  allowed (fst (checkRateLimit identifier maxRequests now rateLimitStore))
  = fst (Proxy.checkRateLimit identifier maxRequests now rateLimitMap)
  /\ sameWindows (snd (checkRateLimit identifier maxRequests now rateLimitStore))
                 (snd (Proxy.checkRateLimit identifier maxRequests now rateLimitMap)).
Proof.
  intros Hsame.
  assert (Hinsert : forall current record,
             count current = Proxy.count record ->
             resetAt current = Proxy.timestamp record + Proxy.RATE_LIMIT_WINDOW ->
             sameWindows (<[key identifier := current]> rateLimitStore)
                         (<[identifier := record]> rateLimitMap)).
  { intros current record Hc Hr other.
    destruct (decide (identifier = other)) as [<-|Hne].
    - by rewrite !lookup_insert_eq.
    - rewrite !lookup_insert_ne; [apply Hsame|done|].
      intros Heq. by apply Hne, key_inj. }
  pose proof (Hsame identifier) as Hid.
  unfold checkRateLimit, Proxy.checkRateLimit.
  destruct (rateLimitStore !! key identifier) as [current|],
           (rateLimitMap !! identifier) as [record|]; try done.
  - destruct Hid as [Hcount Hreset].
    assert (Hwindow : (resetAt current <? now)
                      = (Proxy.RATE_LIMIT_WINDOW <? now - Proxy.timestamp record)).
    { rewrite Hreset. destruct (Z.ltb_spec (Proxy.timestamp record + Proxy.RATE_LIMIT_WINDOW) now),
        (Z.ltb_spec Proxy.RATE_LIMIT_WINDOW (now - Proxy.timestamp record)); lia. }
    rewrite Hwindow.
    destruct (Proxy.RATE_LIMIT_WINDOW <? now - Proxy.timestamp record); cbn.
    + split; [done|]. apply Hinsert; cbn; [done|]. reflexivity.
    + split; [by rewrite Hcount|]. apply Hinsert; cbn; [by rewrite Hcount|done].
  - cbn. split; [done|]. apply Hinsert; cbn; [done|]. reflexivity.
Qed.

Lemma limiters_agree_witness :
  allowed (fst (checkRateLimit "A" 50 1000 ∅)) = fst (Proxy.checkRateLimit "A" 50 1000 ∅).
Proof.
  apply (limiters_agree "A" 50 1000 ∅ ∅).
  intros identifier. by rewrite !lookup_empty.
Defined.

End Limiters.

(** ** Routing by role *)

Section Routing.

Import Proxy Pages.

Lemma roleIsNot_false profile r :
  roleIsNot profile r = false ->
  exists p, profile = Some p /\ Profile.role p = r.
Proof.
  destruct profile as [p|]; [|discriminate]. cbn.
  destruct (String.eqb_spec (Profile.role p) r); [|discriminate]. by exists p.
Qed.

(** X15: what [proxy] never does: a request that it lets through is for a
    public route, or comes from a session whose profile is active and has
    the role the prefix of the path is reserved for. *)
Theorem proxy_admits supabase pathname :
  proxy supabase pathname = Returns Next ->
  isPublicRoute pathname = true
  \/ exists user profile error,
       auth_getUser supabase = Returns (Some user)
       /\ select_profile supabase user = Resolved (Some profile) error
       /\ Profile.status profile = "active"
       /\ (JS.startsWith pathname "/supreme-court" = true ->
           Profile.role profile = "super_admin")
       /\ (JS.startsWith pathname "/admin" = true ->
           Profile.role profile = "admin" \/ Profile.role profile = "super_admin")
       /\ (JS.startsWith pathname "/judge" = true -> Profile.role profile = "judge")
       /\ (JS.startsWith pathname "/api/admin" = true ->
           Profile.role profile = "super_admin")
       /\ (JS.startsWith pathname "/api/audit" = true ->
           Profile.role profile = "admin" \/ Profile.role profile = "super_admin")
       /\ (JS.startsWith pathname "/api/judge" = true ->
           Profile.role profile = "judge" \/ Profile.role profile = "secretary").
Proof.
  unfold proxy.
  destruct (isPublicRoute pathname); [by left|]. right.
  destruct (auth_getUser supabase) as [[user|]|e]; cbn in *; try discriminate.
  destruct (select_profile supabase user) as [e|[profile|] error] eqn:Hprofile;
    cbn in *; try discriminate.
  exists user, profile, error.
  destruct (String.eqb_spec (Profile.status profile) "active") as [Hactive|];
    cbn in *; [|discriminate].
  repeat match goal with
         | H : context [String.eqb (Profile.role profile) ?r] |- _ =>
             destruct (String.eqb_spec (Profile.role profile) r)
         end;
    repeat match goal with
           | H : context [JS.startsWith pathname ?p] |- _ =>
               destruct (JS.startsWith pathname p)
           end;
    cbn in *; try discriminate; intuition congruence.
Qed.

Lemma proxy_admits_witness :
  isPublicRoute "/admin/logs" = true
  \/ exists user profile error,
       auth_getUser (Accounts.client (Some "A")) = Returns (Some user)
       /\ select_profile (Accounts.client (Some "A")) user = Resolved (Some profile) error
       /\ Profile.status profile = "active"
       /\ (JS.startsWith "/admin/logs" "/supreme-court" = true ->
           Profile.role profile = "super_admin")
       /\ (JS.startsWith "/admin/logs" "/admin" = true ->
           Profile.role profile = "admin" \/ Profile.role profile = "super_admin")
       /\ (JS.startsWith "/admin/logs" "/judge" = true -> Profile.role profile = "judge")
       /\ (JS.startsWith "/admin/logs" "/api/admin" = true ->
           Profile.role profile = "super_admin")
       /\ (JS.startsWith "/admin/logs" "/api/audit" = true ->
           Profile.role profile = "admin" \/ Profile.role profile = "super_admin")
       /\ (JS.startsWith "/admin/logs" "/api/judge" = true ->
           Profile.role profile = "judge" \/ Profile.role profile = "secretary").
Proof.
  apply (proxy_admits (Accounts.client (Some "A")) "/admin/logs"). reflexivity.
Defined.

(** X16: the page [HomePage] sends a session to is one [proxy] lets that session
    into, when its profile is active or missing: the two agree on where each
    role belongs. An account that is not active is sent on by [HomePage]
    all the same, and turned back by [proxy]. *)
Theorem landing_admitted supabase user profile error :
  auth_getUser supabase = Returns (Some user) ->
  select_profile supabase user = Resolved profile error ->
  let landing := HomePage (Some user) profile in
  match profile with
  | Some p =>
      if String.eqb (Profile.status p) "active"
      then proxy supabase landing = Returns Next
      else (isPublicRoute landing = false ->
            proxy supabase landing
            = Returns (Redirect "/auth/login" [("error", "account_inactive")]))
  | None => proxy supabase landing = Returns Next
  end.
Proof.
  intros Huser Hprofile landing. subst landing.
  destruct profile as [p|]; [|reflexivity].
  unfold HomePage, proxy. rewrite Huser. cbn. rewrite Hprofile. cbn.
  destruct (String.eqb (Profile.status p) "active"); cbn.
  - destruct (String.eqb (Profile.role p) "super_admin"); [reflexivity|].
    destruct (String.eqb (Profile.role p) "admin"); [reflexivity|].
    destruct (String.eqb (Profile.role p) "judge"); [reflexivity|].
    destruct (String.eqb (Profile.role p) "secretary"); [reflexivity|].
    reflexivity.
  - by intros ->.
Qed.

Lemma landing_admitted_witness :
  proxy (Accounts.client (Some "J")) (HomePage (Some "J") (Accounts.accounts !! "J"))
  = Returns Next.
Proof.
  exact (landing_admitted (Accounts.client (Some "J")) "J" (Accounts.accounts !! "J")
           None eq_refl eq_refl).
Defined.

Lemma admin_prefix pathname :
  JS.startsWith pathname "/admin" = true ->
  isPublicRoute pathname = false
  /\ JS.startsWith pathname "/supreme-court" = false
  /\ JS.startsWith pathname "/judge" = false
  /\ JS.startsWith pathname "/api/admin" = false
  /\ JS.startsWith pathname "/api/audit" = false
  /\ JS.startsWith pathname "/api/judge" = false.
Proof.
  unfold JS.startsWith, isPublicRoute, publicRoutes.
  destruct pathname as [|a [|b [|c rest]]]; try discriminate.
  - cbn [String.prefix]. destruct (ascii_dec "/" a); discriminate.
  - cbn [String.prefix]. destruct (ascii_dec "/" a); [|discriminate].
    destruct (ascii_dec "a" b); discriminate.
  - cbn [String.prefix].
    destruct (ascii_dec "/" a) as [<-|]; [|discriminate].
    destruct (ascii_dec "a" b) as [<-|]; [|discriminate].
    destruct (ascii_dec "d" c) as [<-|]; [|discriminate].
    intros _. cbn. repeat split; reflexivity.
Qed.

(** X17: the four gates of the audit panel agree on who enters: [AdminLayout]
    renders for a session exactly when [requireAdmin] returns for it, when
    [proxy] lets it into a path under [/admin], and when [middleware] does
    so while the session's bucket is within its limit. *)
Theorem admin_gates_agree supabase user profile error pathname now rateLimitMap :
  auth_getUser supabase = Returns (Some user) ->
  select_profile supabase user = Resolved profile error ->
  JS.startsWith pathname "/admin" = true ->
  let enters := AdminLayout (Some user) profile = None in
  (enters <-> exists p, Guards.requireAdmin (Returns supabase) = Returns (user, p))
  /\ (enters <-> proxy supabase pathname = Returns Next)
  /\ (enters /\ fst (checkRateLimit ("admin:" +:+ user) RATE_LIMIT_MAX_ADMIN now rateLimitMap)
                = true
      <-> fst (middleware supabase pathname now rateLimitMap) = Returns Next).
Proof.
  intros Huser Hprofile Hpath enters. subst enters.
  destruct (admin_prefix pathname Hpath) as (Hpublic & Hcourt & Hjudge & Hapi & Haudit & Hapij).
  unfold AdminLayout, Guards.requireAdmin, proxy, middleware, limited.
  rewrite Hpublic, Hcourt, Hjudge, Hapi, Haudit, Hapij, Hpath, Huser.
  cbn. rewrite ?Huser. cbn. rewrite Hprofile. cbn.
  change ("admin" +:+ ":" +:+ user) with ("admin:" +:+ user).
  destruct (checkRateLimit ("admin:" +:+ user) RATE_LIMIT_MAX_ADMIN now rateLimitMap)
    as [within rateLimitMap'].
  destruct profile as [p|]; cbn.
  2:{ split; [split; [discriminate|by intros [p ?]]|].
      split; [split; discriminate|].
      split; [by intros [? _]|]. destruct within; discriminate. }
  destruct (String.eqb (Profile.status p) "active"); cbn.
  2:{ split; [split; [discriminate|by intros [? ?]]|].
      split; [split; discriminate|].
      split; [by intros [? _]|]. destruct within; discriminate. }
  destruct (String.eqb (Profile.role p) "admin"); cbn.
  { split; [split; [by exists p|done]|]. split; [done|].
    destruct within; cbn; split; try done; by intros [_ ?]. }
  destruct (String.eqb (Profile.role p) "super_admin"); cbn.
  { split; [split; [by exists p|done]|]. split; [done|].
    destruct within; cbn; split; try done; by intros [_ ?]. }
  split; [split; [discriminate|by intros [? ?]]|].
  split; [split; discriminate|].
  split; [by intros [? _]|]. destruct within; discriminate.
Qed.

Lemma admin_gates_agree_witness :
  AdminLayout (Some "A") (Accounts.accounts !! "A") = None
  <-> proxy (Accounts.client (Some "A")) "/admin/logs" = Returns Next.
Proof.
  exact (proj1 (proj2 (admin_gates_agree (Accounts.client (Some "A")) "A"
                         (Accounts.accounts !! "A") None "/admin/logs" 0 ∅
                         eq_refl eq_refl eq_refl))).
Defined.

End Routing.

(** ** The aggregated views *)

Section Views.

Import AuditViews.

Lemma countIf_cons {A : Type} (p : A -> bool) x rows :
  countIf p (x :: rows) = Z.b2z (p x) + countIf p rows.
Proof. unfold countIf. cbn. destruct (p x); cbn [length Z.b2z]; lia. Qed.

Lemma countIf_nonneg {A : Type} (p : A -> bool) rows : 0 <= countIf p rows.
Proof. unfold countIf. lia. Qed.

Lemma length_cons_Z {A : Type} (x : A) rows :
  Z.of_nat (length (x :: rows)) = 1 + Z.of_nat (length rows).
Proof. cbn [length]. lia. Qed.

Lemma total_zero {A : Type} (column : A -> Z) rows :
  (forall row, column row = 0) -> total column rows = 0.
Proof.
  intros Hzero. unfold total. induction rows as [|row rest IH]; [done|].
  cbn [map fold_right]. rewrite IH, Hzero. reflexivity.
Qed.

(** Counting by classes that exclude one another. *)
Lemma count_classes {A : Type} (classes : list (A -> bool)) rows :
  (forall x, In x rows -> total (fun p => Z.b2z (p x)) classes <= 1) ->
  total (fun p => countIf p rows) classes <= Z.of_nat (length rows)
  /\ ((forall x, In x rows -> total (fun p => Z.b2z (p x)) classes = 1) ->
      total (fun p => countIf p rows) classes = Z.of_nat (length rows)).
Proof.
  assert (Hstep : forall x rest,
             total (fun p => countIf p (x :: rest)) classes
             = total (fun p => Z.b2z (p x)) classes
               + total (fun p => countIf p rest) classes).
  { intros x rest. unfold total.
    induction classes as [|p ps IH]; [done|]. cbn [map fold_right].
    rewrite IH, countIf_cons. lia. }
  induction rows as [|x rest IH]; intros Hmost.
  - rewrite (total_zero (fun p => countIf p [])) by done. by split.
  - destruct IH as [IHle IHeq]; [intros y Hy; apply Hmost; by right|].
    rewrite Hstep, length_cons_Z. split.
    + specialize (Hmost x (or_introl eq_refl)). lia.
    + intros Hone. rewrite IHeq; [|intros y Hy; apply Hone; by right].
      rewrite (Hone x (or_introl eq_refl)). lia.
Qed.

(** Grouping loses and repeats nothing. *)
Lemma groups_cover {A : Type} (key : A -> Z) (keys : list Z) rows :
  NoDup keys ->
  (forall x, In x rows -> In (key x) keys) ->
  total (fun k => Z.of_nat (length (List.filter (fun x => key x =? k) rows))) keys
  = Z.of_nat (length rows).
Proof.
  intros Hnodup.
  assert (Hone : forall k, In k keys -> total (fun k' => Z.b2z (k =? k')) keys = 1).
  { clear rows. induction Hnodup as [|k0 ks Hnotin _ IH]; [intros k []|].
    intros k [->|Hin]; unfold total in *; cbn [map fold_right].
    - rewrite Z.eqb_refl. cbn [Z.b2z].
      assert (Hzero : fold_right Z.add 0 (map (fun k' => Z.b2z (k =? k')) ks) = 0).
      { clear IH. induction ks as [|k1 ks IH]; [done|]. cbn [map fold_right].
        rewrite IH.
        - destruct (Z.eqb_spec k k1) as [->|]; [|done].
          exfalso. apply Hnotin, list_elem_of_In. by left.
        - intros Hin%list_elem_of_In. apply Hnotin, list_elem_of_In. by right. }
      lia.
    - rewrite (IH k Hin).
      destruct (Z.eqb_spec k k0) as [->|]; [|done].
      exfalso. by apply Hnotin, list_elem_of_In. }
  induction rows as [|x rest IH]; intros Hkeys.
  - by apply total_zero.
  - assert (Hstep :
      total (fun k => Z.of_nat (length (List.filter (fun y => key y =? k) (x :: rest)))) keys
      = total (fun k' => Z.b2z (key x =? k')) keys
        + total (fun k => Z.of_nat (length (List.filter (fun y => key y =? k) rest))) keys).
    { unfold total. clear. induction keys as [|k ks IH]; [done|].
      cbn [map fold_right]. rewrite IH. cbn [List.filter].
      destruct (key x =? k); cbn [length Z.b2z]; lia. }
    rewrite Hstep, IH, (Hone (key x)), length_cons_Z.
    + reflexivity.
    + apply Hkeys. by left.
    + intros y Hy. apply Hkeys. by right.
Qed.

Lemma In_remove_dups (keys : list Z) k : In k (remove_dups keys) <-> In k keys.
Proof. rewrite <- !list_elem_of_In. apply elem_of_remove_dups. Qed.

Lemma decisionRow_result pel :
  decisionRow pel ->
  PolicyEnforcementLog.result pel = "allow" \/ PolicyEnforcementLog.result pel = "deny".
Proof.
  intros (id & timestamp & context & allowed & reason & ->). cbn.
  destruct allowed; [by left|by right].
Qed.

(** X18: [audit_daily_metrics] accounts for every decision once: no day has two
    rows, the totals of the days add up to the size of the log, and in
    each row the allowed and the denied do not exceed the total. For a log
    that [logDecision] wrote they add up to it. *)
Theorem daily_metrics_account log :
  let view := audit_daily_metrics log in
  NoDup (map date view)
  /\ total total_actions view = Z.of_nat (length log)
  /\ (forall row, In row view ->
        1 <= total_actions row
        /\ access_allowed row + access_denied row <= total_actions row)
  /\ ((forall pel, In pel log -> decisionRow pel) ->
      forall row, In row view ->
        access_allowed row + access_denied row = total_actions row).
Proof.
  intros view. subst view. unfold audit_daily_metrics.
  set (day := fun pel => DATE (PolicyEnforcementLog.timestamp pel)).
  set (days := remove_dups (map day log)).
  assert (Hdates : map date (map (metricsOf log) days) = days).
  { rewrite map_map. cbn. apply map_id. }
  assert (Hexclusive : forall pel : PolicyEnforcementLog.t,
             total (fun p => Z.b2z (p pel)) [resultIs "allow"; resultIs "deny"] <= 1).
  { intros pel. unfold total, resultIs. cbn.
    destruct (String.eqb_spec (PolicyEnforcementLog.result pel) "allow") as [->|];
      cbn; [lia|].
    destruct (String.eqb (PolicyEnforcementLog.result pel) "deny"); cbn; lia. }
  split; [rewrite Hdates; apply NoDup_remove_dups|].
  split.
  { unfold total. rewrite map_map. cbn [total_actions metricsOf].
    apply (groups_cover day days log); [apply NoDup_remove_dups|].
    intros pel Hpel. apply In_remove_dups, in_map, Hpel. }
  split.
  - intros row Hrow. apply in_map_iff in Hrow as (d & <- & Hd).
    cbn [total_actions access_allowed access_denied metricsOf].
    apply In_remove_dups, in_map_iff in Hd as (pel & Hday & Hpel).
    split.
    + assert (Hin : In pel (List.filter (onDay d) log)).
      { apply filter_In. split; [done|]. unfold onDay. fold (day pel). lia. }
      destruct (List.filter (onDay d) log); [destruct Hin|]. cbn [length]. lia.
    + destruct (count_classes [resultIs "allow"; resultIs "deny"]
                  (List.filter (onDay d) log)) as [Hle _];
        [intros x _; apply Hexclusive|].
      unfold total in Hle. cbn in Hle. lia.
  - intros Hwritten row Hrow. apply in_map_iff in Hrow as (d & <- & Hd).
    cbn [total_actions access_allowed access_denied metricsOf].
    destruct (count_classes [resultIs "allow"; resultIs "deny"]
                (List.filter (onDay d) log)) as [_ Heq];
      [intros x _; apply Hexclusive|].
    unfold total in Heq. cbn in Heq. rewrite <- Heq; [lia|].
    intros pel Hpel. apply filter_In in Hpel as [Hpel _].
    unfold resultIs.
    destruct (decisionRow_result pel (Hwritten pel Hpel)) as [-> | ->]; reflexivity.
Qed.

(** Two decisions of one day. *)
Lemma daily_metrics_account_witness :
  let log :=
    [ PolicyEnforcementLog.ofEntry "1" 86400
        (ABACEvaluator.entry (EvaluationContext.mk "J" "case.view" "case" None None)
           true "All checks passed" None);
      PolicyEnforcementLog.ofEntry "2" 86500
        (ABACEvaluator.entry (EvaluationContext.mk "S" "case.delete" "case" None None)
           false "Missing required attribute: case.delete" None) ] in
  Forall (fun row => access_allowed row + access_denied row = total_actions row)
         (audit_daily_metrics log).
Proof.
  intros log. apply List.Forall_forall.
  apply (proj2 (proj2 (proj2 (daily_metrics_account log)))).
  intros pel [<-|[<-|[]]]; unfold decisionRow; by do 5 eexists.
Defined.

(** X19: [audit_token_stats] accounts for every token once: no day has two
    rows, the emitted tokens of the days add up to the table, and the
    emitted tokens of a day are the used, the expired, the pending and
    those that are none of the three: the unused tokens without an expiry
    or expiring at the instant of the query. *)
Theorem token_stats_account now tokens :
  let view := audit_token_stats now tokens in
  NoDup (map token_date view)
  /\ total tokens_emitted view = Z.of_nat (length tokens)
  /\ forall row, In row view ->
       let group :=
         List.filter (fun t => DATE (created_at t) =? token_date row) tokens in
       1 <= tokens_emitted row
       /\ tokens_emitted row
          = tokens_used row + tokens_expired_unused row + tokens_pending row
            + countIf (limbo now) group.
Proof.
  intros view. subst view. unfold audit_token_stats.
  set (day := fun t => DATE (created_at t)).
  set (days := remove_dups (map day tokens)).
  assert (Hdates : map token_date (map (tokenStatsOf now tokens) days) = days).
  { rewrite map_map. cbn. apply map_id. }
  split; [rewrite Hdates; apply NoDup_remove_dups|].
  split.
  { unfold total. rewrite map_map. cbn [tokens_emitted tokenStatsOf].
    apply (groups_cover day days tokens); [apply NoDup_remove_dups|].
    intros t Ht. apply In_remove_dups, in_map, Ht. }
  intros row Hrow. apply in_map_iff in Hrow as (d & <- & Hd).
  cbn [token_date tokens_emitted tokens_used tokens_expired_unused tokens_pending
       tokenStatsOf].
  apply In_remove_dups, in_map_iff in Hd as (t & Hday & Ht).
  split.
  - assert (Hin : In t (List.filter (fun t => DATE (created_at t) =? d) tokens)).
    { apply filter_In. split; [done|]. fold (day t). lia. }
    destruct (List.filter _ tokens); [destruct Hin|]. cbn [length]. lia.
  - destruct (count_classes
                [ isUsed;
                  (fun t => before (expires_at t) (Some now) && negb (isUsed t));
                  (fun t => before (Some now) (expires_at t) && negb (isUsed t));
                  limbo now ]
                (List.filter (fun t => DATE (created_at t) =? d) tokens)) as [_ Heq].
    + intros x _. unfold total, limbo, before, isUsed. cbn.
      destruct (used_at x), (expires_at x) as [expiry|]; cbn; try lia;
        destruct (Z.ltb_spec expiry now), (Z.ltb_spec now expiry), (Z.eqb_spec expiry now);
        cbn; lia.
    + unfold total in Heq. cbn [map fold_right] in Heq. rewrite <- Heq; [lia|].
      intros x _. unfold total, limbo, before, isUsed. cbn.
      destruct (used_at x), (expires_at x) as [expiry|]; cbn; try lia;
        destruct (Z.ltb_spec expiry now), (Z.ltb_spec now expiry), (Z.eqb_spec expiry now);
        cbn; lia.
Qed.

Lemma insertByDate_In row sorted x :
  In x (insertByDate row sorted) <-> x = row \/ In x sorted.
Proof.
  induction sorted as [|first rest IH]; cbn; [intuition|].
  destruct (date first <=? date row); cbn; [intuition|].
  rewrite IH. intuition.
Qed.

Lemma orderByDateDesc_In rows x : In x (orderByDateDesc rows) <-> In x rows.
Proof.
  induction rows as [|row rest IH]; [done|]. cbn.
  rewrite insertByDate_In, IH. intuition.
Qed.

Lemma insertByDate_sorted row sorted :
  StronglySorted (fun a b => date b <= date a) sorted ->
  StronglySorted (fun a b => date b <= date a) (insertByDate row sorted).
Proof.
  induction 1 as [|first rest Hrest IH Hfirst]; cbn; [by repeat constructor|].
  destruct (Z.leb_spec (date first) (date row)) as [Hle|Hgt].
  - constructor; [by constructor|]. constructor; [done|].
    eapply Forall_impl; [exact Hfirst|]. cbn. intros b Hb. lia.
  - constructor; [exact IH|].
    apply List.Forall_forall. intros x Hx. apply insertByDate_In in Hx as [->|Hx]; [lia|].
    by apply (proj1 (List.Forall_forall _ _) Hfirst).
Qed.

Lemma orderByDateDesc_sorted rows :
  StronglySorted (fun a b => date b <= date a) (orderByDateDesc rows).
Proof.
  induction rows as [|row rest IH]; [constructor|]. cbn. by apply insertByDate_sorted.
Qed.

(** X20: [get_audit_metrics_safe] answers exactly the callers whose profile has
    the role [admin] or [super_admin], whatever the status of the account
    and whatever attributes it holds; what it returns then are the rows of
    the days from the start to the end date, the latest first. *)
Theorem metrics_safe db uid metrics today p_start_date p_end_date :
  let reply := get_audit_metrics_safe db uid metrics today p_start_date p_end_date in
  let start := default (today - 30) p_start_date in
  let finish := default today p_end_date in
  ((exists rows, reply = Returns rows)
   <-> exists id role,
         uid = Some id /\ users_profile db !! id = Some role
         /\ (role = "admin" \/ role = "super_admin"))
  /\ forall rows, reply = Returns rows ->
       StronglySorted (fun a b => safe_date b <= safe_date a) rows
       /\ forall row,
            In row rows
            <-> exists adm, In adm metrics /\ start <= date adm <= finish
                            /\ row = safeOf adm.
Proof.
  intros reply start finish. subst reply. unfold get_audit_metrics_safe.
  fold start finish.
  set (inRange := fun adm => (start <=? date adm) && (date adm <=? finish)).
  destruct uid as [id|]; cbn.
  2:{ split; [split; [by intros [? [=]]|by intros (? & ? & [=] & _)]|discriminate]. }
  destruct (users_profile db !! id) as [role|] eqn:Hrole; cbn.
  2:{ split; [split; [by intros [? [=]]|]|discriminate].
      intros (? & ? & [= <-] & Hsome & _). by rewrite Hrole in Hsome. }
  destruct (String.eqb_spec role "admin") as [Hadmin|Hadmin]; cbn.
  { split.
    - split; [intros _; exists id, role; by auto|by eexists].
    - intros rows [= <-]. split.
      + clear. induction (orderByDateDesc_sorted (List.filter inRange metrics))
          as [|a l _ IH Ha]; cbn; constructor; [done|].
        apply Forall_map. exact Ha.
      + intros row. rewrite in_map_iff. split.
        * intros (adm & <- & Hin). exists adm.
          apply orderByDateDesc_In, filter_In in Hin as [Hin Hrange].
          unfold inRange in Hrange. split; [done|]. split; [lia|done].
        * intros (adm & Hin & Hrange & ->). exists adm. split; [done|].
          apply orderByDateDesc_In, filter_In. split; [done|]. unfold inRange. lia. }
  destruct (String.eqb_spec role "super_admin") as [Hsuper|Hsuper]; cbn.
  { split.
    - split; [intros _; exists id, role; by auto|by eexists].
    - intros rows [= <-]. split.
      + clear. induction (orderByDateDesc_sorted (List.filter inRange metrics))
          as [|a l _ IH Ha]; cbn; constructor; [done|].
        apply Forall_map. exact Ha.
      + intros row. rewrite in_map_iff. split.
        * intros (adm & <- & Hin). exists adm.
          apply orderByDateDesc_In, filter_In in Hin as [Hin Hrange].
          unfold inRange in Hrange. split; [done|]. split; [lia|done].
        * intros (adm & Hin & Hrange & ->). exists adm. split; [done|].
          apply orderByDateDesc_In, filter_In. split; [done|]. unfold inRange. lia. }
  split; [|discriminate]. split; [by intros [? [=]]|].
  intros (id' & role' & [= <-] & Hrole' & Hor). rewrite Hrole in Hrole'.
  injection Hrole' as <-. by destruct Hor.
Qed.

(** The auditor of the scenarios is answered. *)
Lemma metrics_safe_witness :
  exists rows, get_audit_metrics_safe Scenario.db (Some "A") [] 100 None None = Returns rows.
Proof.
  apply (proj2 (proj1 (metrics_safe Scenario.db (Some "A") [] 100 None None))).
  exists "A", "admin". split; [reflexivity|]. split; [reflexivity|by left].
Defined.

End Views.

(** ** The audit log route *)

Section AuditLogs.

Import JSString Middleware AuditLogsRoute.

(** X21: a request that the guard or the limiter stops leaves no trace but the
    limiter's: when [requireAdminWithPermission] throws, the answer is what
    [createSecureErrorResponse] makes of the error and nothing changes;
    when the limit is exceeded, the answer is 429 and neither the access
    log nor the view is touched. *)
Theorem audit_logs_refused createClient select_view params now st :
  let guard := Guards.requireAdminWithPermission createClient "audit.logs.view" in
  let run := GET createClient select_view params now st in
  (forall e, guard = Throws e ->
     run = (Failure (Guards.status (Guards.createSecureErrorResponse (Some e) 500))
                    (Guards.error (Guards.createSecureErrorResponse (Some e) 500))
                    None,
            st))
  /\ (forall user profile,
        guard = Returns (user, profile) ->
        RateLimit.allowed
          (fst (RateLimit.checkRateLimit user RateLimit.ADMIN_RATE_LIMIT now
                  (rateLimitStore st))) = false ->
        exists headers,
          fst run = Failure 429 (Some "Too many requests. Please wait before trying again.")
                      (Some headers)
          /\ X_RateLimit_Remaining headers = "0"
          /\ accessLog (snd run) = accessLog st
          /\ queries (snd run) = queries st).
Proof.
  intros guard run. subst guard run. unfold GET. split.
  - by intros e ->.
  - intros user profile -> Hdenied.
    destruct (RateLimit.checkRateLimit user RateLimit.ADMIN_RATE_LIMIT now
                (rateLimitStore st)) as [rateLimit store] eqn:Hlimit.
    cbn [fst] in Hdenied. rewrite Hdenied. cbn [negb fst snd].
    eexists. split; [reflexivity|]. split; [|done].
    cbn [X_RateLimit_Remaining getRateLimitHeaders].
    assert (Hremaining : RateLimit.remaining rateLimit = 0).
    { unfold RateLimit.checkRateLimit in Hlimit.
      destruct (rateLimitStore st !! RateLimit.key user) as [current|].
      - destruct (RateLimit.resetAt current <? now).
        + injection Hlimit as <- _. discriminate Hdenied.
        + injection Hlimit as <- _. cbn in *. apply Z.leb_gt in Hdenied.
          unfold RateLimit.ADMIN_RATE_LIMIT in *. lia.
      - injection Hlimit as <- _. discriminate Hdenied. }
    by rewrite Hremaining.
Qed.

Lemma audit_logs_refused_witness :
  GET (Returns (Accounts.client (Some "J"))) (fun _ => Throws "unreachable")
      {| page := None; limit := None; action := None; result := None;
         startDate := None; endDate := None |}
      0 {| rateLimitStore := ∅; accessLog := []; queries := [] |}
  = (Failure 403 (Some "Access denied") None,
     {| rateLimitStore := ∅; accessLog := []; queries := [] |}).
Proof.
  exact (proj1 (audit_logs_refused (Returns (Accounts.client (Some "J")))
                  (fun _ => Throws "unreachable")
                  {| page := None; limit := None; action := None; result := None;
                     startDate := None; endDate := None |}
                  0 {| rateLimitStore := ∅; accessLog := []; queries := [] |})
           "Forbidden" eq_refl).
Defined.

(** X22: a request that is served has passed the guard and the limiter, has
    asked for one row in the access log under the caller's id, and has run
    one query on the view: a window of [limit] rows, at most 100, starting
    at row [(page - 1) * limit], filtered by a result that is [allow] or
    [deny], by dates of the shape [dddd-dd-dd] and by an action pattern of
    at most 50 code units out of letters, digits, [.], [_] and [-]. *)
Theorem audit_logs_served createClient select_view params now st
    data pagination filters headers st' :
  GET createClient select_view params now st
  = (Success data pagination filters headers, st') ->
  exists user profile accessed query,
    Guards.requireAdminWithPermission createClient "audit.logs.view"
    = Returns (user, profile)
    /\ RateLimit.checkRateLimit user RateLimit.ADMIN_RATE_LIMIT now (rateLimitStore st)
       = ({| RateLimit.allowed := true;
             RateLimit.remaining := RateLimit.remaining
                                      (fst (RateLimit.checkRateLimit user
                                              RateLimit.ADMIN_RATE_LIMIT now
                                              (rateLimitStore st)));
             RateLimit.resetIn := RateLimit.resetIn
                                    (fst (RateLimit.checkRateLimit user
                                            RateLimit.ADMIN_RATE_LIMIT now
                                            (rateLimitStore st))) |},
          rateLimitStore st')
    /\ accessLog st' = (accessLog st ++ [accessed])%list
    /\ AccessLog.accessed_by accessed = user
    /\ AccessLog.view_accessed accessed = "audit_logs_sanitized"
    /\ queries st' = (queries st ++ [query])%list
    /\ 1 <= page' pagination <= 1000
    /\ 1 <= limit' pagination <= 100
    /\ range_from query = (page' pagination - 1) * limit' pagination
    /\ range_to query - range_from query + 1 = limit' pagination
    /\ (eq_result query = None \/ eq_result query = Some (units "allow")
        \/ eq_result query = Some (units "deny"))
    /\ (forall pattern, ilike_action query = Some pattern ->
          exists a, pattern = (units "%" ++ a ++ units "%")%list
                    /\ Forall (fun c => isActionChar c = true) a
                    /\ (1 <= length a <= 50)%nat)
    /\ (forall t, gte_timestamp query = Some t ->
          exists d, t = (d ++ units "T00:00:00Z")%list /\ isoDate d)
    /\ (forall t, lte_timestamp query = Some t ->
          exists d, t = (d ++ units "T23:59:59Z")%list /\ isoDate d).
Proof.
  unfold GET.
  destruct (Guards.requireAdminWithPermission createClient "audit.logs.view")
    as [[user profile]|e] eqn:Hguard; [|discriminate].
  assert (Hclient : exists supabase, createClient = Returns supabase).
  { destruct createClient as [supabase|e]; [by exists supabase|discriminate]. }
  destruct Hclient as [supabase ->].
  destruct (RateLimit.checkRateLimit user RateLimit.ADMIN_RATE_LIMIT now (rateLimitStore st))
    as [[allowed remaining resetIn] store] eqn:Hlimit.
  cbn [RateLimit.allowed RateLimit.remaining RateLimit.resetIn fst].
  destruct allowed; cbn [negb]; [|discriminate].
  set (sanitized := sanitizeSearchParams _).
  set (query := Build_Query _ _ _ _ _ _).
  destruct (select_view query) as [reply|e]; [|discriminate].
  destruct (error reply); [discriminate|].
  intros [= <- <- <- <- <-]. cbn [page' limit'].
  assert (Hpage : 1 <= Middleware.page' sanitized <= 1000)
    by (apply clamped_range; lia).
  assert (Hlim : 1 <= Middleware.limit' sanitized <= 100)
    by (apply clamped_range; lia).
  assert (Hstart : forall d, startDate' sanitized = Some d ->
                             startDate params = Some d /\ isoDate d)
    by (intros d; apply kept_date).
  assert (Hend : forall d, endDate' sanitized = Some d ->
                           endDate params = Some d /\ isoDate d)
    by (intros d; apply kept_date).
  eexists user, profile, _, query. rewrite Hlimit.
  split; [reflexivity|]. split; [reflexivity|].
  cbn [rateLimitStore accessLog queries logAuditAccess].
  split; [reflexivity|]. split; [reflexivity|]. split; [reflexivity|]. split; [reflexivity|].
  split; [exact Hpage|]. split; [exact Hlim|].
  split; [reflexivity|]. split; [cbn; lia|].
  split.
  { cbn [eq_result query]. destruct (result params) as [r|]; [|by left].
    destruct (bool_decide (r = units "allow")) eqn:Hallow; cbn [orb].
    { apply bool_decide_eq_true in Hallow. right; left. f_equal. exact Hallow. }
    destruct (bool_decide (r = units "deny")) eqn:Hdeny; [|by left].
    apply bool_decide_eq_true in Hdeny. right; right. f_equal. exact Hdeny. }
  split.
  { intros pattern. cbn [ilike_action query].
    destruct (action params) as [a|]; cbn; [|discriminate].
    set (kept := firstn 50 (List.filter isActionChar a)).
    assert (Hkept : Forall (fun c => isActionChar c = true) kept).
    { apply List.Forall_forall. intros c Hc.
      assert (Hin : In c (List.filter isActionChar a)).
      { rewrite <- (firstn_skipn 50). apply in_or_app. by left. }
      apply filter_In in Hin. tauto. }
    assert (Hlen : (length kept <= 50)%nat) by apply firstn_le_length.
    destruct kept as [|c rest]; cbn; [discriminate|].
    intros [= <-]. exists (c :: rest). split; [reflexivity|]. split; [done|].
    cbn [length] in *. lia. }
  split.
  - intros t. cbn [gte_timestamp query].
    destruct (startDate' sanitized) as [d|] eqn:Hd; cbn; [|discriminate].
    intros [= <-]. exists d. split; [done|]. by apply (Hstart d).
  - intros t. cbn [lte_timestamp query].
    destruct (endDate' sanitized) as [d|] eqn:Hd; cbn; [|discriminate].
    intros [= <-]. exists d. split; [done|]. by apply (Hend d).
Qed.

(** The first page, asked for by the super administrator. *)
Lemma audit_logs_served_witness :
  exists user profile accessed query,
    Guards.requireAdminWithPermission (Returns (Accounts.client (Some "R")))
      "audit.logs.view" = Returns (user, profile)
    /\ AccessLog.accessed_by accessed = user
    /\ (1 <= range_to query - range_from query + 1 <= 100).
Proof.
  assert (Hrun : exists data pagination filters headers st',
             GET (Returns (Accounts.client (Some "R")))
               (fun _ => Returns {| logs := Some []; error := None; count := Some 0 |})
               {| page := None; limit := None; action := None; result := None;
                  startDate := None; endDate := None |}
               0 {| rateLimitStore := ∅; accessLog := []; queries := [] |}
             = (Success data pagination filters headers, st')).
  { vm_compute. by do 5 eexists. }
  destruct Hrun as (data & pagination & filters & headers & st' & Hrun).
  destruct (audit_logs_served _ _ _ _ _ _ _ _ _ _ Hrun)
    as (user & profile & accessed & query & Hguard & _ & _ & Hby & _ & _ & _ & Hlimit
        & _ & Hrange & _).
  exists user, profile, accessed, query. rewrite Hrange.
  split; [exact Hguard|]. split; [exact Hby|exact Hlimit].
Defined.

End AuditLogs.

(** ** The second gate *)

Section SecondGate.

Import Proxy.

(** X23: what [middleware] never does: a request for a path under [/admin],
    [/api/audit], [/dashboard] or [/api/admin] that it lets through comes
    from a session and has been charged to that session's bucket of the
    area, which was within its limit; any other path is let through with
    the buckets untouched. A request without a session never gets through
    the four areas and charges no bucket. *)
Theorem middleware_admits supabase pathname now rateLimitMap rateLimitMap' :
  middleware supabase pathname now rateLimitMap = (Returns Next, rateLimitMap') ->
  (existsb (JS.startsWith pathname) ["/admin"; "/api/audit"; "/dashboard"; "/api/admin"]
   = false
   /\ rateLimitMap' = rateLimitMap)
  \/ exists user bucket maxRequests,
       auth_getUser supabase = Returns (Some user)
       /\ In (bucket, maxRequests)
             [ ("admin", 50); ("audit-api", 50); ("dashboard", 100); ("api-admin", 100) ]
       /\ JS.startsWith pathname
            (match bucket with
             | "admin" => "/admin"
             | "audit-api" => "/api/audit"
             | "dashboard" => "/dashboard"
             | _ => "/api/admin"
             end) = true
       /\ checkRateLimit (bucket +:+ ":" +:+ user) maxRequests now rateLimitMap
          = (true, rateLimitMap').
Proof.
  unfold middleware, limited.
  destruct (auth_getUser supabase) as [user|e]; [|discriminate].
  cbn [existsb].
  destruct (JS.startsWith pathname "/admin") eqn:Hadmin.
  { destruct user as [user|]; [|discriminate].
    destruct (checkRateLimit _ RATE_LIMIT_MAX_ADMIN now rateLimitMap)
      as [[] store] eqn:Hlimit; [|discriminate].
    intros [= _ <-]. right. exists user, "admin", 50.
    split; [done|]. split; [by left|]. split; [done|]. exact Hlimit. }
  destruct (JS.startsWith pathname "/api/audit") eqn:Haudit.
  { destruct user as [user|]; [|discriminate].
    destruct (checkRateLimit _ RATE_LIMIT_MAX_ADMIN now rateLimitMap)
      as [[] store] eqn:Hlimit; [|discriminate].
    intros [= <-]. right. exists user, "audit-api", 50.
    split; [done|]. split; [right; by left|]. split; [done|]. exact Hlimit. }
  destruct (JS.startsWith pathname "/dashboard") eqn:Hdashboard.
  { destruct user as [user|]; [|discriminate].
    destruct (checkRateLimit _ RATE_LIMIT_MAX_GENERAL now rateLimitMap)
      as [[] store] eqn:Hlimit; [|discriminate].
    intros [= <-]. right. exists user, "dashboard", 100.
    split; [done|]. split; [right; right; by left|]. split; [done|]. exact Hlimit. }
  destruct (JS.startsWith pathname "/api/admin") eqn:Hapi.
  { destruct user as [user|]; [|discriminate].
    destruct (checkRateLimit _ RATE_LIMIT_MAX_GENERAL now rateLimitMap)
      as [[] store] eqn:Hlimit; [|discriminate].
    intros [= <-]. right. exists user, "api-admin", 100.
    split; [done|]. split; [right; right; right; by left|]. split; [done|]. exact Hlimit. }
  intros [= <-]. by left.
Qed.

Lemma middleware_admits_witness :
  exists user,
    auth_getUser (Accounts.client (Some "S")) = Returns (Some user)
    /\ fst (checkRateLimit ("dashboard" +:+ ":" +:+ user) 100 0 ∅) = true.
Proof.
  assert (Hrun : exists rateLimitMap',
             middleware (Accounts.client (Some "S")) "/dashboard/secretary" 0 ∅
             = (Returns Next, rateLimitMap')).
  { vm_compute. by eexists. }
  destruct Hrun as [rateLimitMap' Hrun].
  destruct (middleware_admits _ _ _ _ _ Hrun)
    as [[Hnone _]|(user & bucket & maxRequests & Huser & _ & _ & _)].
  - discriminate Hnone.
  - exists user. split; [exact Huser|]. reflexivity.
Defined.

End SecondGate.

(** ** Identifiers in the anonymised view *)

Section Identifiers.

Import JSString Middleware AuditLogsSanitized.

Lemma test_matchesAt units_pattern pattern (s : string) :
  Forall2 covers units_pattern pattern ->
  test units_pattern (units s) = true ->
  lowerHex s = true ->
  matchesAt pattern s = true.
Proof.
  intros Hcovers. revert s.
  induction Hcovers as [|p q ps qs Hpq _ IH]; intros s; [done|].
  destruct s as [|c s]; [discriminate|].
  unfold units, lowerHex. cbn [list_ascii_of_string map test forallb matchesAt].
  intros [Hc Hs]%andb_true_iff [Hlow Hrest]%andb_true_iff.
  rewrite (Hpq c Hc Hlow). by apply IH.
Qed.

Lemma covers_hex : covers isHexDigit isHex.
Proof.
  intros c. unfold isHexDigit, isHex, isDigit, between.
  set (n := nat_of_ascii c).
  rewrite !orb_true_iff, !andb_true_iff, negb_true_iff, andb_false_iff,
    !Z.leb_le, !Nat.leb_le, !Nat.leb_gt. lia.
Qed.

Lemma covers_dash : covers (Z.eqb 45) isDash.
Proof.
  intros c. unfold isDash. rewrite Z.eqb_eq, Nat.eqb_eq. lia.
Qed.

Lemma covers_four : covers (Z.eqb 52) isHex.
Proof.
  intros c. unfold isHex. set (n := nat_of_ascii c).
  rewrite Z.eqb_eq, !orb_true_iff, !andb_true_iff, !Nat.leb_le. lia.
Qed.

Lemma covers_variant : covers isVariant isHex.
Proof.
  intros c. unfold isVariant, isHex. set (n := nat_of_ascii c).
  rewrite !orb_true_iff, !andb_true_iff, negb_true_iff, andb_false_iff,
    !Z.eqb_eq, !Nat.leb_le, !Nat.leb_gt. lia.
Qed.

(** X24: an identifier that [isValidUUID] accepts, written without capitals, is
    redacted by the anonymised view wherever a reason quotes it: the whole
    reason is replaced. *)
Theorem valid_uuid_redacted (uuid reason : string) :
  isValidUUID (units uuid) = true ->
  lowerHex uuid = true ->
  JS.includes reason uuid = true ->
  sanitize (Some reason) = Some "Access decision logged".
Proof.
  intros Hvalid Hlower Hquoted. cbn [sanitize].
  rewrite (includes_matches uuidPattern reason uuid); [reflexivity| |exact Hquoted].
  apply (test_matchesAt UUID_REGEX); [|exact Hvalid|exact Hlower].
  unfold UUID_REGEX, uuidPattern. cbn [repeat app].
  repeat (constructor; [first [apply covers_hex | apply covers_dash | apply covers_four
                              | apply covers_variant]|]).
  constructor.
Qed.

Lemma valid_uuid_redacted_witness :
  sanitize (Some "User 3f2b1c4d-5e6f-4a7b-8c9d-0e1f2a3b4c5d lacks clearance")
  = Some "Access decision logged".
Proof.
  apply (valid_uuid_redacted "3f2b1c4d-5e6f-4a7b-8c9d-0e1f2a3b4c5d"); vm_compute; reflexivity.
Defined.

End Identifiers.
